(** * OPD claim adjudication: a shallow embedding of the rule pipeline

    The development follows the Python sources of the adjudication tool:

    - [app/tools/policy_tools.py]      (module [PolicyTools])
    - [app/tools/fraud_detection.py]   (module [FraudDetection])
    - [app/agents/eligibility_checker.py], [coverage_validator.py],
      [limit_calculator.py], [decision_maker.py]
    - [app/workflows/claim_adjudication.py] (module [Workflow])

    Modelling conventions.
    - Python floats are idealised as exact rationals ([Q]); the built-in
      [round(x, 2)] is round-half-to-even to the nearest hundredth.
      Numeric results are compared with [==] ([Qeq]).
    - Python dictionaries with a fixed set of keys are records whose
      optional keys are [option] fields; an absent key and a [None] value
      are not distinguished.  [Some d] for a nested document dictionary
      means a non-empty (truthy) dictionary.
    - Strings are byte strings; [lower]/[upper] act on ASCII letters.
    - Free-text [notes]/[next_steps] fields, which only interpolate values
      already present in the results, are left out of the records.
    - What the code reads from the outside world (clock, uuid generator,
      language-model replies) is gathered in an explicit environment. *)

From Stdlib Require Import ZArith QArith Qround Qminmax String Ascii List Bool Lia Lqa.
Import ListNotations.

Set Implicit Arguments.

(* ================================================================== *)
(** ** Python string helpers *)

Module PyStr.
Local Open Scope string_scope.

Definition is_upper_ascii (c : ascii) : bool :=
  let n := nat_of_ascii c in (65 <=? n)%nat && (n <=? 90)%nat.

Definition is_lower_ascii (c : ascii) : bool :=
  let n := nat_of_ascii c in (97 <=? n)%nat && (n <=? 122)%nat.

Definition is_digit (c : ascii) : bool :=
  let n := nat_of_ascii c in (48 <=? n)%nat && (n <=? 57)%nat.

(** [str.isspace] on the ASCII range: space, TAB, LF, VT, FF, CR and the
    separators FS, GS, RS, US. *)
Definition is_space (c : ascii) : bool :=
  let n := nat_of_ascii c in
  (n =? 32)%nat || ((9 <=? n)%nat && (n <=? 13)%nat)
  || ((28 <=? n)%nat && (n <=? 31)%nat).

Definition lower_char (c : ascii) : ascii :=
  if is_upper_ascii c then ascii_of_nat (nat_of_ascii c + 32) else c.

Definition upper_char (c : ascii) : ascii :=
  if is_lower_ascii c then ascii_of_nat (nat_of_ascii c - 32) else c.

Fixpoint map_chars (f : ascii -> ascii) (s : string) : string :=
  match s with
  | EmptyString => EmptyString
  | String c s' => String (f c) (map_chars f s')
  end.

(** [s.lower()] and [s.upper()] *)
Definition lower : string -> string := map_chars lower_char.
Definition upper : string -> string := map_chars upper_char.

(** [sub in s] *)
Fixpoint contains (sub s : string) : bool :=
  if prefix sub s then true
  else match s with
       | EmptyString => false
       | String _ s' => contains sub s'
       end.

(** [any(kw in s for kw in kws)] *)
Definition any_in (kws : list string) (s : string) : bool :=
  existsb (fun kw => contains kw s) kws.

(** [x in xs] for a list of strings *)
Definition mem (x : string) (xs : list string) : bool :=
  existsb (String.eqb x) xs.

(** [bool(s)] *)
Definition truthy (s : string) : bool :=
  match s with EmptyString => false | _ => true end.

Fixpoint lstrip (s : string) : string :=
  match s with
  | String c s' => if is_space c then lstrip s' else s
  | EmptyString => EmptyString
  end.

Fixpoint rstrip (s : string) : string :=
  match s with
  | EmptyString => EmptyString
  | String c s' =>
      match rstrip s' with
      | EmptyString => if is_space c then EmptyString else String c EmptyString
      | r => String c r
      end
  end.

(** [s.strip()] *)
Definition strip (s : string) : string := rstrip (lstrip s).

(** [sep.join(xs)] *)
Fixpoint join (sep : string) (xs : list string) : string :=
  match xs with
  | [] => ""
  | [x] => x
  | x :: rest => x ++ sep ++ join sep rest
  end.

(** [str(xs)] for a list of strings: the items in single quotes,
    separated by a comma and a space, in square brackets.  The escaping
    that [repr] applies to quotes, backslashes and non-printable
    characters inside an item is not modelled. *)
Definition repr_list (xs : list string) : string :=
  "[" ++ join ", " (map (fun x => "'" ++ x ++ "'") xs) ++ "]".

(** [s.split(sep)] for a one-character separator *)
Fixpoint split_on (sep : ascii) (s : string) : list string :=
  match s with
  | EmptyString => [EmptyString]
  | String c s' =>
      if Ascii.eqb c sep then EmptyString :: split_on sep s'
      else match split_on sep s' with
           | [] => [String c EmptyString]
           | w :: ws => String c w :: ws
           end
  end.

Fixpoint all_chars (p : ascii -> bool) (s : string) : bool :=
  match s with
  | EmptyString => true
  | String c s' => p c && all_chars p s'
  end.

(** [s.isascii()]: on such strings [lower] and [upper] are Python's; on
    others Python also changes letters outside A-Z and a-z, and may change
    the length (a sharp s becomes SS in upper case). *)
Definition is_ascii (s : string) : bool :=
  all_chars (fun c => (nat_of_ascii c <? 128)%nat) s.

Definition digit_val (c : ascii) : Z := Z.of_nat (nat_of_ascii c - 48).

Fixpoint int_of_digits_from (acc : Z) (s : string) : Z :=
  match s with
  | EmptyString => acc
  | String c s' => int_of_digits_from (10 * acc + digit_val c) s'
  end.

(** [int(s)] for a string of ASCII digits *)
Definition int_of_digits (s : string) : Z := int_of_digits_from 0 s.

(** [f"{n:0{w}d}"] for a non-negative [n]: decimal digits, zero padded *)
Fixpoint zfill_digits (w : nat) (n : Z) : string :=
  match w with
  | O => ""
  | S w' => zfill_digits w' (n / 10)
              ++ String (ascii_of_nat (48 + Z.to_nat (n mod 10))) ""
  end.

End PyStr.

(* ================================================================== *)
(** ** Amounts: comparisons and [round(x, 2)] *)

Module Money.
Local Open Scope Q_scope.

(** [a < b], [a <= b], [a > b], [a >= b] on numbers *)
Definition ltb (a b : Q) : bool := negb (Qle_bool b a).
Definition leb (a b : Q) : bool := Qle_bool a b.
Definition gtb (a b : Q) : bool := ltb b a.
Definition geb (a b : Q) : bool := leb b a.

(** Nearest integer, ties to the even neighbour. *)
Definition round_half_even (q : Q) : Z :=
  let f := Qfloor q in
  match Qcompare (q - inject_Z f) (1 # 2) with
  | Lt => f
  | Gt => (f + 1)%Z
  | Eq => if Z.even f then f else (f + 1)%Z
  end.

(** [round(q, 2)] *)
Definition round2 (q : Q) : Q := inject_Z (round_half_even (q * 100)) * (1 # 100).

(** An amount with at most two decimal places (whole paise). *)
Definition two_decimals (q : Q) : Prop := exists z : Z, q == inject_Z z * (1 # 100).

(** [a % m == 0] for a positive modulus *)
Definition is_multiple_of (m a : Q) : bool :=
  Qeq_bool (inject_Z (Qfloor (a / m)) * m) a.

(** An amount of at most a billion either way.  The code computes in
    binary floating point; on such amounts a sum, difference or product
    is off from the exact one by far less than a hundredth. *)
Definition moderate (q : Q) : Prop := - (1000000000) <= q <= 1000000000.

End Money.

(* ================================================================== *)
(** ** Calendar dates: [datetime.strptime], [toordinal], [weekday] *)

Module PyDate.
Import PyStr.
Local Open Scope Z_scope.

Record Date := { year : Z; month : Z; day : Z }.

Definition is_leap (y : Z) : bool :=
  (y mod 4 =? 0) && (negb (y mod 100 =? 0) || (y mod 400 =? 0)).

Definition days_in_month (y m : Z) : Z :=
  if m =? 2 then (if is_leap y then 29 else 28)
  else if (m =? 4) || (m =? 6) || (m =? 9) || (m =? 11) then 30
  else 31.

Definition days_before_year (y : Z) : Z :=
  let y1 := y - 1 in y1 * 365 + y1 / 4 - y1 / 100 + y1 / 400.

Definition days_before_month_table : list Z :=
  [0; 0; 31; 59; 90; 120; 151; 181; 212; 243; 273; 304; 334].

Definition days_before_month (y m : Z) : Z :=
  nth (Z.to_nat m) days_before_month_table 0
  + (if (2 <? m) && is_leap y then 1 else 0).

(** [d.toordinal()]: 1 for January 1st of year 1 *)
Definition toordinal (d : Date) : Z :=
  days_before_year (year d) + days_before_month (year d) (month d) + day d.

(** [d.weekday()]: Monday is 0, Sunday is 6 *)
Definition weekday (d : Date) : Z := (toordinal d + 6) mod 7.

(** [date.fromordinal(n)] *)
Definition fromordinal (n0 : Z) : Date :=
  let n := n0 - 1 in
  let n400 := n / 146097 in
  let n := n mod 146097 in
  let n100 := n / 36524 in
  let n := n mod 36524 in
  let n4 := n / 1461 in
  let n := n mod 1461 in
  let n1 := n / 365 in
  let n := n mod 365 in
  let y := n400 * 400 + 1 + n100 * 100 + n4 * 4 + n1 in
  if (n1 =? 4) || (n100 =? 4) then
    {| year := y - 1; month := 12; day := 31 |}
  else
    let leapyear := (n1 =? 3) && (negb (n4 =? 24) || (n100 =? 3)) in
    let m := Z.shiftr (n + 50) 5 in
    let preceding :=
      nth (Z.to_nat m) days_before_month_table 0
      + (if (2 <? m) && leapyear then 1 else 0) in
    if n <? preceding then
      let m' := m - 1 in
      let dim := (if m' =? 2 then (if leapyear then 29 else 28)
                  else if (m' =? 4) || (m' =? 6) || (m' =? 9) || (m' =? 11)
                       then 30 else 31) in
      {| year := y; month := m'; day := n - (preceding - dim) + 1 |}
    else
      {| year := y; month := m; day := n - preceding + 1 |}.

(** [d + timedelta(days=k)] *)
Definition add_days (d : Date) (k : Z) : Date := fromordinal (toordinal d + k).

(** [date.max.toordinal()]: December 31st of the year 9999. *)
Definition max_ordinal : Z := 3652059.

(** The sums [d + timedelta(days=k)] that fall between [date.min] and
    [date.max]; for the others Python raises OverflowError, of which
    [add_days] knows nothing. *)
Definition add_days_defined (d : Date) (k : Z) : Prop :=
  1 <= toordinal d + k <= max_ordinal.

Definition numeric_field (s : string) (lo hi : Z) : option Z :=
  let len := String.length s in
  if all_chars is_digit s && ((len =? 1)%nat || (len =? 2)%nat) then
    let v := int_of_digits s in
    if (lo <=? v) && (v <=? hi) then Some v else None
  else None.

(** The day directive also accepts a space followed by one digit. *)
Definition day_field (s : string) : option Z :=
  match s with
  | String " " (String c EmptyString) =>
      if is_digit c && negb (Ascii.eqb c "0") then Some (digit_val c) else None
  | _ => numeric_field s 1 31
  end.

(** [datetime.strptime(s, "%Y-%m-%d")]; [None] stands for [ValueError].
    The year is exactly four digits, month and day one or two; the date
    must exist in the calendar. *)
Definition strptime (s : string) : option Date :=
  match split_on "-" s with
  | [ys; ms; ds] =>
      if all_chars is_digit ys && (String.length ys =? 4)%nat then
        match numeric_field ms 1 12, day_field ds with
        | Some m, Some d =>
            let y := int_of_digits ys in
            if (1 <=? y) && (d <=? days_in_month y m)
            then Some {| year := y; month := m; day := d |}
            else None
        | _, _ => None
        end
      else None
  | _ => None
  end.

(** [d.strftime("%Y-%m-%d")], for years from 1000 on *)
Definition strftime (d : Date) : string :=
  (zfill_digits 4 (year d) ++ "-" ++ zfill_digits 2 (month d) ++ "-"
   ++ zfill_digits 2 (day d))%string.

(** [d.strftime("%Y%m%d")] *)
Definition strftime_compact (d : Date) : string :=
  (zfill_digits 4 (year d) ++ zfill_digits 2 (month d)
   ++ zfill_digits 2 (day d))%string.

End PyDate.

(* ================================================================== *)
(** ** Data model: claim submission and policy terms *)

(** A value stored in a small result dictionary: a number, or anything
    else (flag, list, nested table) that the pipeline never reads. *)
Inductive PyVal : Type :=
| VNum (q : Q)
| VOther.

Definition dict : Type := list (string * PyVal).

Fixpoint dict_lookup (A : Type) (k : string) (d : list (string * A)) : option A :=
  match d with
  | [] => None
  | (k', v) :: rest => if String.eqb k k' then Some v else dict_lookup k rest
  end.

(** [d[k] = v] *)
Fixpoint dict_set (A : Type) (k : string) (v : A) (d : list (string * A))
  : list (string * A) :=
  match d with
  | [] => [(k, v)]
  | (k', v') :: rest =>
      if String.eqb k k' then (k', v) :: rest else (k', v') :: dict_set k v rest
  end.

(** [d.get(k, default)] where a number is expected *)
Definition dict_get_num (d : dict) (k : string) (default : Q) : Q :=
  match dict_lookup k d with
  | Some (VNum q) => q
  | _ => default
  end.

(** [o if o is present else default] *)
Definition get_default (A : Type) (o : option A) (default : A) : A :=
  match o with Some a => a | None => default end.

(** Truthiness of an optional string: [None] and [""] are falsy. *)
Definition str_truthy (o : option string) : bool :=
  match o with Some s => PyStr.truthy s | None => false end.

Module Claim.

(** [models/claim.py], [PrescriptionData] as submitted in the claim *)
Record Prescription : Type := {
doctor_name : option string;
doctor_reg : option string;
p_diagnosis : option string;
medicines_prescribed : list string;
tests_prescribed : list string;
p_procedures : list string;
treatment : option string
}.

(** [models/claim.py], [BillData]: only the keys the pipeline reads *)
Record Bill : Type := {
consultation_fee : option Q;
b_medicines : option Q;
diagnostic_tests : option Q;
root_canal : option Q;
therapy_charges : option Q;
teeth_whitening : option Q;
diet_plan : option Q;
cosmetic : option Q;
b_hospital_name : option string
}.

Record Documents : Type := {
prescription : option Prescription;
bill : option Bill
}.

(** The claim submission dictionary handed to [process_claim].
  [pre_auth_obtained] is a key a caller may add; it is part of the
  submission so that statements can mention it. *)
Record ClaimData : Type := {
claim_id : option string;
member_id : option string;
member_name : option string;
treatment_date : string;
claim_amount : Q;
hospital : option string;
cashless_request : bool;
category : option string;
documents : Documents;
member_join_date : option string;
previous_claims_same_day : Z;
previous_claims_ytd : Q;
pre_auth_obtained : bool
}.

End Claim.
Import Claim.

(** A per-category block of [coverage_details] in [policy_terms.json] *)
Record CategoryTerms : Type := {
  ct_sub_limit : option Q;
  ct_copay_percentage : option Q;
  ct_network_discount : option Q
}.

Definition no_terms : CategoryTerms :=
  {| ct_sub_limit := None; ct_copay_percentage := None; ct_network_discount := None |}.

Record CoverageDetails : Type := {
  cd_annual_limit : option Q;
  cd_per_claim_limit : option Q;
  consultation_fees : CategoryTerms;
  cd_diagnostic_tests : CategoryTerms;
  pharmacy : CategoryTerms;
  dental : CategoryTerms;
  vision : CategoryTerms;
  alternative_medicine : CategoryTerms
}.

Record WaitingPeriods : Type := {
  initial_waiting : option Z;
  pre_existing_diseases : option Z;
  maternity : option Z;
  specific_ailments : list (string * Z)
}.

(** The policy document served by [get_policy_terms] *)
Record PolicyTerms : Type := {
  coverage_details : CoverageDetails;
  waiting_periods : WaitingPeriods;
  exclusions : list string;
  network_hospitals : list string;
  minimum_claim_amount : option Q
}.

(** The policy when [policy_terms.json] is absent: every lookup falls
    back on the default written in the code. *)
Definition empty_policy : PolicyTerms :=
  {| coverage_details :=
       {| cd_annual_limit := None; cd_per_claim_limit := None;
          consultation_fees := no_terms; cd_diagnostic_tests := no_terms;
          pharmacy := no_terms; dental := no_terms; vision := no_terms;
          alternative_medicine := no_terms |};
     waiting_periods :=
       {| initial_waiting := None; pre_existing_diseases := None;
          maternity := None; specific_ailments := [] |};
     exclusions := [];
     network_hospitals := [];
     minimum_claim_amount := None |}.

(* ================================================================== *)
(** ** [app/tools/policy_tools.py] *)

Module PolicyTools.
Import PyStr.
Local Open Scope string_scope.
Local Open Scope Q_scope.

(** Result of [calculate_copay] *)
Record CopayInfo : Type := {
  ci_copay_amount : Q;
  ci_copay_percentage : Q;
  ci_network_discount : Q;
  ci_network_discount_percentage : Q;
  ci_payable_amount : Q
}.

(** The exclusion groups of [check_exclusions], in source order; each
    group carries the title its name produces through
    [replace('_', ' ').title()]. *)
Definition exclusion_keywords : list (string * list string) :=
  [ ("Cosmetic", ["cosmetic"; "whitening"; "aesthetic"; "beauty"; "bleaching"]);
    ("Weight Loss", ["weight loss"; "obesity"; "bariatric"; "diet plan"; "slimming"]);
    ("Infertility", ["infertility"; "ivf"; "fertility"]);
    ("Experimental", ["experimental"; "unproven"; "clinical trial"]);
    ("Self Inflicted", ["self-inflicted"; "self inflicted"; "suicide"]);
    ("Adventure Sports", ["adventure sports"; "bungee"; "skydiving"; "paragliding"]);
    ("Alcohol Drugs", ["alcoholism"; "drug abuse"; "addiction"; "substance"]) ].

Definition pre_auth_tests : list string := ["mri"; "ct scan"; "pet scan"].

(** [check_pre_authorization_required(test_name, amount)]; the policy's
    diagnostic block is fetched by the code but not consulted. *)
Definition check_pre_authorization_required (test_name : string) (amount : Q) : bool :=
  let test_lower := lower test_name in
  existsb (fun test => contains test test_lower && Money.gtb amount 10000)
          pre_auth_tests.

Section WithPolicy.
Variable policy : PolicyTerms.

Definition get_coverage_details : CoverageDetails := coverage_details policy.

Definition get_annual_limit : Q :=
  get_default (cd_annual_limit get_coverage_details) 50000.

Definition get_per_claim_limit : Q :=
  get_default (cd_per_claim_limit get_coverage_details) 5000.

Definition get_minimum_claim_amount : Q :=
  get_default (minimum_claim_amount policy) 500.

Definition get_exclusions : list string := exclusions policy.

(** The table built by [get_sub_limits]: one dictionary per category. *)
Definition sub_limits : list (string * dict) :=
  let coverage := get_coverage_details in
  [ ("consultation",
      [ ("limit", VNum (get_default (ct_sub_limit (consultation_fees coverage)) 2000));
        ("copay_percentage",
          VNum (get_default (ct_copay_percentage (consultation_fees coverage)) 10));
        ("network_discount",
          VNum (get_default (ct_network_discount (consultation_fees coverage)) 20)) ]);
    ("diagnostic",
      [ ("limit", VNum (get_default (ct_sub_limit (cd_diagnostic_tests coverage)) 10000));
        ("pre_auth_required", VOther);
        ("covered_tests", VOther) ]);
    ("pharmacy",
      [ ("limit", VNum (get_default (ct_sub_limit (pharmacy coverage)) 15000));
        ("generic_mandatory", VOther);
        ("branded_copay", VOther) ]);
    ("dental",
      [ ("limit", VNum (get_default (ct_sub_limit (dental coverage)) 10000));
        ("routine_limit", VOther);
        ("procedures_covered", VOther);
        ("cosmetic_covered", VOther) ]);
    ("vision",
      [ ("limit", VNum (get_default (ct_sub_limit (vision coverage)) 5000));
        ("eye_test", VOther);
        ("glasses_covered", VOther);
        ("lasik_covered", VOther) ]);
    ("alternative_medicine",
      [ ("limit", VNum (get_default (ct_sub_limit (alternative_medicine coverage)) 8000));
        ("covered_treatments", VOther);
        ("sessions_limit", VOther) ]) ].

(** [get_sub_limits(category)]: the category's dictionary when the
    category is a key of the table, the whole table otherwise (its
    keys are then the category names). *)
Definition get_sub_limits (category : option string) : dict :=
  let whole := map (fun kv => (fst kv, VOther)) sub_limits in
  match category with
  | Some c =>
      if truthy c then
        match dict_lookup c sub_limits with
        | Some d => d
        | None => whole
        end
      else whole
  | None => whole
  end.

(** [get_waiting_periods()] *)
Definition get_waiting_periods : list (string * Z) :=
  let waiting := waiting_periods policy in
  let periods :=
    [ ("initial", get_default (initial_waiting waiting) 30%Z);
      ("pre_existing", get_default (pre_existing_diseases waiting) 365%Z);
      ("maternity", get_default (maternity waiting) 270%Z) ] in
  fold_left (fun acc kv => dict_set (lower (fst kv)) (snd kv) acc)
            (specific_ailments waiting) periods.

Definition alt_medicine_keywords : list string :=
  ["ayurveda"; "ayurvedic"; "homeopathy"; "unani"; "panchakarma"; "yoga therapy"].

(** First keyword of the exclusion groups found in either text,
    with the title of its group. *)
Fixpoint first_exclusion_hit (groups : list (string * list string))
         (treatment_lower diagnosis_lower : string) : option (string * string) :=
  match groups with
  | [] => None
  | (title, keywords) :: rest =>
      match find (fun keyword => contains keyword treatment_lower
                                 || contains keyword diagnosis_lower) keywords with
      | Some keyword => Some (title, keyword)
      | None => first_exclusion_hit rest treatment_lower diagnosis_lower
      end
  end.

(** [check_exclusions(treatment, diagnosis)] *)
Definition check_exclusions (treatment diagnosis : string) : bool * string :=
  let treatment_lower := lower treatment in
  let diagnosis_lower := lower diagnosis in
  if existsb (fun kw => contains kw treatment_lower || contains kw diagnosis_lower)
             alt_medicine_keywords
  then (false, "")
  else if contains "vitamin" treatment_lower || contains "supplement" treatment_lower
  then
    if any_in ["deficiency"; "anemia"; "scurvy"; "rickets"; "malnutrition"]
              diagnosis_lower
    then (false, "")
    else if any_in ["wellness"; "prevention"; "supplement"; "general health"; "boost"]
                   diagnosis_lower
    then (true, "Vitamins and supplements (unless prescribed for deficiency)")
    else (false, "")
  else
    match first_exclusion_hit exclusion_keywords treatment_lower diagnosis_lower with
    | Some (title, keyword) =>
        match find (fun excl => contains keyword (lower excl)) get_exclusions with
        | Some excl => (true, excl)
        | None => (true, title ++ " procedures/treatments")
        end
    | None => (false, "")
    end.

(** [is_network_hospital(hospital_name)] *)
Definition is_network_hospital (hospital_name : string) : bool :=
  if negb (truthy hospital_name) then false
  else
    let hospital_lower := lower hospital_name in
    existsb (fun network_hospital =>
               contains (lower network_hospital) hospital_lower
               || contains hospital_lower (lower network_hospital))
            (network_hospitals policy).

(** The percentages [calculate_copay] reads for a category:
    [sub_limits.get("copay_percentage", 10)] and
    [sub_limits.get("network_discount", 20) if is_network else 0]. *)
Definition copay_percentage_for (category : string) : Q :=
  dict_get_num (get_sub_limits (Some category)) "copay_percentage" 10.

Definition network_discount_percentage_for (category : string) (is_network : bool) : Q :=
  if is_network
  then dict_get_num (get_sub_limits (Some category)) "network_discount" 20
  else 0.

(** [calculate_copay(amount, category, is_network)] *)
Definition calculate_copay (amount : Q) (category : string) (is_network : bool)
  : CopayInfo :=
  let copay_percentage := copay_percentage_for category in
  let network_discount_percentage :=
    network_discount_percentage_for category is_network in
  let copay_amount := amount * (copay_percentage / 100) in
  let network_discount := amount * (network_discount_percentage / 100) in
  {| ci_copay_amount := Money.round2 copay_amount;
     ci_copay_percentage := copay_percentage;
     ci_network_discount := Money.round2 network_discount;
     ci_network_discount_percentage := network_discount_percentage;
     ci_payable_amount := Money.round2 (amount - copay_amount - network_discount) |}.

End WithPolicy.
End PolicyTools.

(* ================================================================== *)
(** ** [app/tools/fraud_detection.py] *)

Module FraudDetection.
Import PyStr.
Local Open Scope string_scope.
Local Open Scope Q_scope.

Record FraudResult : Type := {
  is_suspicious : bool;
  fraud_flags : list string;
  risk_score : Q;
  recommend_manual_review : bool
}.

Definition state_codes : list string :=
  [ "AP"; "AR"; "AS"; "BR"; "CG"; "GA"; "GJ"; "HR"; "HP"; "JH"; "JK";
    "KA"; "KL"; "MP"; "MH"; "MN"; "ML"; "MZ"; "NL"; "OD"; "PB"; "RJ";
    "SK"; "TN"; "TS"; "TR"; "UP"; "UK"; "WB"; "AN"; "CH"; "DN"; "DD";
    "DL"; "LD"; "PY" ].

(** [[A-Z]{2}] *)
Definition is_state (s : string) : bool :=
  all_chars is_upper_ascii s && (String.length s =? 2)%nat.

(** [\d{lo,hi}] *)
Definition is_digits (lo hi : nat) (s : string) : bool :=
  all_chars is_digit s && (lo <=? String.length s)%nat && (String.length s <=? hi)%nat.

Inductive MedType : Type := Allopathic | Ayurvedic | Homeopathic | Dental.

(** The four anchored patterns, tried in source order, on the
    slash-separated parts of the number; the result is the matching
    system of medicine with the first and the last group. *)
Definition match_registration (reg_number : string) : option (MedType * string * string) :=
  let parts := split_on "/" reg_number in
  match parts with
  | [st; num; yr] =>
      if is_state st && is_digits 4 6 num && is_digits 4 4 yr
      then Some (Allopathic, st, yr) else None
  | [tag; st; num; yr] =>
      if String.eqb tag "AYUR" && is_state st && is_digits 3 5 num && is_digits 4 4 yr
      then Some (Ayurvedic, st, yr)
      else if String.eqb tag "HOM" && is_state st && is_digits 3 5 num && is_digits 4 4 yr
      then Some (Homeopathic, st, yr)
      else if is_state tag && String.eqb st "D" && is_digits 3 5 num && is_digits 4 4 yr
      then Some (Dental, tag, yr)
      else None
  | _ => None
  end.

(** [validate_doctor_registration(reg_number)], first component.
    [current_year] is [datetime.now().year]. *)
Definition validate_doctor_registration (current_year : Z) (reg_number : option string)
  : bool :=
  if negb (str_truthy reg_number) then false
  else
    let reg := upper (strip (get_default reg_number "")) in
    match match_registration reg with
    | Some (med_type, state, yr) =>
        let year := int_of_digits yr in
        if negb (mem state state_codes)
           && match med_type with Allopathic => true | _ => false end
        then false
        else if (year <? 1950)%Z || (current_year <? year)%Z then false
        else true
    | None => false
    end.

(** The running pair of the detector: flags raised so far and the
    additive risk score. *)
Definition Tally : Type := (list string * Q)%type.

(** [flags.append(msg); risk_score += weight] when the check fires *)
Definition raise_flag (fires : bool) (msg : string) (weight : Q) (t : Tally) : Tally :=
  if fires then ((fst t ++ [msg])%list, snd t + weight) else t.

Definition emergency_keywords : list string :=
  ["emergency"; "accident"; "acute"; "severe"; "critical"].

Section Checks.
Variable current_year : Z.
Variable claim_data : ClaimData.
Variable previous_claims_same_day : Z.
Variable previous_claims_ytd : Q.
Variable annual_limit : Q.

Definition check_same_day (t : Tally) : Tally :=
  if (3 <=? previous_claims_same_day)%Z then
    raise_flag true "Multiple claims on same day (3+)" (3 # 10) t
  else if (2 <=? previous_claims_same_day)%Z then
    raise_flag true "Multiple claims on same day" (15 # 100) t
  else t.

Definition check_utilization (t : Tally) : Tally :=
  let utilization_rate :=
    if Money.gtb annual_limit 0
    then (previous_claims_ytd + claim_amount claim_data) / annual_limit
    else 0 in
  raise_flag (Money.gtb utilization_rate (9 # 10))
             "Near annual limit exhaustion" (1 # 10) t.

Definition check_high_amount (t : Tally) : Tally :=
  let per_claim_limit := 5000 in
  raise_flag (Money.gtb (claim_amount claim_data) (per_claim_limit * (95 # 100)))
             "Claim amount very close to per-claim limit" (1 # 10) t.

Definition check_prescription (t : Tally) : Tally :=
  match prescription (documents claim_data) with
  | Some presc =>
      let is_valid := validate_doctor_registration current_year (doctor_reg presc) in
      let t := raise_flag (negb is_valid)
                          "Invalid or suspicious doctor registration" (25 # 100) t in
      raise_flag (10 <? List.length (medicines_prescribed presc))%nat
                 "Unusually high number of medicines prescribed" (1 # 10) t
  | None => t
  end.

Definition is_round_amount (a : Q) : bool :=
  Money.gtb a 0 && Money.is_multiple_of 500 a.

Definition check_bill (t : Tally) : Tally :=
  match bill (documents claim_data) with
  | Some b =>
      let amounts :=
        [ get_default (consultation_fee b) 0;
          get_default (b_medicines b) 0;
          get_default (diagnostic_tests b) 0 ] in
      let round_amounts := List.length (filter is_round_amount amounts) in
      raise_flag (2 <=? round_amounts)%nat
                 "Multiple round number amounts in bill" (5 # 100) t
  | None => t
  end.

Definition check_weekend (t : Tally) : Tally :=
  match PyDate.strptime (treatment_date claim_data) with
  | Some treatment_dt =>
      if (5 <=? PyDate.weekday treatment_dt)%Z then
        let diagnosis :=
          match prescription (documents claim_data) with
          | Some presc => lower (get_default (p_diagnosis presc) "")
          | None => ""
          end in
        raise_flag (negb (any_in emergency_keywords diagnosis))
                   "Non-emergency treatment on weekend" (5 # 100) t
      else t
  | None => t
  end.

(** Flags and additive score after the six checks, before capping. *)
Definition fraud_tally : Tally :=
  check_weekend
    (check_bill
       (check_prescription
          (check_high_amount
             (check_utilization
                (check_same_day ([], 0)))))).

(** [check_fraud_indicators(claim_data, previous_claims_same_day,
    previous_claims_ytd, annual_limit)] *)
Definition check_fraud_indicators : FraudResult :=
  let flags := fst fraud_tally in
  let risk_score := snd fraud_tally in
  let recommend := Money.geb risk_score (35 # 100)
                   || (3 <=? List.length flags)%nat in
  let risk_score := Qmin risk_score 1 in
  {| is_suspicious := Money.geb risk_score (35 # 100);
     fraud_flags := flags;
     risk_score := Money.round2 risk_score;
     recommend_manual_review := recommend |}.
End Checks.

(** Outcome of [check_document_consistency]; the flag returned is
    [is_consistent]. *)
Inductive Consistency : Type :=
| InsufficientDates          (* fewer than two dates to compare *)
| DatesConsistent
| DateMismatch (days : Z)    (* days between the earliest and the latest *)
| DateParseError.            (* a date given could not be parsed *)

Definition is_consistent (c : Consistency) : bool :=
  match c with
  | InsufficientDates | DatesConsistent => true
  | DateMismatch _ | DateParseError => false
  end.

(** Ordinals of the dates given, in the order prescription, bill,
    treatment; [None] as soon as one of them does not parse. *)
Fixpoint parse_given_dates (texts : list string) : option (list Z) :=
  match texts with
  | [] => Some []
  | text :: rest =>
      if truthy text then
        match PyDate.strptime text with
        | Some d =>
            match parse_given_dates rest with
            | Some ds => Some (PyDate.toordinal d :: ds)
            | None => None
            end
        | None => None
        end
      else parse_given_dates rest
  end.

(** [min(dates)] and [max(dates)] on a list with a first element *)
Definition min_of (d : Z) (ds : list Z) : Z := fold_left Z.min ds d.
Definition max_of (d : Z) (ds : list Z) : Z := fold_left Z.max ds d.

(** [check_document_consistency(prescription_date, bill_date,
    treatment_date)] *)
Definition check_document_consistency (prescription_date bill_date treatment_date : string)
  : Consistency :=
  match parse_given_dates [prescription_date; bill_date; treatment_date] with
  | None => DateParseError
  | Some dates =>
      match dates with
      | d :: (_ :: _) as rest =>
          let span := (max_of d rest - min_of d rest)%Z in
          if (7 <? span)%Z then DateMismatch span else DatesConsistent
      | _ => InsufficientDates
      end
  end.

(** The table of [check_diagnosis_treatment_match], in source order:
    condition, expected medicines, expected treatments. *)
Definition condition_map : list (string * (list string * list string)) :=
  [ ("fever",
      (["paracetamol"; "crocin"; "dolo"; "acetaminophen"],
       ["consultation"; "blood test"; "cbc"]));
    ("diabetes",
      (["metformin"; "glimepiride"; "insulin"; "glipizide"],
       ["blood sugar"; "hba1c"; "consultation"]));
    ("hypertension",
      (["amlodipine"; "losartan"; "metoprolol"; "atenolol"],
       ["bp check"; "ecg"; "consultation"]));
    ("infection",
      (["antibiotic"; "amoxicillin"; "azithromycin"; "ciprofloxacin"],
       ["culture"; "sensitivity"; "consultation"]));
    ("dental",
      (["analgesic"; "antibiotic"; "painkiller"],
       ["root canal"; "extraction"; "filling"; "cleaning"])) ].

(** Outcome of [check_diagnosis_treatment_match]; the flag returned is
    [is_matched]. *)
Inductive TreatmentMatch : Type :=
| NoDiagnosis
| NotVerifiable                    (* no known condition in the diagnosis *)
| Aligned (condition : string)
| NotAligned (condition : string).

Definition is_matched (m : TreatmentMatch) : bool :=
  match m with
  | NotVerifiable | Aligned _ => true
  | NoDiagnosis | NotAligned _ => false
  end.

(** [check_diagnosis_treatment_match(diagnosis, treatments, medicines)] *)
Definition check_diagnosis_treatment_match (diagnosis : string)
           (treatments medicines : list string) : TreatmentMatch :=
  if negb (truthy diagnosis) then NoDiagnosis
  else
    let diagnosis_lower := lower diagnosis in
    match find (fun entry => contains (fst entry) diagnosis_lower) condition_map with
    | None => NotVerifiable
    | Some (matched_condition, (expected_medicines, expected_treatments)) =>
        let all_items := (map lower medicines ++ map lower treatments)%list in
        let all_expected := (expected_medicines ++ expected_treatments)%list in
        let has_match :=
          existsb (fun exp => existsb (fun item => contains exp item) all_items)
                  all_expected in
        if has_match then Aligned matched_condition else NotAligned matched_condition
    end.
End FraudDetection.

(* ================================================================== *)
(** ** What the pipeline reads from outside the claim and the policy *)

(** Structured output of the document extractor: the keys later stages
    read. *)
Record ExtractedData : Type := {
  ed_diagnosis : option string;
  ed_medicines : list string;
  ed_tests : list string;
  ed_procedures : list string
}.

Record ExtractionResult : Type := {
  has_prescription : bool;
  has_bill : bool;
  extracted_data : option ExtractedData;
  er_confidence_score : option Q
}.

(** Reply of the limit-calculation assistant, once parsed: [AgentFailed]
    when the call or the JSON parsing raised, otherwise the
    [approved_amount] and [confidence_score] keys of the reply. *)
Inductive AgentOutcome : Type :=
| AgentFailed
| AgentJson (agent_approved_amount : option Q) (agent_confidence : option Q).

(** Whether a reply carries an approved amount, which then replaces the
    rule-based one. *)
Definition agent_overrides (a : AgentOutcome) : bool :=
  match a with
  | AgentJson (Some _) _ => true
  | _ => false
  end.

(** One run's view of the outside world. *)
Record Env : Type := {
  now : PyDate.Date;          (* date part of [datetime.now()] *)
  now_clock : string;         (* [datetime.now().strftime("%H%M%S")] *)
  uuid4 : string;             (* [str(uuid.uuid4())] *)
  extractor_reply : option ExtractionResult;
                              (* parsed reply of the extraction assistant,
                                 [None] when it cannot be parsed *)
  limit_agent_reply : AgentOutcome
}.

(** Exceptions that escape a stage. *)
Inductive PyError : Type :=
| KeyError (key : string).

Inductive outcome (A : Type) : Type :=
| Ok (a : A)
| Raised (e : PyError).

Arguments Ok {A} a.
Arguments Raised {A} e.

Definition bind (A B : Type) (c : outcome A) (k : A -> outcome B) : outcome B :=
  match c with
  | Ok a => k a
  | Raised e => Raised e
  end.

Declare Scope outcome_scope.
Delimit Scope outcome_scope with outcome.
Notation "x <- c ;; k" := (bind c (fun x => k))
  (at level 61, c at next level, right associativity) : outcome_scope.

(* ================================================================== *)
(** ** [app/agents/eligibility_checker.py] *)

Module Eligibility.
Import PyStr.
Local Open Scope string_scope.
Local Open Scope Z_scope.

Record EligibilityResult : Type := {
  is_eligible : bool;
  policy_active : option bool;
  waiting_period_satisfied : option bool;
  member_covered : option bool;
  rejection_reasons : list string;
  waiting_period_end_date : option string;
  confidence_score : Q
}.

Definition waiting_rejection (end_date : string) (confidence : Q) : EligibilityResult :=
  {| is_eligible := false;
     policy_active := Some true;
     waiting_period_satisfied := Some false;
     member_covered := Some true;
     rejection_reasons := ["WAITING_PERIOD"];
     waiting_period_end_date := Some end_date;
     confidence_score := confidence |}.

Section WithPolicy.
Variable policy : PolicyTerms.

(** The keyword table of [check_eligibility], in source order, each
    keyword with the waiting days of its condition. *)
Definition condition_waiting_map : list (string * Z) :=
  let waiting_periods := PolicyTools.get_waiting_periods policy in
  let days k d := get_default (dict_lookup k waiting_periods) d in
  [ ("diabetes", days "diabetes" 90);
    ("type 2 diabetes", days "diabetes" 90);
    ("type 1 diabetes", days "diabetes" 90);
    ("hypertension", days "hypertension" 90);
    ("blood pressure", days "hypertension" 90);
    ("high bp", days "hypertension" 90);
    ("joint replacement", days "joint_replacement" 730);
    ("knee replacement", days "joint_replacement" 730);
    ("hip replacement", days "joint_replacement" 730);
    ("arthroplasty", days "joint_replacement" 730) ].

(** [check_eligibility(member_id, member_name, treatment_date,
    diagnosis, member_join_date, policy_start_date)]; the member's
    identifier and name are not read. *)
Definition check_eligibility (treatment_date : string) (diagnosis : option string)
           (member_join_date : option string) (policy_start_date : string)
  : EligibilityResult :=
  let waiting_periods := PolicyTools.get_waiting_periods policy in
  let join_text :=
    if str_truthy member_join_date then get_default member_join_date ""
    else policy_start_date in
  match PyDate.strptime treatment_date, PyDate.strptime join_text with
  | Some treatment_dt, Some join_dt =>
      let days_since_join := PyDate.toordinal treatment_dt - PyDate.toordinal join_dt in
      let initial_waiting := get_default (dict_lookup "initial" waiting_periods) 30 in
      if days_since_join <? initial_waiting then
        waiting_rejection (PyDate.strftime (PyDate.add_days join_dt initial_waiting))
                          (98 # 100)
      else
        let diagnosis_lower :=
          if str_truthy diagnosis then lower (get_default diagnosis "") else "" in
        match find (fun kw => contains (fst kw) diagnosis_lower
                              && (days_since_join <? snd kw))
                   condition_waiting_map with
        | Some (_, waiting_days) =>
            waiting_rejection (PyDate.strftime (PyDate.add_days join_dt waiting_days))
                              (96 # 100)
        | None =>
            {| is_eligible := true;
               policy_active := Some true;
               waiting_period_satisfied := Some true;
               member_covered := Some true;
               rejection_reasons := [];
               waiting_period_end_date := None;
               confidence_score := 95 # 100 |}
        end
  | _, _ =>
      {| is_eligible := false;
         policy_active := None;
         waiting_period_satisfied := None;
         member_covered := None;
         rejection_reasons := ["INVALID_DATE"];
         waiting_period_end_date := None;
         confidence_score := 1 |}
  end.

(** [check_eligibility_with_agent(claim_data, extracted_data)]: a
    missing join date becomes the day 365 days before the run. *)
Definition check_eligibility_with_agent (env : Env) (claim_data : ClaimData)
           (extracted : ExtractionResult) : EligibilityResult :=
  let diagnosis :=
    match extracted_data extracted with
    | Some ed => ed_diagnosis ed
    | None => Some ""
    end in
  let member_join_date :=
    if str_truthy (member_join_date claim_data) then member_join_date claim_data
    else Some (PyDate.strftime (PyDate.add_days (now env) (-365))) in
  check_eligibility (treatment_date claim_data) diagnosis member_join_date "2024-01-01".
End WithPolicy.
End Eligibility.

(* ================================================================== *)
(** ** [app/agents/coverage_validator.py] *)

Module Coverage.
Import PyStr.
Local Open Scope string_scope.

Record CoverageResult : Type := {
  is_covered : bool;
  covered_items : list string;
  excluded_items : list string;
  pre_auth_required : bool;
  pre_auth_obtained : bool;
  applicable_sub_limit : Q;
  category : string;
  rejection_reasons : list string;
  confidence_score : Q
}.

(** The lists a run of [validate_coverage] accumulates. *)
Record Acc : Type := {
  acc_covered : list string;
  acc_excluded : list string;
  acc_reasons : list string;
  acc_pre_auth_required : bool
}.

Definition cover (item : string) (a : Acc) : Acc :=
  {| acc_covered := acc_covered a ++ [item];
     acc_excluded := acc_excluded a;
     acc_reasons := acc_reasons a;
     acc_pre_auth_required := acc_pre_auth_required a |}.

Definition exclude (entry : string) (a : Acc) : Acc :=
  {| acc_covered := acc_covered a;
     acc_excluded := acc_excluded a ++ [entry];
     acc_reasons := acc_reasons a;
     acc_pre_auth_required := acc_pre_auth_required a |}.

(** [if code not in rejection_reasons: rejection_reasons.append(code)] *)
Definition add_reason (code : string) (a : Acc) : Acc :=
  {| acc_covered := acc_covered a;
     acc_excluded := acc_excluded a;
     acc_reasons := if mem code (acc_reasons a) then acc_reasons a
                    else acc_reasons a ++ [code];
     acc_pre_auth_required := acc_pre_auth_required a |}.

Definition require_pre_auth (a : Acc) : Acc :=
  {| acc_covered := acc_covered a;
     acc_excluded := acc_excluded a;
     acc_reasons := acc_reasons a;
     acc_pre_auth_required := true |}.

Section WithPolicy.
Variable policy : PolicyTerms.

(** Body of the loop over diagnosis, treatments and procedures. *)
Definition check_item (diagnosis : string) (a : Acc) (item : string) : Acc :=
  if negb (truthy item) then a
  else
    let item_lower := lower item in
    if any_in ["ayurveda"; "ayurvedic"; "homeopathy"; "unani"; "panchakarma"] item_lower
    then cover item a
    else
      let '(is_excluded, exclusion_reason) :=
        PolicyTools.check_exclusions policy item diagnosis in
      if is_excluded then
        let a := exclude (item ++ " - " ++ exclusion_reason) a in
        let reason_lower := lower exclusion_reason in
        if contains "cosmetic" reason_lower || contains "whitening" item_lower
        then add_reason "COSMETIC_PROCEDURE" a
        else if contains "weight" reason_lower || contains "obesity" item_lower
                || contains "diet plan" item_lower
        then add_reason "SERVICE_NOT_COVERED" a
        else add_reason "EXCLUDED_CONDITION" a
      else cover item a.

(** Body of the loop over medicines: every named medicine ends up
    covered, vitamins included. *)
Definition check_medicine (is_deficiency_treatment : bool) (a : Acc) (med : string)
  : Acc :=
  if negb (truthy med) then a
  else
    let med_lower := lower med in
    if contains "vitamin" med_lower || contains "supplement" med_lower then
      if is_deficiency_treatment then cover med a else cover med a
    else cover med a.

(** Body of the loop over diagnostic tests. *)
Definition check_test (claim_amount : Q) (pre_auth_obtained : bool) (a : Acc)
           (test : string) : Acc :=
  if negb (truthy test) then a
  else if PolicyTools.check_pre_authorization_required test claim_amount then
    let a := require_pre_auth a in
    if negb pre_auth_obtained then
      exclude (test ++ " - requires pre-authorization") (add_reason "PRE_AUTH_MISSING" a)
    else cover test a
  else cover test a.

Definition limit_of (category : string) (default : Q) : Q :=
  dict_get_num (PolicyTools.get_sub_limits policy (Some category)) "limit" default.

(** Category and sub-limit: the caller's category when given,
    otherwise the first rule that recognises the content. *)
Definition determine_category (category : option string) (all_items : list string)
           (diagnosis : string) (medicines tests : list string) : string * Q :=
  if str_truthy category then
    let c := get_default category "" in (c, limit_of c 5000)
  else if existsb (fun item => contains "dental" (lower item)) all_items
          || any_in ["root canal"; "extraction"; "filling"] (lower (repr_list all_items))
  then ("dental", limit_of "dental" 10000)
  else if any_in ["ayur"; "homeo"; "unani"] (lower (repr_list medicines))
          || contains "ayur" (lower diagnosis)
          || contains "panchakarma" (lower (repr_list all_items))
  then ("alternative_medicine", limit_of "alternative_medicine" 8000)
  else if negb (Nat.eqb (List.length tests) 0)
  then ("diagnostic", limit_of "diagnostic" 10000)
  else if negb (Nat.eqb (List.length medicines) 0)
  then ("pharmacy", limit_of "pharmacy" 15000)
  else ("consultation", limit_of "consultation" 2000).

(** [validate_coverage(diagnosis, treatments, procedures, medicines,
    tests, claim_amount, category, pre_auth_obtained)] *)
Definition validate_coverage (diagnosis : string)
           (treatments procedures medicines tests : list string)
           (claim_amount : Q) (category : option string) (pre_auth_obtained : bool)
  : CoverageResult :=
  let all_items :=
    (treatments ++ procedures ++ (if truthy diagnosis then [diagnosis] else []))%list in
  let diagnosis_lower := lower diagnosis in
  let is_deficiency_treatment :=
    any_in ["deficiency"; "anemia"; "scurvy"; "rickets"; "malnutrition"]
           diagnosis_lower in
  let a := {| acc_covered := []; acc_excluded := []; acc_reasons := [];
              acc_pre_auth_required := false |} in
  let a := fold_left (check_item diagnosis) all_items a in
  let a := fold_left (check_medicine is_deficiency_treatment) medicines a in
  let a := fold_left (check_test claim_amount pre_auth_obtained) tests a in
  let '(category, applicable_sub_limit) :=
    determine_category category all_items diagnosis medicines tests in
  let is_covered := Nat.eqb (List.length (acc_reasons a)) 0 in
  {| is_covered := is_covered;
     covered_items := acc_covered a;
     excluded_items := acc_excluded a;
     pre_auth_required := acc_pre_auth_required a;
     pre_auth_obtained := pre_auth_obtained;
     applicable_sub_limit := applicable_sub_limit;
     category := category;
     rejection_reasons := acc_reasons a;
     confidence_score := if is_covered then 92 # 100 else 95 # 100 |}.

(** [validate_coverage_with_agent(claim_data, extracted_data)].
    [list(set(...))] removes duplicate medicines; Python leaves the
    resulting order unspecified, [nodup] fixes one. *)
Definition validate_coverage_with_agent (claim_data : ClaimData)
           (extracted : ExtractionResult) : CoverageResult :=
  let ext_diagnosis :=
    match extracted_data extracted with
    | Some ed => get_default (ed_diagnosis ed) ""
    | None => ""
    end in
  let medicines := match extracted_data extracted with
                   | Some ed => ed_medicines ed | None => [] end in
  let tests := match extracted_data extracted with
               | Some ed => ed_tests ed | None => [] end in
  let procedures := match extracted_data extracted with
                    | Some ed => ed_procedures ed | None => [] end in
  let presc := prescription (documents claim_data) in
  let presc_procedures := match presc with Some p => p_procedures p | None => [] end in
  let presc_treatment :=
    match presc with Some p => get_default (treatment p) "" | None => "" end in
  let presc_medicines :=
    match presc with Some p => medicines_prescribed p | None => [] end in
  let treatments :=
    (presc_procedures ++ (if truthy presc_treatment then [presc_treatment] else []))%list in
  let all_medicines := nodup string_dec (medicines ++ presc_medicines)%list in
  let diagnosis :=
    if negb (truthy ext_diagnosis) then
      match presc with Some p => get_default (p_diagnosis p) "" | None => "" end
    else ext_diagnosis in
  let diagnosis_lower := lower diagnosis in
  let category :=
    if negb (str_truthy (Claim.category claim_data)) then
      if any_in ["ayurveda"; "ayurvedic"; "homeopathy"; "unani"; "panchakarma"]
                diagnosis_lower
      then Some "alternative_medicine"
      else if any_in ["ayurveda"; "panchakarma"; "homeopathy"]
                     (lower (repr_list treatments))
      then Some "alternative_medicine"
      else Claim.category claim_data
    else Claim.category claim_data in
  validate_coverage diagnosis treatments procedures all_medicines tests
                    (claim_amount claim_data) category false.
End WithPolicy.
End Coverage.

(* ================================================================== *)
(** ** [app/agents/limit_calculator.py] *)

Module Limits.
Import PyStr.
Local Open Scope string_scope.
Local Open Scope Q_scope.

(** The keys present only in the full result of [calculate_limits];
    the result for a claim below the minimum amount lacks them. *)
Record LimitDetails : Type := {
  eligible_amount : Q;
  copay_amount : Q;
  copay_percentage : Q;
  network_discount : Q;
  excluded_amount : Q;
  per_claim_limit : Q;
  annual_limit : Q;
  applicable_sub_limit : Q;
  remaining_annual_limit : Q;
  per_claim_exceeded : bool;
  annual_limit_exceeded : bool;
  sub_limit_exceeded : bool;
  is_network_hospital : bool
}.

Record LimitResult : Type := {
  within_limits : bool;
  claim_amount : Q;
  approved_amount : Q;
  rejection_reasons : list string;
  confidence_score : Q;
  details : option LimitDetails
}.

(** [result.get(key, default)] on a key of the full result *)
Definition detail (A : Type) (f : LimitDetails -> A) (default : A) (r : LimitResult) : A :=
  match details r with Some d => f d | None => default end.

(** [result[name]]: [KeyError] when the result lacks the key *)
Definition key (A : Type) (name : string) (f : LimitDetails -> A) (r : LimitResult)
  : outcome A :=
  match details r with Some d => Ok (f d) | None => Raised (KeyError name) end.

(** [min(a, b, c, d)] *)
Definition min4 (a b c d : Q) : Q := Qmin (Qmin (Qmin a b) c) d.

Section WithPolicy.
Variable policy : PolicyTerms.

(** The sub-limit [calculate_limits] works with: the override when
    given, else the category's [limit], else the per-claim limit. *)
Definition resolve_sub_limit (category : option string) (sub_limit : option Q) : Q :=
  match sub_limit with
  | Some s => s
  | None =>
      if str_truthy category then
        dict_get_num (PolicyTools.get_sub_limits policy category) "limit"
                     (PolicyTools.get_per_claim_limit policy)
      else PolicyTools.get_per_claim_limit policy
  end.

Definition copay_category (category : option string) : string :=
  if str_truthy category then get_default category "" else "consultation".

Definition network_flag (hospital_name : option string) : bool :=
  if str_truthy hospital_name
  then PolicyTools.is_network_hospital policy (get_default hospital_name "")
  else false.

(** [calculate_limits(claim_amount, category, hospital_name,
    excluded_amount, previous_claims_ytd, sub_limit)] *)
Definition calculate_limits (claim_amount : Q) (category hospital_name : option string)
           (excluded_amount previous_claims_ytd : Q) (sub_limit : option Q)
  : LimitResult :=
  let per_claim_limit := PolicyTools.get_per_claim_limit policy in
  let annual_limit := PolicyTools.get_annual_limit policy in
  let min_claim_amount := PolicyTools.get_minimum_claim_amount policy in
  if Money.ltb claim_amount min_claim_amount then
    {| within_limits := false;
       claim_amount := claim_amount;
       approved_amount := 0;
       rejection_reasons := ["BELOW_MIN_AMOUNT"];
       confidence_score := 1;
       details := None |}
  else
    let eligible_amount := claim_amount - excluded_amount in
    let sub_limit := resolve_sub_limit category sub_limit in
    let per_claim_exceeded := Money.gtb eligible_amount per_claim_limit in
    let remaining_annual := annual_limit - previous_claims_ytd in
    let annual_limit_exceeded := Money.gtb eligible_amount remaining_annual in
    let sub_limit_exceeded := Money.gtb eligible_amount sub_limit in
    let rejection_reasons :=
      ((if per_claim_exceeded then ["PER_CLAIM_EXCEEDED"] else [])
       ++ (if annual_limit_exceeded then ["ANNUAL_LIMIT_EXCEEDED"] else []))%list in
    let approved_amount :=
      Qmax (min4 eligible_amount per_claim_limit remaining_annual sub_limit) 0 in
    let is_network := network_flag hospital_name in
    let copay_info :=
      PolicyTools.calculate_copay policy approved_amount (copay_category category)
                                  is_network in
    let copay_amount := PolicyTools.ci_copay_amount copay_info in
    let network_discount := PolicyTools.ci_network_discount copay_info in
    let final_approved := approved_amount - copay_amount in
    {| within_limits := Nat.eqb (List.length rejection_reasons) 0;
       claim_amount := claim_amount;
       approved_amount := Money.round2 final_approved;
       rejection_reasons := rejection_reasons;
       confidence_score := 98 # 100;
       details := Some
         {| eligible_amount := eligible_amount;
            copay_amount := Money.round2 copay_amount;
            copay_percentage := PolicyTools.ci_copay_percentage copay_info;
            network_discount := Money.round2 network_discount;
            excluded_amount := excluded_amount;
            per_claim_limit := per_claim_limit;
            annual_limit := annual_limit;
            applicable_sub_limit := sub_limit;
            remaining_annual_limit := Money.round2 remaining_annual;
            per_claim_exceeded := per_claim_exceeded;
            annual_limit_exceeded := annual_limit_exceeded;
            sub_limit_exceeded := sub_limit_exceeded;
            is_network_hospital := is_network |} |}.

(** Amount one excluded item takes out of the claim, from the bill's
    line items. *)
Definition excluded_item_amount (b : option Bill) (item : string) : Q :=
  let line (f : Bill -> option Q) :=
    match b with Some b' => get_default (f b') 0 | None => 0 end in
  if negb (truthy item) then 0
  else
    let item_lower := lower item in
    if contains "whitening" item_lower || contains "teeth whitening" item_lower
    then line teeth_whitening
    else if contains "diet" item_lower then line diet_plan
    else if contains "cosmetic" item_lower then line teeth_whitening + line cosmetic
    else 0.

Definition excluded_amount_of (claim_data : ClaimData) (excluded_items : list string) : Q :=
  fold_left (fun acc item => acc + excluded_item_amount (bill (documents claim_data)) item)
            excluded_items 0.

(** [calculate_limits_with_agent(claim_data, extracted_data,
    coverage_result)].  Reading [per_claim_exceeded] from the short
    result of a claim below the minimum raises [KeyError].  The
    assistant is consulted only when something was excluded or the
    sub-limit capped the amount; a usable reply replaces the approved
    amount and the confidence. *)
Definition calculate_limits_with_agent (agent : AgentOutcome) (claim_data : ClaimData)
           (coverage_result : Coverage.CoverageResult) : outcome LimitResult :=
  let excluded_amount :=
    excluded_amount_of claim_data (Coverage.excluded_items coverage_result) in
  let result :=
    calculate_limits (Claim.claim_amount claim_data)
                     (Some (Coverage.category coverage_result))
                     (hospital claim_data)
                     excluded_amount
                     (previous_claims_ytd claim_data)
                     (Some (Coverage.applicable_sub_limit coverage_result)) in
  (clear_rejection <-
     (if negb (within_limits result)
      then key "per_claim_exceeded" per_claim_exceeded result
      else Ok false) ;;
   if (clear_rejection : bool) then Ok result
   else
     consult <-
       (if Money.gtb excluded_amount 0 then Ok true
        else key "sub_limit_exceeded" sub_limit_exceeded result) ;;
     if (consult : bool) then
       (* the prompt interpolates two more keys of the result *)
       _ <- key "is_network_hospital" is_network_hospital result ;;
       _ <- key "remaining_annual_limit" remaining_annual_limit result ;;
       match agent with
       | AgentJson (Some amount) conf =>
           Ok {| within_limits := within_limits result;
                 claim_amount := claim_amount result;
                 approved_amount := amount;
                 rejection_reasons := rejection_reasons result;
                 confidence_score := get_default conf (92 # 100);
                 details := details result |}
       | AgentJson None _ => Ok result
       | AgentFailed => Ok result
       end
     else Ok result)%outcome.
End WithPolicy.
End Limits.

(* ================================================================== *)
(** ** [app/models/decision.py] and [app/agents/decision_maker.py] *)

Module Decision.
Import PyStr.
Local Open Scope string_scope.
Local Open Scope Q_scope.

Inductive DecisionType : Type := APPROVED | REJECTED | PARTIAL | MANUAL_REVIEW.

Record Deductions : Type := {
  copay : Q;
  excluded_items : Q;
  d_network_discount : Q
}.

Record AdjudicationResult : Type := {
  claim_id : string;
  decision : DecisionType;
  approved_amount : Q;
  deductions : option Deductions;
  rejected_items : list string;
  rejection_reasons : list string;
  confidence_score : Q;
  fraud_flags : list string;
  cashless_approved : bool;
  network_discount : Q;
  eligibility_result : option Eligibility.EligibilityResult;
  coverage_result : option Coverage.CoverageResult;
  limit_result : option Limits.LimitResult;
  fraud_result : option FraudDetection.FraudResult
}.

Definition hard_rejection_reasons : list string :=
  [ "POLICY_INACTIVE"; "MEMBER_NOT_COVERED"; "WAITING_PERIOD";
    "MISSING_DOCUMENTS"; "PRE_AUTH_MISSING"; "PER_CLAIM_EXCEEDED" ].

(** [any(r in hard_rejection_reasons for r in all_rejection_reasons)] *)
Definition has_hard_rejection (all_rejection_reasons : list string) : bool :=
  existsb (fun r => mem r hard_rejection_reasons) all_rejection_reasons.

Definition is_fully_excluded_service (all_rejection_reasons covered_items : list string)
  : bool :=
  mem "SERVICE_NOT_COVERED" all_rejection_reasons
  && Nat.eqb (List.length covered_items) 0.

(** The four priority tiers: decision and approved amount. *)
Definition decide (all_rejection_reasons excluded_items covered_items : list string)
           (fraud_result : FraudDetection.FraudResult)
           (approved_amount claim_amount : Q) : DecisionType * Q :=
  if has_hard_rejection all_rejection_reasons
     || is_fully_excluded_service all_rejection_reasons covered_items
  then (REJECTED, 0)
  else if FraudDetection.recommend_manual_review fraud_result
          || Money.geb (FraudDetection.risk_score fraud_result) (35 # 100)
  then (MANUAL_REVIEW, approved_amount)
  else if negb (Nat.eqb (List.length excluded_items) 0)
          && (0 <? List.length covered_items)%nat
  then (PARTIAL, approved_amount)
  else if Money.gtb approved_amount 0
  then
    if Money.geb approved_amount (claim_amount * (80 # 100))
    then (APPROVED, approved_amount)
    else (PARTIAL, approved_amount)
  else (REJECTED, approved_amount).

(** [make_decision(claim_id, claim_data, extraction_result,
    eligibility_result, coverage_result, limit_result)];
    [current_year] is what the doctor-registration check reads from
    the clock. *)
Definition make_decision (current_year : Z) (claim_id : string) (claim_data : ClaimData)
           (extraction_result : ExtractionResult)
           (eligibility_result : Eligibility.EligibilityResult)
           (coverage_result : Coverage.CoverageResult)
           (limit_result : Limits.LimitResult) : AdjudicationResult :=
  let fraud_result :=
    FraudDetection.check_fraud_indicators current_year claim_data
      (previous_claims_same_day claim_data) (previous_claims_ytd claim_data) 50000 in
  let all_rejection_reasons :=
    (Eligibility.rejection_reasons eligibility_result
     ++ Coverage.rejection_reasons coverage_result
     ++ Limits.rejection_reasons limit_result)%list in
  let excluded_items := Coverage.excluded_items coverage_result in
  let covered_items := Coverage.covered_items coverage_result in
  let approved_amount := Limits.approved_amount limit_result in
  let claim_amount := Claim.claim_amount claim_data in
  let confidence_scores :=
    [ get_default (er_confidence_score extraction_result) (85 # 100);
      Eligibility.confidence_score eligibility_result;
      Coverage.confidence_score coverage_result;
      Limits.confidence_score limit_result ] in
  let avg_confidence :=
    fold_left Qplus confidence_scores 0
    / inject_Z (Z.of_nat (List.length confidence_scores)) in
  let fraud_risk := FraudDetection.risk_score fraud_result in
  let fraud_flags := FraudDetection.fraud_flags fraud_result in
  let final_confidence := avg_confidence * (1 - fraud_risk * (1 # 2)) in
  let '(decision, approved_amount) :=
    decide all_rejection_reasons excluded_items covered_items fraud_result
           approved_amount claim_amount in
  let deductions :=
    {| copay := Limits.detail Limits.copay_amount 0 limit_result;
       excluded_items := Limits.detail Limits.excluded_amount 0 limit_result;
       d_network_discount := Limits.detail Limits.network_discount 0 limit_result |} in
  let cashless_approved :=
    cashless_request claim_data
    && Limits.detail Limits.is_network_hospital false limit_result
    && match decision with APPROVED | PARTIAL => true | _ => false end
    && Money.leb approved_amount 5000 in
  {| claim_id := claim_id;
     decision := decision;
     approved_amount := Money.round2 approved_amount;
     deductions := Some deductions;
     rejected_items := excluded_items;
     rejection_reasons := all_rejection_reasons;
     confidence_score := Money.round2 final_confidence;
     fraud_flags := fraud_flags;
     cashless_approved := cashless_approved;
     network_discount := Limits.detail Limits.network_discount 0 limit_result;
     eligibility_result := Some eligibility_result;
     coverage_result := Some coverage_result;
     limit_result := Some limit_result;
     fraud_result := Some fraud_result |}.

(** [make_decision_with_agent]: every branch returns the rule-based
    result. *)
Definition make_decision_with_agent := make_decision.

End Decision.

(* ================================================================== *)
(** ** [app/workflows/claim_adjudication.py] *)

Module Workflow.
Import PyStr.
Local Open Scope string_scope.
Local Open Scope Q_scope.

(** The steps a run announces, with the fraud check that the decision
    step performs. *)
Inductive Stage : Type :=
| DocumentExtraction
| EligibilityCheck
| CoverageValidation
| LimitCalculation
| FraudCheck
| FinalDecision.

(** [generate_claim_id()] *)
Definition generate_claim_id (env : Env) : string :=
  let timestamp := PyDate.strftime_compact (now env) ++ now_clock env in
  let unique_id := upper (substring 0 8 (uuid4 env)) in
  "CLM_" ++ timestamp ++ "_" ++ unique_id.

(** The dictionary [extract_document_data] builds itself when the
    assistant's reply cannot be parsed. *)
Definition basic_extraction (claim_submission : ClaimData) : ExtractionResult :=
  let presc := prescription (documents claim_submission) in
  {| has_prescription := match presc with Some _ => true | None => false end;
     has_bill := match bill (documents claim_submission) with
                 | Some _ => true | None => false end;
     extracted_data := Some
       {| ed_diagnosis := match presc with Some p => p_diagnosis p | None => None end;
          ed_medicines := match presc with Some p => medicines_prescribed p | None => [] end;
          ed_tests := match presc with Some p => tests_prescribed p | None => [] end;
          ed_procedures := match presc with Some p => p_procedures p | None => [] end |};
     er_confidence_score := Some (85 # 100) |}.

(** [extract_document_data(claim_submission)] *)
Definition extract_document_data (env : Env) (claim_submission : ClaimData)
  : ExtractionResult :=
  match extractor_reply env with
  | Some reply => reply
  | None => basic_extraction claim_submission
  end.

(** A terminal rejection built by the workflow itself; the fields it
    leaves out take the defaults of [AdjudicationResult]. *)
Definition early_rejection (claim_id : string) (reasons : list string) (confidence : Q)
           (eligibility : option Eligibility.EligibilityResult)
  : Decision.AdjudicationResult :=
  {| Decision.claim_id := claim_id;
     Decision.decision := Decision.REJECTED;
     Decision.approved_amount := 0;
     Decision.deductions := None;
     Decision.rejected_items := [];
     Decision.rejection_reasons := reasons;
     Decision.confidence_score := confidence;
     Decision.fraud_flags := [];
     Decision.cashless_approved := false;
     Decision.network_discount := 0;
     Decision.eligibility_result := eligibility;
     Decision.coverage_result := None;
     Decision.limit_result := None;
     Decision.fraud_result := None |}.

Section WithPolicy.
Variable policy : PolicyTerms.

(** [ClaimAdjudicationWorkflow.process(claim_data)]: the stages that
    ran, in order, and the result or the exception that escaped. *)
Definition process (env : Env) (claim_data : ClaimData)
  : list Stage * outcome Decision.AdjudicationResult :=
  let claim_id :=
    if str_truthy (Claim.claim_id claim_data)
    then get_default (Claim.claim_id claim_data) ""
    else generate_claim_id env in
  let extraction_result := extract_document_data env claim_data in
  if negb (has_prescription extraction_result) then
    ([DocumentExtraction],
     Ok (early_rejection claim_id ["MISSING_DOCUMENTS"] 1 None))
  else if negb (has_bill extraction_result) then
    ([DocumentExtraction],
     Ok (early_rejection claim_id ["MISSING_DOCUMENTS"] 1 None))
  else
    let eligibility_result :=
      Eligibility.check_eligibility_with_agent policy env claim_data extraction_result in
    if negb (Eligibility.is_eligible eligibility_result) then
      ([DocumentExtraction; EligibilityCheck],
       Ok (early_rejection claim_id
             (Eligibility.rejection_reasons eligibility_result)
             (Eligibility.confidence_score eligibility_result)
             (Some eligibility_result)))
    else
      let coverage_result :=
        Coverage.validate_coverage_with_agent policy claim_data extraction_result in
      match Limits.calculate_limits_with_agent policy (limit_agent_reply env)
                                               claim_data coverage_result with
      | Raised e =>
          ([DocumentExtraction; EligibilityCheck; CoverageValidation; LimitCalculation],
           Raised e)
      | Ok limit_result =>
          ([DocumentExtraction; EligibilityCheck; CoverageValidation; LimitCalculation;
            FraudCheck; FinalDecision],
           Ok (Decision.make_decision_with_agent
                 (PyDate.year (now env)) claim_id claim_data extraction_result
                 eligibility_result coverage_result limit_result))
      end.
End WithPolicy.
End Workflow.

(* ================================================================== *)
(** ** Sample policies, claims and runs *)

Module Samples.
Local Open Scope string_scope.
Local Open Scope Q_scope.

(** A policy that sets only the consultation block and the network
    list; everything else falls back on the defaults of the code. *)
Definition policy_with_consultation (terms : CategoryTerms) (hospitals : list string)
  : PolicyTerms :=
  {| coverage_details :=
       {| cd_annual_limit := None; cd_per_claim_limit := None;
          consultation_fees := terms; cd_diagnostic_tests := no_terms;
          pharmacy := no_terms; dental := no_terms; vision := no_terms;
          alternative_medicine := no_terms |};
     waiting_periods := waiting_periods empty_policy;
     exclusions := [];
     network_hospitals := hospitals;
     minimum_claim_amount := None |}.

(** Consultations carry no co-pay. *)
Definition zero_copay_policy : PolicyTerms :=
  policy_with_consultation
    {| ct_sub_limit := None; ct_copay_percentage := Some 0; ct_network_discount := None |}
    [].

(** The consultation sub-limit is 1000. *)
Definition small_consultation_policy : PolicyTerms :=
  policy_with_consultation
    {| ct_sub_limit := Some 1000; ct_copay_percentage := None; ct_network_discount := None |}
    [].

(** One network hospital. *)
Definition apollo_policy : PolicyTerms := policy_with_consultation no_terms ["Apollo"].

(** A policy that configures its own percentages for dental claims. *)
Definition policy_with_dental_percentages : PolicyTerms :=
  {| coverage_details :=
       {| cd_annual_limit := None; cd_per_claim_limit := None;
          consultation_fees := no_terms; cd_diagnostic_tests := no_terms;
          pharmacy := no_terms;
          dental := {| ct_sub_limit := Some 10000; ct_copay_percentage := Some 30;
                       ct_network_discount := Some 5 |};
          vision := no_terms; alternative_medicine := no_terms |};
     waiting_periods := waiting_periods empty_policy;
     exclusions := [];
     network_hospitals := [];
     minimum_claim_amount := None |}.

Definition fever_prescription (medicines tests : list string) : Prescription :=
  {| doctor_name := Some "Dr. Sharma";
     doctor_reg := Some "KA/45678/2015";
     p_diagnosis := Some "Viral fever";
     medicines_prescribed := medicines;
     tests_prescribed := tests;
     p_procedures := [];
     treatment := None |}.

Definition fever_bill : Bill :=
  {| consultation_fee := Some 950; b_medicines := None; diagnostic_tests := Some 550;
     root_canal := None; therapy_charges := None; teeth_whitening := None;
     diet_plan := None; cosmetic := None; b_hospital_name := Some "City Clinic" |}.

(** A viral-fever claim treated on Friday 2024-11-01 at a clinic outside
    the network. *)
Definition fever_claim (id join_date : option string) (amount : Q)
           (medicines tests : list string) (pre_auth : bool) : ClaimData :=
  {| claim_id := id;
     member_id := Some "EMP001";
     member_name := Some "Rajesh Kumar";
     treatment_date := "2024-11-01";
     claim_amount := amount;
     hospital := Some "City Clinic";
     cashless_request := false;
     category := None;
     documents := {| prescription := Some (fever_prescription medicines tests);
                     bill := Some fever_bill |};
     member_join_date := join_date;
     previous_claims_same_day := 0;
     previous_claims_ytd := 0;
     Claim.pre_auth_obtained := pre_auth |}.

(** The scenario of the specification: 1500 claimed for viral fever,
    Paracetamol prescribed, CBC and Dengue tests, no category given.  What
    the scenario leaves open is a parameter. *)
Definition scenario_data : ExtractedData :=
  {| ed_diagnosis := Some "Viral fever";
     ed_medicines := ["Paracetamol"];
     ed_tests := ["CBC"; "Dengue"];
     ed_procedures := [] |}.

Definition scenario_submission (id join_date : option string) (treated : string)
           (clinic : option string) (cashless : bool) (invoice : option Bill)
           (same_day : Z) (ytd : Q) : ClaimData :=
  {| claim_id := id;
     member_id := Some "EMP001";
     member_name := Some "Rajesh Kumar";
     treatment_date := treated;
     claim_amount := 1500;
     hospital := clinic;
     cashless_request := cashless;
     category := None;
     documents :=
       {| prescription := Some (fever_prescription ["Paracetamol"] ["CBC"; "Dengue"]);
          bill := invoice |};
     member_join_date := join_date;
     previous_claims_same_day := same_day;
     previous_claims_ytd := ytd;
     Claim.pre_auth_obtained := false |}.

Definition scenario_claim : ClaimData :=
  scenario_submission (Some "CLM_TEST_0001") (Some "2024-01-01") "2024-11-01"
                      (Some "City Clinic") false (Some fever_bill) 0 0.

(** A plain consultation claimed at 600.006. *)
Definition fractional_claim : ClaimData :=
  fever_claim (Some "CLM_TEST_0002") (Some "2024-01-01") (600006 # 1000) [] [] false.

(** Two runs of the service, neither of which gets a usable reply from
    the assistants. *)
Definition run_2024 : Env :=
  {| now := {| PyDate.year := 2024; PyDate.month := 11; PyDate.day := 2 |};
     now_clock := "101500";
     uuid4 := "3f2a9c1e-58d4-4f6b-9a3e-0b1c2d3e4f50";
     extractor_reply := None;
     limit_agent_reply := AgentFailed |}.



End Samples.

(* ================================================================== *)
(** ** Predicates used in the statements and proofs *)

(** Invariant of the fraud detector's running pair: the flags raised so
    far are pairwise distinct and drawn from [allowed]; the score lies
    between 0 and [bound] and is a whole number of hundredths. *)
Definition tally_ok (allowed : list string) (bound : Q) (t : FraudDetection.Tally) : Prop :=
  NoDup (fst t)
  /\ incl (fst t) allowed
  /\ (0 <= snd t)%Q
  /\ (snd t <= bound)%Q
  /\ Money.two_decimals (snd t).


(** The bill lines that exclusions take money from are not negative. *)
Definition exclusion_lines_non_negative (claim_data : ClaimData) : Prop :=
  forall b, bill (documents claim_data) = Some b ->
    (0 <= get_default (teeth_whitening b) 0
     /\ 0 <= get_default (diet_plan b) 0
     /\ 0 <= get_default (cosmetic b) 0)%Q.


(** The messages of the fraud checks, latest first. *)
Definition all_flags : list string :=
  [ "Non-emergency treatment on weekend";
    "Multiple round number amounts in bill";
    "Unusually high number of medicines prescribed";
    "Invalid or suspicious doctor registration";
    "Claim amount very close to per-claim limit";
    "Near annual limit exhaustion";
    "Multiple claims on same day";
    "Multiple claims on same day (3+)" ]%string.

(** The accumulator of [validate_coverage] after its three loops. *)
Definition coverage_acc (policy : PolicyTerms) (diagnosis : string)
           (treatments procedures medicines tests : list string)
           (claim_amount : Q) (pre_auth_obtained : bool) : Coverage.Acc :=
  let all_items :=
    (treatments ++ procedures
     ++ (if PyStr.truthy diagnosis then [diagnosis] else []))%list in
  let is_deficiency_treatment :=
    PyStr.any_in ["deficiency"; "anemia"; "scurvy"; "rickets"; "malnutrition"]%string
                 (PyStr.lower diagnosis) in
  fold_left (Coverage.check_test claim_amount pre_auth_obtained) tests
    (fold_left (Coverage.check_medicine is_deficiency_treatment) medicines
       (fold_left (Coverage.check_item policy diagnosis) all_items
          {| Coverage.acc_covered := []; Coverage.acc_excluded := [];
             Coverage.acc_reasons := []; Coverage.acc_pre_auth_required := false |})).

(** The rejection codes the coverage stage can raise. *)
Definition coverage_codes : list string :=
  ["COSMETIC_PROCEDURE"; "SERVICE_NOT_COVERED"; "EXCLUDED_CONDITION";
   "PRE_AUTH_MISSING"]%string.

(** Invariant of the coverage accumulator: the rejection codes are
    pairwise distinct and drawn from [coverage_codes], and something is
    excluded exactly when a code was raised. *)
Definition acc_ok (a : Coverage.Acc) : Prop :=
  NoDup (Coverage.acc_reasons a)
  /\ incl (Coverage.acc_reasons a) coverage_codes
  /\ (Coverage.acc_excluded a = [] <-> Coverage.acc_reasons a = []).

(** Number of named (non-empty) entries of a list. *)
Definition named (items : list string) : nat :=
  List.length (filter PyStr.truthy items).

(** Entries on the covered and on the excluded list together. *)
Definition listed (a : Coverage.Acc) : nat :=
  (List.length (Coverage.acc_covered a) + List.length (Coverage.acc_excluded a))%nat.


(** ** Further concrete inputs *)

Module Cases.
Local Open Scope string_scope.
Local Open Scope Q_scope.

(** What the coverage stage hands on for a plain consultation. *)
Definition consultation_coverage : Coverage.CoverageResult :=
  {| Coverage.is_covered := true;
     Coverage.covered_items := ["Viral fever"];
     Coverage.excluded_items := [];
     Coverage.pre_auth_required := false;
     Coverage.pre_auth_obtained := false;
     Coverage.applicable_sub_limit := 2000;
     Coverage.category := "consultation";
     Coverage.rejection_reasons := [];
     Coverage.confidence_score := 92 # 100 |}.

(** A dental bill with a whitening line of 1500 next to a root canal
    of 3000. *)
Definition whitening_bill : Bill :=
  {| consultation_fee := None; b_medicines := None; diagnostic_tests := None;
     root_canal := Some 3000; therapy_charges := None; teeth_whitening := Some 1500;
     diet_plan := None; cosmetic := None; b_hospital_name := Some "Smile Dental" |}.

Definition whitening_claim : ClaimData :=
  {| claim_id := Some "CLM_TEST_0005";
     member_id := Some "EMP002";
     member_name := Some "Priya Singh";
     treatment_date := "2024-10-15";
     claim_amount := 4500;
     hospital := Some "Smile Dental";
     cashless_request := false;
     category := None;
     documents :=
       {| prescription := Some
            {| doctor_name := Some "Dr. Patel";
               doctor_reg := Some "MH/23456/2012";
               p_diagnosis := Some "Tooth decay requiring root canal";
               medicines_prescribed := [];
               tests_prescribed := [];
               p_procedures := ["Root canal treatment"; "Teeth whitening"];
               treatment := None |};
          bill := Some whitening_bill |};
     member_join_date := Some "2024-01-01";
     previous_claims_same_day := 0;
     previous_claims_ytd := 0;
     Claim.pre_auth_obtained := false |}.

(** What the coverage stage hands on for [whitening_claim]. *)
Definition whitening_coverage : Coverage.CoverageResult :=
  {| Coverage.is_covered := false;
     Coverage.covered_items := ["Root canal treatment"; "Tooth decay requiring root canal"];
     Coverage.excluded_items := ["Teeth whitening - Cosmetic procedures/treatments"];
     Coverage.pre_auth_required := false;
     Coverage.pre_auth_obtained := false;
     Coverage.applicable_sub_limit := 10000;
     Coverage.category := "dental";
     Coverage.rejection_reasons := ["COSMETIC_PROCEDURE"];
     Coverage.confidence_score := 95 # 100 |}.

(** The viral-fever scenario at a network hospital, with cashless
    settlement requested. *)
Definition cashless_claim : ClaimData :=
  Samples.scenario_submission (Some "CLM_TEST_0006") (Some "2024-01-01") "2024-11-01"
                              (Some "Apollo Hospitals") true (Some Samples.fever_bill) 0 0.

(** The same scenario for a member who joined twelve days before the
    treatment. *)
Definition new_member_claim : ClaimData :=
  Samples.scenario_submission (Some "CLM_TEST_0007") (Some "2024-10-20") "2024-11-01"
                              (Some "City Clinic") false (Some Samples.fever_bill) 0 0.

(** A consultation claimed at 300, below the default minimum of 500. *)
Definition small_claim : ClaimData :=
  Samples.fever_claim (Some "CLM_TEST_0008") (Some "2024-01-01") 300 [] [] false.

End Cases.

(** ** The weights of the fraud checks *)

(** What each check of [check_fraud_indicators] adds to the score, by
    the message it appends. *)
Definition flag_weights : list (string * Q) :=
  [ ("Multiple claims on same day (3+)", 3 # 10);
    ("Multiple claims on same day", 15 # 100);
    ("Near annual limit exhaustion", 1 # 10);
    ("Claim amount very close to per-claim limit", 1 # 10);
    ("Invalid or suspicious doctor registration", 25 # 100);
    ("Unusually high number of medicines prescribed", 1 # 10);
    ("Multiple round number amounts in bill", 5 # 100);
    ("Non-emergency treatment on weekend", 5 # 100) ]%string.

Definition weight_of (flag : string) : Q :=
  get_default (dict_lookup flag flag_weights) 0.

Definition total_weight (flags : list string) : Q :=
  fold_right (fun flag acc => weight_of flag + acc) 0 flags.

(* ================================================================== *)
(** * Properties of the pipeline *)

Open Scope string_scope.
Open Scope Q_scope.

(** ** Facts about strings and amounts *)

Module PyStrFacts.
Import PyStr.

Lemma mem_In (x : string) (xs : list string) : mem x xs = true <-> In x xs.
Proof.
  unfold mem. rewrite existsb_exists. split.
  - intros [y [Hy Heq]]. apply String.eqb_eq in Heq. now subst.
  - intros H. exists x. split; [assumption | apply String.eqb_refl].
Qed.

Lemma mem_app (x : string) (xs ys : list string) :
  mem x (xs ++ ys) = mem x xs || mem x ys.
Proof. unfold mem. apply existsb_app. Qed.

End PyStrFacts.

Module MoneyFacts.
Import Money.
Local Open Scope Q_scope.

Lemma ltb_spec (a b : Q) : ltb a b = true <-> a < b.
Proof.
  unfold ltb. rewrite negb_true_iff. split; intros H.
  - apply Qnot_le_lt. intros Hle. apply Qle_bool_iff in Hle. congruence.
  - destruct (Qle_bool b a) eqn:E; [|reflexivity].
    apply Qle_bool_iff in E. lra.
Qed.

Lemma ltb_false (a b : Q) : ltb a b = false <-> b <= a.
Proof.
  unfold ltb. rewrite negb_false_iff. apply Qle_bool_iff.
Qed.

Lemma leb_spec (a b : Q) : leb a b = true <-> a <= b.
Proof. apply Qle_bool_iff. Qed.

Lemma leb_false (a b : Q) : leb a b = false <-> b < a.
Proof.
  unfold leb. split; intros H.
  - apply Qnot_le_lt. intros Hle. apply Qle_bool_iff in Hle. congruence.
  - destruct (Qle_bool a b) eqn:E; [|reflexivity].
    apply Qle_bool_iff in E. lra.
Qed.

Lemma gtb_spec (a b : Q) : gtb a b = true <-> b < a.
Proof. apply ltb_spec. Qed.

Lemma gtb_false (a b : Q) : gtb a b = false <-> a <= b.
Proof. apply ltb_false. Qed.

Lemma geb_spec (a b : Q) : geb a b = true <-> b <= a.
Proof. apply leb_spec. Qed.

Lemma geb_false (a b : Q) : geb a b = false <-> a < b.
Proof. apply leb_false. Qed.

#[global] Instance round_half_even_Proper : Proper (Qeq ==> eq) round_half_even.
Proof.
  intros x y Hxy. unfold round_half_even.
  rewrite (Qfloor_comp _ _ Hxy).
  assert (Hc : Qcompare (x - inject_Z (Qfloor y)) (1 # 2)
               = Qcompare (y - inject_Z (Qfloor y)) (1 # 2)).
  { apply Qcompare_comp; [rewrite Hxy|]; reflexivity. }
  now rewrite Hc.
Qed.

#[global] Instance round2_Proper : Proper (Qeq ==> Qeq) round2.
Proof.
  intros x y Hxy. unfold round2.
  assert (H : x * 100 == y * 100) by (rewrite Hxy; reflexivity).
  now rewrite (round_half_even_Proper H).
Qed.

Lemma floor_bounds (q : Q) :
  inject_Z (Qfloor q) <= q /\ q < inject_Z (Qfloor q) + 1.
Proof.
  split; [apply Qfloor_le|].
  pose proof (Qlt_floor q) as H. rewrite inject_Z_plus in H. exact H.
Qed.

Lemma round_half_even_near (q : Q) :
  q - (1 # 2) <= inject_Z (round_half_even q)
  /\ inject_Z (round_half_even q) <= q + (1 # 2).
Proof.
  unfold round_half_even. destruct (floor_bounds q) as [Hlo Hhi].
  set (f := Qfloor q) in *.
  destruct (Qcompare_spec (q - inject_Z f) (1 # 2)) as [E|L|G].
  - destruct (Z.even f); [|rewrite inject_Z_plus; change (inject_Z 1) with 1]; lra.
  - lra.
  - rewrite inject_Z_plus. change (inject_Z 1) with 1. lra.
Qed.

Lemma inject_Z_lt_succ (a b : Z) :
  inject_Z a < inject_Z b + 1 -> (a <= b)%Z.
Proof.
  intros H. change 1 with (inject_Z 1) in H.
  rewrite <- inject_Z_plus, <- Zlt_Qlt in H. lia.
Qed.

Lemma round_half_even_Z (z : Z) : round_half_even (inject_Z z) = z.
Proof.
  unfold round_half_even. rewrite Qfloor_Z.
  destruct (Qcompare_spec (inject_Z z - inject_Z z) (1 # 2)) as [E|L|G];
    try reflexivity; exfalso; lra.
Qed.

Lemma round_half_even_mono (x y : Q) :
  x <= y -> (round_half_even x <= round_half_even y)%Z.
Proof.
  intros Hxy.
  destruct (Z_le_gt_dec (round_half_even x) (round_half_even y)) as [|Hgt];
    [assumption|exfalso].
  destruct (round_half_even_near x) as [_ Hx].
  destruct (round_half_even_near y) as [Hy _].
  assert (Hz : (round_half_even y + 1 <= round_half_even x)%Z) by lia.
  rewrite Zle_Qle, inject_Z_plus in Hz. change (inject_Z 1) with 1 in Hz.
  assert (Heq : x == y) by lra.
  pose proof (round_half_even_Proper Heq). lia.
Qed.

Lemma round2_mono (x y : Q) : x <= y -> round2 x <= round2 y.
Proof.
  intros Hxy. unfold round2.
  assert (H : (round_half_even (x * 100) <= round_half_even (y * 100))%Z)
    by (apply round_half_even_mono; lra).
  rewrite Zle_Qle in H. lra.
Qed.

Lemma round2_two_decimals (q : Q) : two_decimals q -> round2 q == q.
Proof.
  intros [z Hz]. unfold round2.
  assert (H : q * 100 == inject_Z z) by (rewrite Hz; field).
  rewrite (round_half_even_Proper H), round_half_even_Z. rewrite Hz. reflexivity.
Qed.

Lemma two_decimals_round2 (q : Q) : two_decimals (round2 q).
Proof. exists (round_half_even (q * 100)). reflexivity. Qed.

Lemma round2_idem (q : Q) : round2 (round2 q) == round2 q.
Proof. apply round2_two_decimals, two_decimals_round2. Qed.

Lemma round2_0 : round2 0 == 0.
Proof. reflexivity. Qed.

Lemma round2_near (q : Q) :
  q - (1 # 200) <= round2 q /\ round2 q <= q + (1 # 200).
Proof.
  unfold round2. destruct (round_half_even_near (q * 100)). split; lra.
Qed.

(** A value no further than half a paisa below zero rounds to a
    non-negative amount: the tie at [-0.005] goes to the even side. *)
Lemma round2_nonneg (q : Q) : - (1 # 200) <= q -> 0 <= round2 q.
Proof.
  intros H.
  assert (H0 : round2 (- (1 # 200)) == 0) by reflexivity.
  rewrite <- H0. now apply round2_mono.
Qed.

Lemma two_decimals_Z (z : Z) : two_decimals (inject_Z z).
Proof.
  exists (z * 100)%Z. rewrite inject_Z_mult. change (inject_Z 100) with 100. field.
Qed.

End MoneyFacts.

(** ** Co-pay lookup *)

Lemma sub_limits_without_percentages (policy : PolicyTerms) (c : string) :
  c <> "consultation" ->
  dict_lookup "copay_percentage" (PolicyTools.get_sub_limits policy (Some c)) = None
  /\ dict_lookup "network_discount" (PolicyTools.get_sub_limits policy (Some c)) = None.
Proof.
  intros Hc. unfold PolicyTools.get_sub_limits.
  destruct (PyStr.truthy c); [|split; reflexivity].
  unfold PolicyTools.sub_limits. cbn [dict_lookup].
  destruct (String.eqb_spec c "consultation") as [E|_]; [contradiction|].
  repeat match goal with
         | |- context [String.eqb c ?k] => destruct (String.eqb c k)
         end; split; reflexivity.
Qed.

Lemma copay_percentage_fallback (policy : PolicyTerms) (c : string) :
  c <> "consultation" -> PolicyTools.copay_percentage_for policy c = 10.
Proof.
  intros Hc. unfold PolicyTools.copay_percentage_for, dict_get_num.
  now rewrite (proj1 (sub_limits_without_percentages policy Hc)).
Qed.

Lemma network_discount_fallback (policy : PolicyTerms) (c : string) (is_network : bool) :
  c <> "consultation" ->
  PolicyTools.network_discount_percentage_for policy c is_network
  = if is_network then 20 else 0.
Proof.
  intros Hc. unfold PolicyTools.network_discount_percentage_for, dict_get_num.
  now rewrite (proj2 (sub_limits_without_percentages policy Hc)).
Qed.

Lemma copay_percentage_consultation (policy : PolicyTerms) :
  PolicyTools.copay_percentage_for policy "consultation"
  = get_default (ct_copay_percentage (consultation_fees (coverage_details policy))) 10.
Proof. reflexivity. Qed.

(** With a consultation co-pay between 0 and 100 in the policy, every
    category's co-pay percentage is. *)
Lemma copay_percentage_range (policy : PolicyTerms) :
  0 <= PolicyTools.copay_percentage_for policy "consultation" <= 100 ->
  forall c, 0 <= PolicyTools.copay_percentage_for policy c <= 100.
Proof.
  intros H c. destruct (string_dec c "consultation") as [->|Hc]; [assumption|].
  rewrite (copay_percentage_fallback policy Hc). split; discriminate.
Qed.

(** C10. For every category other than "consultation" the table returned
    by [get_sub_limits] has neither a [copay_percentage] nor a
    [network_discount] entry, so [calculate_copay] applies the fallback
    10% co-pay and, for a network hospital, the fallback 20% discount,
    whatever percentages the policy configures for that category: what it
    returns does not depend on the policy at all.  The amounts it returns
    are a tenth and, at a network hospital, a fifth of the amount, up to
    the rounding to two decimals (within a hundredth, for amounts of
    moderate size). *)
Theorem non_consultation_uses_fallback_percentages
        (policy other : PolicyTerms) (category : string) (amount : Q) (is_network : bool) :
  category <> "consultation" ->
  let table := PolicyTools.get_sub_limits policy (Some category) in
  let info := PolicyTools.calculate_copay policy amount category is_network in
  dict_lookup "copay_percentage" table = None
  /\ dict_lookup "network_discount" table = None
  /\ PolicyTools.ci_copay_percentage info = 10
  /\ PolicyTools.ci_network_discount_percentage info = (if is_network then 20 else 0)
  /\ info = PolicyTools.calculate_copay other amount category is_network
  /\ (Money.moderate amount ->
      let tenth := amount * (10 / 100) in
      let fifth := if is_network then amount * (20 / 100) else 0 in
      tenth - (1 # 100) <= PolicyTools.ci_copay_amount info <= tenth + (1 # 100)
      /\ fifth - (1 # 100) <= PolicyTools.ci_network_discount info <= fifth + (1 # 100)).
Proof.
  intros Hc table info.
  destruct (sub_limits_without_percentages policy Hc) as [H1 H2].
  split; [assumption|]. split; [assumption|].
  split; [exact (copay_percentage_fallback policy Hc)|].
  split; [exact (network_discount_fallback policy is_network Hc)|].
  split.
  - unfold info, PolicyTools.calculate_copay.
    rewrite (copay_percentage_fallback policy Hc), (copay_percentage_fallback other Hc),
      (network_discount_fallback policy is_network Hc),
      (network_discount_fallback other is_network Hc).
    reflexivity.
  - intros _ tenth fifth. unfold info, PolicyTools.calculate_copay.
    rewrite (copay_percentage_fallback policy Hc),
      (network_discount_fallback policy is_network Hc).
    cbn [PolicyTools.ci_copay_amount PolicyTools.ci_network_discount].
    fold tenth.
    destruct (MoneyFacts.round2_near tenth) as [Hlo Hhi].
    split; [split; lra|].
    unfold fifth. destruct is_network.
    + destruct (MoneyFacts.round2_near (amount * (20 / 100))) as [Hlo' Hhi'].
      split; lra.
    + assert (Hzero : amount * (0 / 100) == 0) by field.
      rewrite Hzero, MoneyFacts.round2_0. split; lra.
Qed.

Lemma non_consultation_uses_fallback_percentages_witness :
  "dental" <> "consultation"
  /\ PolicyTools.ci_copay_percentage
       (PolicyTools.calculate_copay Samples.policy_with_dental_percentages 1000 "dental" true) = 10
  /\ PolicyTools.calculate_copay Samples.policy_with_dental_percentages 1000 "dental" true
     = PolicyTools.calculate_copay empty_policy 1000 "dental" true.
Proof.
  assert (H : "dental" <> "consultation") by discriminate.
  split; [exact H|].
  destruct (@non_consultation_uses_fallback_percentages
              Samples.policy_with_dental_percentages empty_policy "dental" 1000 true H)
    as (_ & _ & Hpct & _ & Hsame & _).
  split; [exact Hpct | exact Hsame].
Defined.

(** ** Limit calculation *)

Lemma Qmax_0_nonneg (x : Q) : 0 <= Qmax x 0.
Proof. apply Q.le_max_r. Qed.

Lemma Qmax_0_le (x y : Q) : x <= y -> 0 <= y -> Qmax x 0 <= y.
Proof. intros. apply Q.max_lub; assumption. Qed.

Lemma min4_le (a b c d : Q) :
  Limits.min4 a b c d <= a /\ Limits.min4 a b c d <= b
  /\ Limits.min4 a b c d <= c /\ Limits.min4 a b c d <= d.
Proof.
  unfold Limits.min4.
  pose proof (Q.le_min_l (Qmin (Qmin a b) c) d).
  pose proof (Q.le_min_r (Qmin (Qmin a b) c) d).
  pose proof (Q.le_min_l (Qmin a b) c).
  pose proof (Q.le_min_r (Qmin a b) c).
  pose proof (Q.le_min_l a b).
  pose proof (Q.le_min_r a b).
  repeat split; lra.
Qed.

(** The co-pay taken from a non-negative amount at a percentage between
    0 and 100 leaves a rounded remainder between 0 and the amount. *)
Lemma remainder_after_copay (amount pct : Q) :
  0 <= amount -> 0 <= pct <= 100 ->
  let copay := Money.round2 (amount * (pct / 100)) in
  0 <= copay /\ 0 <= Money.round2 (amount - copay)
  /\ Money.round2 (amount - copay) <= Money.round2 amount.
Proof.
  intros Ha [Hp0 Hp1] copay.
  assert (Hfrac : 0 <= pct / 100 <= 1).
  { split.
    - apply Qle_shift_div_l; [reflexivity | lra].
    - apply Qle_shift_div_r; [reflexivity | lra]. }
  assert (Hprod : 0 <= amount * (pct / 100) <= amount) by (split; nra).
  destruct (MoneyFacts.round2_near (amount * (pct / 100))) as [Hlo Hhi].
  assert (Hc0 : 0 <= copay).
  { unfold copay. rewrite <- MoneyFacts.round2_0. apply MoneyFacts.round2_mono. lra. }
  fold copay in Hlo, Hhi.
  repeat split.
  - assumption.
  - apply MoneyFacts.round2_nonneg. lra.
  - apply MoneyFacts.round2_mono. lra.
Qed.

Section LimitFacts.
Variable policy : PolicyTerms.

Lemma calculate_limits_short claim category hospital excluded ytd sub :
  claim < PolicyTools.get_minimum_claim_amount policy ->
  Limits.calculate_limits policy claim category hospital excluded ytd sub
  = {| Limits.within_limits := false; Limits.claim_amount := claim;
       Limits.approved_amount := 0; Limits.rejection_reasons := ["BELOW_MIN_AMOUNT"];
       Limits.confidence_score := 1; Limits.details := None |}.
Proof.
  intros H. unfold Limits.calculate_limits.
  apply MoneyFacts.ltb_spec in H. now rewrite H.
Qed.

Lemma calculate_limits_full claim category hospital excluded ytd sub :
  PolicyTools.get_minimum_claim_amount policy <= claim ->
  let before :=
    Qmax (Limits.min4 (claim - excluded) (PolicyTools.get_per_claim_limit policy)
                      (PolicyTools.get_annual_limit policy - ytd)
                      (Limits.resolve_sub_limit policy category sub)) 0 in
  let cat := Limits.copay_category category in
  let net := Limits.network_flag policy hospital in
  let copay := Money.round2 (before * (PolicyTools.copay_percentage_for policy cat / 100)) in
  let r := Limits.calculate_limits policy claim category hospital excluded ytd sub in
  Limits.approved_amount r = Money.round2 (before - copay)
  /\ exists d, Limits.details r = Some d
       /\ Limits.copay_amount d = Money.round2 copay
       /\ Limits.copay_percentage d = PolicyTools.copay_percentage_for policy cat
       /\ Limits.network_discount d
          = Money.round2 (Money.round2
               (before * (PolicyTools.network_discount_percentage_for policy cat net / 100)))
       /\ Limits.remaining_annual_limit d
          = Money.round2 (PolicyTools.get_annual_limit policy - ytd)
       /\ Limits.excluded_amount d = excluded
       /\ Limits.is_network_hospital d = net.
Proof.
  intros H before cat net copay r. unfold r, Limits.calculate_limits.
  apply MoneyFacts.ltb_false in H. rewrite H.
  split; [reflexivity|]. eexists. split; [reflexivity|].
  repeat split.
Qed.
End LimitFacts.

Lemma calculate_limits_bounds (policy : PolicyTerms) claim category hospital excluded ytd sub :
  0 <= claim -> 0 <= excluded ->
  0 <= PolicyTools.get_per_claim_limit policy ->
  0 <= PolicyTools.copay_percentage_for policy (Limits.copay_category category) <= 100 ->
  let r := Limits.calculate_limits policy claim category hospital excluded ytd sub in
  0 <= Limits.approved_amount r
  /\ Limits.approved_amount r <= Money.round2 claim
  /\ Limits.approved_amount r <= Money.round2 (PolicyTools.get_per_claim_limit policy).
Proof.
  intros Hc He Hp Hpct r.
  assert (Hrc : 0 <= Money.round2 claim)
    by (rewrite <- MoneyFacts.round2_0; now apply MoneyFacts.round2_mono).
  assert (Hrp : 0 <= Money.round2 (PolicyTools.get_per_claim_limit policy))
    by (rewrite <- MoneyFacts.round2_0; now apply MoneyFacts.round2_mono).
  destruct (Qlt_le_dec claim (PolicyTools.get_minimum_claim_amount policy)) as [Hlt|Hge].
  - unfold r. rewrite (@calculate_limits_short policy claim category hospital excluded ytd sub Hlt).
    cbn [Limits.approved_amount]. repeat split; [lra | assumption | assumption].
  - destruct (@calculate_limits_full policy claim category hospital excluded ytd sub Hge) as [Ha _].
    fold r in Ha. rewrite Ha. clear Ha.
    set (before := Qmax _ 0).
    assert (Hb0 : 0 <= before) by apply Qmax_0_nonneg.
    destruct (min4_le (claim - excluded) (PolicyTools.get_per_claim_limit policy)
                      (PolicyTools.get_annual_limit policy - ytd)
                      (Limits.resolve_sub_limit policy category sub)) as (M1 & M2 & _ & _).
    assert (Hbc : before <= claim) by (apply Qmax_0_le; lra).
    assert (Hbp : before <= PolicyTools.get_per_claim_limit policy)
      by (apply Qmax_0_le; lra).
    destruct (@remainder_after_copay before _ Hb0 Hpct) as (_ & R0 & R1).
    repeat split.
    + exact R0.
    + eapply Qle_trans; [exact R1 | now apply MoneyFacts.round2_mono].
    + eapply Qle_trans; [exact R1 | now apply MoneyFacts.round2_mono].
Qed.

Lemma calculate_limits_with_agent_rule_based (policy : PolicyTerms) (agent : AgentOutcome)
      (claim_data : ClaimData) (coverage_result : Coverage.CoverageResult) :
  agent_overrides agent = false ->
  Limits.calculate_limits_with_agent policy agent claim_data coverage_result
  = if Money.ltb (claim_amount claim_data) (PolicyTools.get_minimum_claim_amount policy)
    then Raised (KeyError "per_claim_exceeded")
    else Ok (Limits.calculate_limits policy (claim_amount claim_data)
               (Some (Coverage.category coverage_result)) (hospital claim_data)
               (Limits.excluded_amount_of claim_data (Coverage.excluded_items coverage_result))
               (previous_claims_ytd claim_data)
               (Some (Coverage.applicable_sub_limit coverage_result))).
Proof.
  intros Hagent. unfold Limits.calculate_limits_with_agent, Limits.calculate_limits.
  destruct (Money.ltb (claim_amount claim_data) _); [reflexivity|].
  cbn [Limits.within_limits Limits.details Limits.key bind Limits.per_claim_exceeded
       Limits.sub_limit_exceeded Limits.is_network_hospital Limits.remaining_annual_limit].
  repeat match goal with
         | |- context [if ?b then _ else _] => destruct b; cbn [negb bind]
         end;
  try reflexivity; destruct agent as [|[amount|] conf]; try discriminate; reflexivity.
Qed.

(** ** Decision synthesis *)

Lemma decide_amount (reasons excluded covered : list string)
      (fraud : FraudDetection.FraudResult) (approved claim : Q) :
  snd (Decision.decide reasons excluded covered fraud approved claim) = 0
  \/ snd (Decision.decide reasons excluded covered fraud approved claim) = approved.
Proof.
  unfold Decision.decide.
  repeat match goal with
         | |- context [if ?b then _ else _] => destruct b
         end; cbn [snd]; auto.
Qed.

Lemma decide_hard_rejection (reasons excluded covered : list string)
      (fraud : FraudDetection.FraudResult) (approved claim : Q) :
  Decision.has_hard_rejection reasons
  || Decision.is_fully_excluded_service reasons covered = true ->
  Decision.decide reasons excluded covered fraud approved claim = (Decision.REJECTED, 0).
Proof. intros H. unfold Decision.decide. now rewrite H. Qed.

Lemma make_decision_fields (current_year : Z) (id : string) (claim_data : ClaimData)
      (extraction : ExtractionResult) (eligibility : Eligibility.EligibilityResult)
      (coverage : Coverage.CoverageResult) (limits : Limits.LimitResult) :
  let fraud :=
    FraudDetection.check_fraud_indicators current_year claim_data
      (previous_claims_same_day claim_data) (previous_claims_ytd claim_data) 50000 in
  let reasons :=
    (Eligibility.rejection_reasons eligibility ++ Coverage.rejection_reasons coverage
     ++ Limits.rejection_reasons limits)%list in
  let verdict :=
    Decision.decide reasons (Coverage.excluded_items coverage)
                    (Coverage.covered_items coverage) fraud
                    (Limits.approved_amount limits) (claim_amount claim_data) in
  let result :=
    Decision.make_decision current_year id claim_data extraction eligibility coverage limits in
  Decision.decision result = fst verdict
  /\ Decision.approved_amount result = Money.round2 (snd verdict)
  /\ Decision.rejection_reasons result = reasons
  /\ Decision.fraud_result result = Some fraud.
Proof.
  intros fraud reasons verdict result. unfold result, Decision.make_decision.
  fold fraud. fold reasons. fold verdict. destruct verdict as [d a].
  repeat split.
Qed.

(** C2. In decision synthesis, when one of POLICY_INACTIVE,
    MEMBER_NOT_COVERED, WAITING_PERIOD, MISSING_DOCUMENTS, PRE_AUTH_MISSING
    or PER_CLAIM_EXCEEDED is among the merged rejection codes of
    eligibility, coverage and limits, or SERVICE_NOT_COVERED is among them
    and no item is covered, the decision is REJECTED and the approved
    amount is 0, whatever the limit stage approved, the fraud score and the
    excluded or covered items are. *)
Theorem hard_rejection_code_rejects_with_zero
        (current_year : Z) (id : string) (claim_data : ClaimData)
        (extraction : ExtractionResult) (eligibility : Eligibility.EligibilityResult)
        (coverage : Coverage.CoverageResult) (limits : Limits.LimitResult) :
  let merged :=
    (Eligibility.rejection_reasons eligibility ++ Coverage.rejection_reasons coverage
     ++ Limits.rejection_reasons limits)%list in
  (exists code,
      In code ["POLICY_INACTIVE"; "MEMBER_NOT_COVERED"; "WAITING_PERIOD";
               "MISSING_DOCUMENTS"; "PRE_AUTH_MISSING"; "PER_CLAIM_EXCEEDED"]
      /\ In code merged)
  \/ (In "SERVICE_NOT_COVERED" merged /\ Coverage.covered_items coverage = []) ->
  let result :=
    Decision.make_decision current_year id claim_data extraction eligibility coverage limits in
  Decision.decision result = Decision.REJECTED
  /\ Decision.approved_amount result == 0.
Proof.
  intros merged H result.
  destruct (make_decision_fields current_year id claim_data extraction eligibility
                                 coverage limits) as (Hd & Ha & _).
  fold result in Hd, Ha. fold merged in Hd, Ha.
  assert (Hhard : Decision.has_hard_rejection merged
                  || Decision.is_fully_excluded_service merged
                       (Coverage.covered_items coverage) = true).
  { apply orb_true_iff. destruct H as [[code [Hc Hm]] | [Hs Hcov]].
    - left. unfold Decision.has_hard_rejection. apply existsb_exists.
      exists code. split; [assumption | now apply PyStrFacts.mem_In].
    - right. unfold Decision.is_fully_excluded_service.
      rewrite Hcov. apply andb_true_iff. split; [now apply PyStrFacts.mem_In | reflexivity]. }
  rewrite (decide_hard_rejection _ _ _ _ _ _ Hhard) in Hd, Ha.
  split; [exact Hd | rewrite Ha; reflexivity].
Qed.

(** A claim of 7500 under the default policy: the limit stage raises
    PER_CLAIM_EXCEEDED. *)
Lemma hard_rejection_code_rejects_with_zero_witness :
  let claim_data :=
    Samples.fever_claim (Some "CLM_TEST_0003") (Some "2024-01-01") 7500
                        ["Paracetamol"] [] false in
  let extraction := Workflow.basic_extraction claim_data in
  let eligibility :=
    Eligibility.check_eligibility_with_agent empty_policy Samples.run_2024 claim_data
                                             extraction in
  let coverage := Coverage.validate_coverage_with_agent empty_policy claim_data extraction in
  let limits :=
    Limits.calculate_limits empty_policy 7500 (Some (Coverage.category coverage))
                            (hospital claim_data) 0 0
                            (Some (Coverage.applicable_sub_limit coverage)) in
  In "PER_CLAIM_EXCEEDED"
     (Eligibility.rejection_reasons eligibility ++ Coverage.rejection_reasons coverage
      ++ Limits.rejection_reasons limits)
  /\ Decision.decision
       (Decision.make_decision 2024 "CLM_TEST_0003" claim_data extraction eligibility
                               coverage limits) = Decision.REJECTED.
Proof.
  intros claim_data extraction eligibility coverage limits.
  assert (Hin : In "PER_CLAIM_EXCEEDED"
                   (Eligibility.rejection_reasons eligibility
                    ++ Coverage.rejection_reasons coverage
                    ++ Limits.rejection_reasons limits))
    by (vm_compute; left; reflexivity).
  split; [exact Hin|].
  apply (@hard_rejection_code_rejects_with_zero
           2024 "CLM_TEST_0003" claim_data extraction eligibility coverage limits).
  left. exists "PER_CLAIM_EXCEEDED". split; [|exact Hin].
  do 5 right. left. reflexivity.
Defined.

(** C4 (amended). For a claim at or above the minimum amount the limit
    stage caps the eligible amount by the per-claim limit, the remaining
    annual limit and the sub-limit and floors it at zero.  The co-pay it
    returns is that amount times the co-pay percentage over 100 up to the
    rounding to two decimals, and the approved amount is the capped amount
    minus the returned co-pay, again up to rounding: each within one
    hundredth.  When the capped amount and the percentage are whole
    numbers nothing is lost and both equations hold as they stand.  The
    network discount is not subtracted: the approved amount is the same
    for any other hospital.  (Amounts are taken to be moderate and the
    percentage between 0 and 100, so that the margin of a hundredth also
    covers the floating-point arithmetic of the code.) *)
Theorem limit_stage_amounts
        (policy : PolicyTerms) (claim_amount : Q)
        (category hospital_name other_hospital : option string)
        (excluded_amount previous_claims_ytd : Q) (sub_limit : option Q) :
  PolicyTools.get_minimum_claim_amount policy <= claim_amount ->
  Money.moderate claim_amount ->
  Money.moderate excluded_amount ->
  Money.moderate (PolicyTools.get_annual_limit policy) ->
  Money.moderate previous_claims_ytd ->
  let before :=
    Qmax (Qmin (Qmin (Qmin (claim_amount - excluded_amount)
                           (PolicyTools.get_per_claim_limit policy))
                     (PolicyTools.get_annual_limit policy - previous_claims_ytd))
               (Limits.resolve_sub_limit policy category sub_limit))
         0 in
  let pct := PolicyTools.copay_percentage_for policy (Limits.copay_category category) in
  0 <= pct <= 100 ->
  let exact_copay := before * (pct / 100) in
  let r := Limits.calculate_limits policy claim_amount category hospital_name
                                   excluded_amount previous_claims_ytd sub_limit in
  exists d, Limits.details r = Some d
    /\ Limits.copay_percentage d = pct
    /\ exact_copay - (1 # 100) <= Limits.copay_amount d <= exact_copay + (1 # 100)
    /\ before - Limits.copay_amount d - (1 # 100) <= Limits.approved_amount r
       <= before - Limits.copay_amount d + (1 # 100)
    /\ ((exists n p : Z, before == inject_Z n /\ pct == inject_Z p) ->
        Limits.copay_amount d == exact_copay
        /\ Limits.approved_amount r == before - exact_copay)
    /\ Limits.approved_amount
         (Limits.calculate_limits policy claim_amount category other_hospital
                                  excluded_amount previous_claims_ytd sub_limit)
       = Limits.approved_amount r.
Proof.
  intros Hmin _ _ _ _ before pct Hpct exact_copay r.
  destruct (@calculate_limits_full policy claim_amount category hospital_name
              excluded_amount previous_claims_ytd sub_limit Hmin)
    as (Ha & d & Hd & Hc & Hp & _).
  destruct (@calculate_limits_full policy claim_amount category other_hospital
              excluded_amount previous_claims_ytd sub_limit Hmin)
    as (Ha' & _).
  fold r in Ha, Hd. unfold Limits.min4 in Ha, Ha', Hc. fold before in Ha, Ha', Hc.
  fold pct in Ha, Ha', Hc, Hp. fold exact_copay in Ha, Ha', Hc.
  assert (Hcopay : Limits.copay_amount d == Money.round2 exact_copay)
    by (rewrite Hc; apply MoneyFacts.round2_idem).
  exists d. split; [exact Hd|]. split; [exact Hp|].
  destruct (MoneyFacts.round2_near exact_copay) as [Hlo Hhi].
  destruct (MoneyFacts.round2_near (before - Money.round2 exact_copay)) as [Hlo' Hhi'].
  split; [rewrite Hcopay; split; lra|].
  split; [rewrite Ha, Hcopay; split; lra|].
  split; [|rewrite Ha, Ha'; reflexivity].
  intros (n & p & Hn & Hpz).
  assert (Hexact : Money.two_decimals exact_copay).
  { exists (n * p)%Z. unfold exact_copay. rewrite Hn, Hpz, inject_Z_mult. field. }
  assert (Hrest : Money.two_decimals (before - exact_copay)).
  { exists (n * 100 - n * p)%Z. unfold exact_copay.
    rewrite Hn, Hpz. unfold Zminus. rewrite inject_Z_plus, inject_Z_opp, !inject_Z_mult.
    change (inject_Z 100) with 100. field. }
  split.
  - rewrite Hcopay. now apply MoneyFacts.round2_two_decimals.
  - rewrite Ha, (MoneyFacts.round2_two_decimals Hexact).
    now apply MoneyFacts.round2_two_decimals.
Qed.

Lemma limit_stage_amounts_witness :
  PolicyTools.get_minimum_claim_amount empty_policy <= 1500
  /\ Money.moderate 1500
  /\ Money.moderate 0
  /\ Money.moderate (PolicyTools.get_annual_limit empty_policy)
  /\ 0 <= PolicyTools.copay_percentage_for empty_policy
            (Limits.copay_category (Some "diagnostic")) <= 100
  /\ exists d,
       Limits.details
         (Limits.calculate_limits empty_policy 1500 (Some "diagnostic") None 0 0 None)
       = Some d
       /\ 150 - (1 # 100) <= Limits.copay_amount d <= 150 + (1 # 100).
Proof.
  assert (Hmin : PolicyTools.get_minimum_claim_amount empty_policy <= 1500)
    by (vm_compute; discriminate).
  assert (H1 : Money.moderate 1500) by (split; vm_compute; discriminate).
  assert (H2 : Money.moderate 0) by (split; vm_compute; discriminate).
  assert (H3 : Money.moderate (PolicyTools.get_annual_limit empty_policy))
    by (split; vm_compute; discriminate).
  assert (H4 : 0 <= PolicyTools.copay_percentage_for empty_policy
                      (Limits.copay_category (Some "diagnostic")) <= 100)
    by (split; vm_compute; discriminate).
  split; [exact Hmin|]. split; [exact H1|]. split; [exact H2|]. split; [exact H3|].
  split; [exact H4|].
  destruct (@limit_stage_amounts empty_policy 1500 (Some "diagnostic") None None 0 0 None
              Hmin H1 H2 H3 H2 H4) as (d & Hd & _ & Hcopay & _).
  exists d. split; [exact Hd|].
  destruct Hcopay as [Hlo Hhi]. split.
  - eapply Qle_trans; [|exact Hlo]. vm_compute. discriminate.
  - eapply Qle_trans; [exact Hhi|]. vm_compute. discriminate.
Defined.

(** C4 as stated fails: on a claim of 1000.56 the exact 10% co-pay would
    be 100.056 and the remainder 900.504; the code keeps 100.06 and
    approves 900.50. *)
Lemma limit_stage_copay_is_not_exact :
  let claim_amount := 100056 # 100 in
  let r := Limits.calculate_limits empty_policy claim_amount None None 0 0 None in
  let before := Qmax (Qmin (Qmin (Qmin (claim_amount - 0) 5000) (50000 - 0)) 5000) 0 in
  let exact_copay := before * (10 / 100) in
  PolicyTools.get_minimum_claim_amount empty_policy <= claim_amount
  /\ Limits.detail Limits.copay_percentage 0 r == 10
  /\ Limits.detail Limits.copay_amount 0 r == 10006 # 100
  /\ Limits.approved_amount r == 9005 # 10
  /\ ~ (Limits.detail Limits.copay_amount 0 r == exact_copay)
  /\ ~ (Limits.approved_amount r == before - exact_copay).
Proof.
  vm_compute. repeat split; intros H; discriminate H.
Qed.

(** C7 (amended). Monetary outputs are already rounded to two decimals
    inside the limit stage: the approved amount, the co-pay, the network
    discount and the remaining annual limit it hands to the synthesizer
    are whole paise.  The synthesizer's own rounding then leaves the
    limit-stage approved amount as it is, unless a hard rejection replaces
    it by 0. *)
Theorem limit_stage_outputs_are_rounded
        (policy : PolicyTerms) (current_year : Z) (id : string) (claim_data : ClaimData)
        (extraction : ExtractionResult) (eligibility : Eligibility.EligibilityResult)
        (coverage : Coverage.CoverageResult)
        (category hospital_name : option string)
        (excluded ytd : Q) (sub_limit : option Q) :
  let r := Limits.calculate_limits policy (claim_amount claim_data) category hospital_name
                                   excluded ytd sub_limit in
  let result :=
    Decision.make_decision current_year id claim_data extraction eligibility coverage r in
  Money.two_decimals (Limits.approved_amount r)
  /\ (forall d, Limits.details r = Some d ->
        Money.two_decimals (Limits.copay_amount d)
        /\ Money.two_decimals (Limits.network_discount d)
        /\ Money.two_decimals (Limits.remaining_annual_limit d))
  /\ (Decision.approved_amount result == Limits.approved_amount r
      \/ Decision.approved_amount result == 0).
Proof.
  intros r result.
  assert (Hr : Money.two_decimals (Limits.approved_amount r)
               /\ (forall d, Limits.details r = Some d ->
                     Money.two_decimals (Limits.copay_amount d)
                     /\ Money.two_decimals (Limits.network_discount d)
                     /\ Money.two_decimals (Limits.remaining_annual_limit d))).
  { unfold r, Limits.calculate_limits.
    destruct (Money.ltb (claim_amount claim_data) _).
    - split; [exact (MoneyFacts.two_decimals_Z 0) | intros d Hd; discriminate Hd].
    - split; [apply MoneyFacts.two_decimals_round2|].
      intros d Hd. injection Hd as <-.
      repeat split; apply MoneyFacts.two_decimals_round2. }
  destruct Hr as [Ha Hd]. repeat split; try assumption.
  - now apply Hd.
  - now apply Hd.
  - now apply Hd.
  - destruct (make_decision_fields current_year id claim_data extraction eligibility
                                   coverage r) as (_ & Hres & _).
    fold result in Hres. rewrite Hres.
    destruct (decide_amount
                (Eligibility.rejection_reasons eligibility
                 ++ Coverage.rejection_reasons coverage ++ Limits.rejection_reasons r)
                (Coverage.excluded_items coverage) (Coverage.covered_items coverage)
                (FraudDetection.check_fraud_indicators current_year claim_data
                   (previous_claims_same_day claim_data) (previous_claims_ytd claim_data)
                   50000)
                (Limits.approved_amount r) (claim_amount claim_data)) as [H0|Hsame].
    + right. rewrite H0. reflexivity.
    + left. rewrite Hsame. now apply MoneyFacts.round2_two_decimals.
Qed.

(** C7 as stated fails: for 1234.57 claimed at a network hospital the
    full-precision co-pay, discount and remainder are 123.457, 246.914
    and 1111.113; the limit stage hands over 123.46, 246.91 and 1111.11. *)
Lemma limit_stage_does_not_keep_full_precision :
  let claim_amount := 123457 # 100 in
  let r := Limits.calculate_limits Samples.apollo_policy claim_amount
                                   (Some "consultation") (Some "Apollo Hospital")
                                   0 0 None in
  Limits.detail Limits.is_network_hospital false r = true
  /\ ~ (Limits.detail Limits.copay_amount 0 r == claim_amount * (10 / 100))
  /\ ~ (Limits.detail Limits.network_discount 0 r == claim_amount * (20 / 100))
  /\ ~ (Limits.approved_amount r == claim_amount - claim_amount * (10 / 100))
  /\ Limits.detail Limits.copay_amount 0 r == 12346 # 100
  /\ Limits.detail Limits.network_discount 0 r == 24691 # 100
  /\ Limits.approved_amount r == 111111 # 100.
Proof.
  vm_compute. repeat split; intros H; discriminate H.
Qed.

(** ** The workflow *)

(** C3. When the extraction result lacks the prescription or the bill,
    the workflow returns at once: decision REJECTED, rejection reason
    MISSING_DOCUMENTS, approved amount 0, confidence 1.0; only the
    extraction step has run, and the result carries no eligibility,
    coverage, limit or fraud sub-result. *)
Theorem missing_documents_reject_before_any_rule_stage
        (policy : PolicyTerms) (env : Env) (claim_data : ClaimData) :
  let extraction := Workflow.extract_document_data env claim_data in
  has_prescription extraction = false \/ has_bill extraction = false ->
  exists result,
    Workflow.process policy env claim_data = ([Workflow.DocumentExtraction], Ok result)
    /\ Decision.decision result = Decision.REJECTED
    /\ Decision.rejection_reasons result = ["MISSING_DOCUMENTS"]
    /\ Decision.approved_amount result == 0
    /\ Decision.confidence_score result == 1
    /\ Decision.eligibility_result result = None
    /\ Decision.coverage_result result = None
    /\ Decision.limit_result result = None
    /\ Decision.fraud_result result = None.
Proof.
  intros extraction H. unfold Workflow.process. fold extraction.
  destruct (has_prescription extraction) eqn:Hp.
  - destruct H as [H|H]; [discriminate|]. rewrite H. cbn [negb].
    eexists. split; [reflexivity|]. cbn. repeat split; reflexivity.
  - cbn [negb]. eexists. split; [reflexivity|]. cbn. repeat split; reflexivity.
Qed.

(** A submission without any document. *)
Lemma missing_documents_reject_before_any_rule_stage_witness :
  let claim_data :=
    {| claim_id := None; member_id := Some "EMP001"; member_name := Some "Rajesh Kumar";
       treatment_date := "2024-11-01"; claim_amount := 1500; hospital := None;
       cashless_request := false; category := None;
       documents := {| prescription := None; bill := None |};
       member_join_date := None; previous_claims_same_day := 0;
       previous_claims_ytd := 0; Claim.pre_auth_obtained := false |} in
  (has_prescription (Workflow.extract_document_data Samples.run_2024 claim_data) = false
   \/ has_bill (Workflow.extract_document_data Samples.run_2024 claim_data) = false)
  /\ fst (Workflow.process empty_policy Samples.run_2024 claim_data)
     = [Workflow.DocumentExtraction].
Proof.
  intros claim_data. split; [left; reflexivity|].
  destruct (@missing_documents_reject_before_any_rule_stage
              empty_policy Samples.run_2024 claim_data) as (result & Hrun & _).
  - left. reflexivity.
  - rewrite Hrun. reflexivity.
Defined.

(** The amounts a run can end with, in exact arithmetic. *)
Lemma process_amount_bounds
        (policy : PolicyTerms) (env : Env) (claim_data : ClaimData) :
  0 <= claim_amount claim_data ->
  0 <= PolicyTools.get_per_claim_limit policy ->
  0 <= PolicyTools.copay_percentage_for policy "consultation" <= 100 ->
  0 <= Limits.excluded_amount_of claim_data
         (Coverage.excluded_items
            (Coverage.validate_coverage_with_agent
               policy claim_data (Workflow.extract_document_data env claim_data))) ->
  agent_overrides (limit_agent_reply env) = false ->
  match snd (Workflow.process policy env claim_data) with
  | Ok result =>
      let approved := Decision.approved_amount result in
      let limit := PolicyTools.get_per_claim_limit policy in
      0 <= approved
      /\ approved <= Money.round2 (claim_amount claim_data)
      /\ approved <= Money.round2 limit
      /\ (Money.two_decimals (claim_amount claim_data) -> approved <= claim_amount claim_data)
      /\ (Money.two_decimals limit -> approved <= limit)
  | Raised _ => claim_amount claim_data < PolicyTools.get_minimum_claim_amount policy
  end.
Proof.
  intros Hclaim Hlimit Hpct Hexcl Hagent.
  assert (Hrc : 0 <= Money.round2 (claim_amount claim_data))
    by (rewrite <- MoneyFacts.round2_0; now apply MoneyFacts.round2_mono).
  assert (Hrl : 0 <= Money.round2 (PolicyTools.get_per_claim_limit policy))
    by (rewrite <- MoneyFacts.round2_0; now apply MoneyFacts.round2_mono).
  assert (Hfinish : forall approved,
             0 <= approved ->
             approved <= Money.round2 (claim_amount claim_data) ->
             approved <= Money.round2 (PolicyTools.get_per_claim_limit policy) ->
             0 <= approved
             /\ approved <= Money.round2 (claim_amount claim_data)
             /\ approved <= Money.round2 (PolicyTools.get_per_claim_limit policy)
             /\ (Money.two_decimals (claim_amount claim_data) ->
                 approved <= claim_amount claim_data)
             /\ (Money.two_decimals (PolicyTools.get_per_claim_limit policy) ->
                 approved <= PolicyTools.get_per_claim_limit policy)).
  { intros approved H0 H1 H2. repeat split; try assumption.
    - intros Htwo. now rewrite <- (MoneyFacts.round2_two_decimals Htwo).
    - intros Htwo. now rewrite <- (MoneyFacts.round2_two_decimals Htwo). }
  unfold Workflow.process.
  set (extraction := Workflow.extract_document_data env claim_data) in *.
  set (id := if str_truthy (claim_id claim_data) then _ else _).
  destruct (has_prescription extraction);
    [|cbn [negb snd]; apply Hfinish; cbn; [lra | assumption | assumption]].
  destruct (has_bill extraction);
    [|cbn [negb snd]; apply Hfinish; cbn; [lra | assumption | assumption]].
  cbn [negb].
  set (eligibility := Eligibility.check_eligibility_with_agent policy env claim_data extraction).
  destruct (Eligibility.is_eligible eligibility);
    [|cbn [negb snd]; apply Hfinish; cbn; [lra | assumption | assumption]].
  cbn [negb].
  set (coverage := Coverage.validate_coverage_with_agent policy claim_data extraction) in *.
  rewrite (@calculate_limits_with_agent_rule_based policy (limit_agent_reply env)
             claim_data coverage Hagent).
  destruct (Money.ltb (claim_amount claim_data) _) eqn:Hmin.
  - cbn [snd]. now apply MoneyFacts.ltb_spec.
  - cbn [snd]. unfold Decision.make_decision_with_agent.
    set (r := Limits.calculate_limits _ _ _ _ _ _ _).
    destruct (make_decision_fields (PyDate.year (now env)) id claim_data extraction
                                   eligibility coverage r) as (_ & Hres & _).
    cbv zeta. rewrite Hres. clear Hres.
    assert (Hcat : 0 <= PolicyTools.copay_percentage_for
                          policy (Limits.copay_category (Some (Coverage.category coverage)))
                   <= 100) by now apply copay_percentage_range.
    destruct (@calculate_limits_bounds policy (claim_amount claim_data)
                (Some (Coverage.category coverage)) (hospital claim_data) _
                (previous_claims_ytd claim_data)
                (Some (Coverage.applicable_sub_limit coverage))
                Hclaim Hexcl Hlimit Hcat) as (B0 & B1 & B2).
    fold r in B0, B1, B2.
    destruct (decide_amount
                (Eligibility.rejection_reasons eligibility
                 ++ Coverage.rejection_reasons coverage ++ Limits.rejection_reasons r)
                (Coverage.excluded_items coverage) (Coverage.covered_items coverage)
                (FraudDetection.check_fraud_indicators (PyDate.year (now env)) claim_data
                   (previous_claims_same_day claim_data) (previous_claims_ytd claim_data)
                   50000)
                (Limits.approved_amount r) (claim_amount claim_data)) as [H0|Hsame].
    + rewrite H0. apply Hfinish; [rewrite MoneyFacts.round2_0; lra | | ];
        rewrite MoneyFacts.round2_0; assumption.
    + rewrite Hsame.
      assert (Htwo : Money.two_decimals (Limits.approved_amount r)).
      { unfold r, Limits.calculate_limits. rewrite Hmin.
        apply MoneyFacts.two_decimals_round2. }
      rewrite (MoneyFacts.round2_two_decimals Htwo). now apply Hfinish.
Qed.

(** C1 (amended). For a claim with a non-negative amount, under a policy
    with a non-negative per-claim limit and a consultation co-pay
    percentage between 0 and 99, with a non-negative excluded amount fed
    to the limit stage and no assistant override, every result the
    pipeline returns has an approved amount that is at least 0 and exceeds
    neither the claim amount nor the per-claim limit by more than the
    rounding to two decimals can add (less than a hundredth); it is within
    the claim amount and within the per-claim limit outright whenever these
    have at most two decimals.  (A co-pay close to 100% is left out: there
    the code subtracts a co-pay that was rounded up from the amount it was
    taken of, and its floating-point difference can round to -0.01.) *)
Theorem approved_amount_within_bounds
        (policy : PolicyTerms) (env : Env) (claim_data : ClaimData)
        (result : Decision.AdjudicationResult) :
  0 <= claim_amount claim_data ->
  0 <= PolicyTools.get_per_claim_limit policy ->
  0 <= PolicyTools.copay_percentage_for policy "consultation" <= 99 ->
  0 <= Limits.excluded_amount_of claim_data
         (Coverage.excluded_items
            (Coverage.validate_coverage_with_agent
               policy claim_data (Workflow.extract_document_data env claim_data))) ->
  agent_overrides (limit_agent_reply env) = false ->
  snd (Workflow.process policy env claim_data) = Ok result ->
  let approved := Decision.approved_amount result in
  let limit := PolicyTools.get_per_claim_limit policy in
  0 <= approved
  /\ approved <= claim_amount claim_data + (1 # 100)
  /\ approved <= limit + (1 # 100)
  /\ (Money.two_decimals (claim_amount claim_data) -> approved <= claim_amount claim_data)
  /\ (Money.two_decimals limit -> approved <= limit).
Proof.
  intros Hclaim Hlimit [Hp0 Hp99] Hexcl Hagent Hres approved limit.
  assert (Hpct : 0 <= PolicyTools.copay_percentage_for policy "consultation" <= 100)
    by (split; lra).
  pose proof (@process_amount_bounds policy env claim_data Hclaim Hlimit Hpct Hexcl Hagent)
    as H.
  rewrite Hres in H. cbv zeta in H. fold approved in H. fold limit in H.
  destruct H as (H0 & H1 & H2 & H3 & H4).
  destruct (MoneyFacts.round2_near (claim_amount claim_data)) as [_ Hc].
  destruct (MoneyFacts.round2_near limit) as [_ Hl].
  repeat split; try assumption; lra.
Qed.

Lemma approved_amount_within_bounds_witness :
  0 <= claim_amount Samples.scenario_claim
  /\ 0 <= PolicyTools.get_per_claim_limit empty_policy
  /\ 0 <= PolicyTools.copay_percentage_for empty_policy "consultation" <= 99
  /\ agent_overrides (limit_agent_reply Samples.run_2024) = false
  /\ exists result,
       snd (Workflow.process empty_policy Samples.run_2024 Samples.scenario_claim)
       = Ok result
       /\ 0 <= Decision.approved_amount result <= 1500.
Proof.
  assert (H0 : 0 <= claim_amount Samples.scenario_claim)
    by (vm_compute; discriminate).
  assert (H1 : 0 <= PolicyTools.get_per_claim_limit empty_policy)
    by (vm_compute; discriminate).
  assert (H2 : 0 <= PolicyTools.copay_percentage_for empty_policy "consultation" <= 99)
    by (split; vm_compute; discriminate).
  assert (H3 : agent_overrides (limit_agent_reply Samples.run_2024) = false)
    by reflexivity.
  assert (Hx : 0 <= Limits.excluded_amount_of Samples.scenario_claim
                      (Coverage.excluded_items
                         (Coverage.validate_coverage_with_agent
                            empty_policy Samples.scenario_claim
                            (Workflow.extract_document_data Samples.run_2024
                                                            Samples.scenario_claim))))
    by (vm_compute; discriminate).
  assert (Hres : exists result,
            snd (Workflow.process empty_policy Samples.run_2024 Samples.scenario_claim)
            = Ok result)
    by (vm_compute; eexists; reflexivity).
  split; [exact H0|]. split; [exact H1|]. split; [exact H2|]. split; [exact H3|].
  destruct Hres as [result Hres]. exists result. split; [exact Hres|].
  destruct (@approved_amount_within_bounds
              empty_policy Samples.run_2024 Samples.scenario_claim result
              H0 H1 H2 Hx H3 Hres) as (Hlo & _ & _ & Hle & _).
  split; [exact Hlo|]. apply Hle. exact (MoneyFacts.two_decimals_Z 1500).
Defined.

(** C1 as stated fails: under a policy without consultation co-pay a
    consultation claimed at 600.006 is approved at 600.01, above the
    claim amount. *)
Lemma rounding_can_exceed_claim_amount :
  let policy := Samples.zero_copay_policy in
  let claim_data := Samples.fractional_claim in
  let env := Samples.run_2024 in
  0 <= PolicyTools.copay_percentage_for policy "consultation" <= 100
  /\ 0 <= Limits.excluded_amount_of claim_data
            (Coverage.excluded_items
               (Coverage.validate_coverage_with_agent
                  policy claim_data (Workflow.extract_document_data env claim_data)))
  /\ exists result,
       snd (Workflow.process policy env claim_data) = Ok result
       /\ Decision.decision result = Decision.APPROVED
       /\ Decision.approved_amount result == 60001 # 100
       /\ ~ (Decision.approved_amount result <= claim_amount claim_data).
Proof.
  cbv zeta. split; [split; vm_compute; discriminate|].
  split; [vm_compute; discriminate|].
  eexists. split; [vm_compute; reflexivity|].
  cbn [Decision.decision Decision.approved_amount].
  split; [reflexivity|]. split; [reflexivity|].
  intros H. vm_compute in H. apply H. reflexivity.
Qed.

(** ** Coverage validation *)

Lemma pre_authorization_required_iff (test : string) (amount : Q) :
  PolicyTools.check_pre_authorization_required test amount
  = PyStr.any_in ["mri"; "ct scan"; "pet scan"] (PyStr.lower test)
    && Money.gtb amount 10000.
Proof.
  unfold PolicyTools.check_pre_authorization_required, PolicyTools.pre_auth_tests,
    PyStr.any_in. cbn [existsb].
  destruct (Money.gtb amount 10000); rewrite ?andb_true_r, ?andb_false_r; reflexivity.
Qed.

Lemma keyword_needs_text (s : string) :
  PyStr.any_in ["mri"; "ct scan"; "pet scan"] (PyStr.lower s) = true -> PyStr.truthy s = true.
Proof. destruct s; [discriminate | reflexivity]. Qed.

Ltac unfold_acc :=
  unfold Coverage.exclude, Coverage.add_reason, Coverage.require_pre_auth, Coverage.cover;
  cbn [Coverage.acc_excluded Coverage.acc_reasons Coverage.acc_pre_auth_required
       Coverage.acc_covered].

Section TestLoop.
Variable claim_amount : Q.
Variable pre_auth_obtained : bool.

(** A step of the loop over the tests only adds to the exclusions and to
    the rejection codes, and never withdraws the pre-authorization flag. *)
Lemma check_test_keeps (a : Coverage.Acc) (test : string) :
  let a' := Coverage.check_test claim_amount pre_auth_obtained a test in
  (forall e, In e (Coverage.acc_excluded a) -> In e (Coverage.acc_excluded a'))
  /\ (forall c, In c (Coverage.acc_reasons a) -> In c (Coverage.acc_reasons a'))
  /\ (Coverage.acc_pre_auth_required a = true -> Coverage.acc_pre_auth_required a' = true).
Proof.
  unfold Coverage.check_test.
  destruct (negb (PyStr.truthy test)); [now auto|].
  destruct (PolicyTools.check_pre_authorization_required test claim_amount); [|now auto].
  destruct (negb pre_auth_obtained); unfold_acc; [|now auto].
  split; [|split].
  - intros e He. apply in_or_app. now left.
  - intros c Hc. destruct (PyStr.mem "PRE_AUTH_MISSING" (Coverage.acc_reasons a));
      [assumption | apply in_or_app; now left].
  - reflexivity.
Qed.

Lemma test_loop_keeps (tests : list string) (a : Coverage.Acc) :
  let a' := fold_left (Coverage.check_test claim_amount pre_auth_obtained) tests a in
  (forall e, In e (Coverage.acc_excluded a) -> In e (Coverage.acc_excluded a'))
  /\ (forall c, In c (Coverage.acc_reasons a) -> In c (Coverage.acc_reasons a'))
  /\ (Coverage.acc_pre_auth_required a = true -> Coverage.acc_pre_auth_required a' = true).
Proof.
  revert a. induction tests as [|t tests IH]; intros a; cbn [fold_left].
  - auto.
  - destruct (check_test_keeps a t) as (E1 & R1 & P1).
    destruct (IH (Coverage.check_test claim_amount pre_auth_obtained a t)) as (E2 & R2 & P2).
    repeat split; auto.
Qed.
End TestLoop.

(** A test that needs pre-authorization, met without it, is excluded. *)
Lemma check_test_excludes (claim_amount : Q) (a : Coverage.Acc) (test : string) :
  PyStr.truthy test = true ->
  PolicyTools.check_pre_authorization_required test claim_amount = true ->
  let a' := Coverage.check_test claim_amount false a test in
  In (test ++ " - requires pre-authorization") (Coverage.acc_excluded a')
  /\ In "PRE_AUTH_MISSING" (Coverage.acc_reasons a')
  /\ Coverage.acc_pre_auth_required a' = true.
Proof.
  intros Ht Hreq. unfold Coverage.check_test. rewrite Ht, Hreq. cbn [negb]. unfold_acc.
  repeat split.
  - apply in_or_app. right. now left.
  - destruct (PyStr.mem "PRE_AUTH_MISSING" (Coverage.acc_reasons a)) eqn:Hm.
    + now apply PyStrFacts.mem_In.
    + apply in_or_app. right. now left.
Qed.

Lemma test_loop_excludes (claim_amount : Q) (tests : list string) (test : string) :
  In test tests ->
  PyStr.truthy test = true ->
  PolicyTools.check_pre_authorization_required test claim_amount = true ->
  forall a,
    let a' := fold_left (Coverage.check_test claim_amount false) tests a in
    In (test ++ " - requires pre-authorization") (Coverage.acc_excluded a')
    /\ In "PRE_AUTH_MISSING" (Coverage.acc_reasons a')
    /\ Coverage.acc_pre_auth_required a' = true.
Proof.
  intros Hin Ht Hreq. induction tests as [|t tests IH]; [contradiction|].
  intros a. cbn [fold_left]. destruct Hin as [->|Hin].
  - destruct (@check_test_excludes claim_amount a test Ht Hreq) as (E & R & P).
    destruct (test_loop_keeps claim_amount false tests
                              (Coverage.check_test claim_amount false a test))
      as (E' & R' & P').
    repeat split; auto.
  - now apply IH.
Qed.

(** C9. The coverage stage of the pipeline always validates with the
    pre-authorization flag false: a test whose name contains "mri",
    "ct scan" or "pet scan", on a claim above 10,000, is excluded with
    PRE_AUTH_MISSING, also when the submission says that pre-authorization
    was obtained. *)
Theorem pipeline_never_forwards_pre_authorization
        (policy : PolicyTerms) (claim_data : ClaimData) (extraction : ExtractionResult)
        (test : string) :
  In test (match extracted_data extraction with
           | Some ed => ed_tests ed
           | None => []
           end) ->
  PyStr.any_in ["mri"; "ct scan"; "pet scan"] (PyStr.lower test) = true ->
  10000 < claim_amount claim_data ->
  let r := Coverage.validate_coverage_with_agent policy claim_data extraction in
  Coverage.pre_auth_obtained r = false
  /\ Coverage.pre_auth_required r = true
  /\ In (test ++ " - requires pre-authorization") (Coverage.excluded_items r)
  /\ In "PRE_AUTH_MISSING" (Coverage.rejection_reasons r)
  /\ Coverage.is_covered r = false.
Proof.
  intros Hin Hkw Hamount r.
  assert (Hreq : PolicyTools.check_pre_authorization_required test (claim_amount claim_data)
                 = true).
  { rewrite pre_authorization_required_iff, Hkw. now apply MoneyFacts.gtb_spec. }
  pose proof (keyword_needs_text test Hkw) as Ht.
  unfold r, Coverage.validate_coverage_with_agent, Coverage.validate_coverage.
  match goal with
  | |- context [fold_left (Coverage.check_test _ false) ?tests ?a] =>
      destruct (@test_loop_excludes (claim_amount claim_data) tests test Hin Ht Hreq a)
        as (E & R & P);
      set (acc := fold_left (Coverage.check_test (claim_amount claim_data) false) tests a)
        in *
  end.
  destruct (Coverage.determine_category _ _ _ _ _) as [cat lim].
  cbn [Coverage.pre_auth_obtained Coverage.pre_auth_required Coverage.excluded_items
       Coverage.rejection_reasons Coverage.is_covered].
  repeat split; try assumption.
  destruct (Coverage.acc_reasons acc); [contradiction | reflexivity].
Qed.

(** An MRI on a claim of 15,000 whose submission reports that
    pre-authorization was obtained. *)
Lemma pipeline_never_forwards_pre_authorization_witness :
  let claim_data :=
    Samples.fever_claim (Some "CLM_TEST_0004") (Some "2024-01-01") 15000
                        [] ["MRI Lumbar Spine"] true in
  let extraction := Workflow.basic_extraction claim_data in
  Claim.pre_auth_obtained claim_data = true
  /\ In "MRI Lumbar Spine" (match extracted_data extraction with
                            | Some ed => ed_tests ed
                            | None => []
                            end)
  /\ PyStr.any_in ["mri"; "ct scan"; "pet scan"] (PyStr.lower "MRI Lumbar Spine") = true
  /\ 10000 < claim_amount claim_data
  /\ In "PRE_AUTH_MISSING"
        (Coverage.rejection_reasons
           (Coverage.validate_coverage_with_agent empty_policy claim_data extraction)).
Proof.
  intros claim_data extraction.
  assert (H1 : In "MRI Lumbar Spine" (match extracted_data extraction with
                                      | Some ed => ed_tests ed
                                      | None => []
                                      end)) by (left; reflexivity).
  assert (H2 : PyStr.any_in ["mri"; "ct scan"; "pet scan"] (PyStr.lower "MRI Lumbar Spine")
               = true) by reflexivity.
  assert (H3 : 10000 < claim_amount claim_data) by reflexivity.
  split; [reflexivity|]. split; [exact H1|]. split; [exact H2|]. split; [exact H3|].
  apply (@pipeline_never_forwards_pre_authorization
           empty_policy claim_data extraction "MRI Lumbar Spine" H1 H2 H3).
Defined.

(** ** Fraud detection *)

Lemma NoDup_snoc (A : Type) (l : list A) (x : A) :
  NoDup l -> ~ In x l -> NoDup (l ++ [x]).
Proof.
  induction l as [|y l IH]; intros Hnd Hx; cbn.
  - constructor; [intros [] | constructor].
  - inversion Hnd as [|? ? Hy Hl]; subst. constructor.
    + intros Hin. apply in_app_or in Hin. destruct Hin as [Hin|[->|[]]].
      * contradiction.
      * apply Hx. now left.
    + apply IH; [assumption|]. intros Hin. apply Hx. now right.
Qed.

Lemma two_decimals_plus (a b : Q) :
  Money.two_decimals a -> Money.two_decimals b -> Money.two_decimals (a + b).
Proof.
  intros [x Hx] [y Hy]. exists (x + y)%Z. rewrite Hx, Hy, inject_Z_plus. ring.
Qed.

Lemma two_decimals_hundredths (z : Z) : Money.two_decimals (z # 100).
Proof.
  exists z. unfold Qeq, inject_Z, Qmult. cbn [Qnum Qden]. lia.
Qed.

Lemma tally_ok_weaken (allowed allowed' : list string) (bound bound' : Q)
      (t : FraudDetection.Tally) :
  incl allowed allowed' -> bound <= bound' ->
  tally_ok allowed bound t -> tally_ok allowed' bound' t.
Proof.
  intros Hincl Hb (Hnd & Hin & H0 & H1 & H2).
  repeat split; try assumption.
  - now apply incl_tran with allowed.
  - lra.
Qed.

Lemma raise_flag_ok (allowed : list string) (bound : Q) (t : FraudDetection.Tally)
      (fires : bool) (msg : string) (weight : Q) :
  tally_ok allowed bound t ->
  ~ In msg allowed -> 0 <= weight -> Money.two_decimals weight ->
  tally_ok (msg :: allowed) (bound + weight) (FraudDetection.raise_flag fires msg weight t).
Proof.
  intros (Hnd & Hin & H0 & H1 & H2) Hnew Hw Hw2.
  unfold tally_ok, FraudDetection.raise_flag. destruct fires; cbn [fst snd].
  - repeat split.
    + apply NoDup_snoc; [assumption|]. intros Hm. apply Hnew. now apply Hin.
    + intros x Hx. apply in_app_or in Hx. destruct Hx as [Hx|[->|[]]].
      * right. now apply Hin.
      * now left.
    + lra.
    + lra.
    + now apply two_decimals_plus.
  - repeat split; try assumption.
    + intros x Hx. right. now apply Hin.
    + lra.
Qed.

Lemma raise_flag_step (allowed allowed' : list string) (bound bound' : Q)
      (t : FraudDetection.Tally) (fires : bool) (msg : string) (weight : Q) :
  tally_ok allowed bound t ->
  ~ In msg allowed -> 0 <= weight -> Money.two_decimals weight ->
  incl (msg :: allowed) allowed' -> bound + weight <= bound' ->
  tally_ok allowed' bound' (FraudDetection.raise_flag fires msg weight t).
Proof.
  intros Ht Hnew Hw Hw2 Hincl Hb.
  apply tally_ok_weaken with (allowed := msg :: allowed) (bound := bound + weight);
    [assumption | assumption | now apply raise_flag_ok].
Qed.

Lemma tally_ok_skip (allowed allowed' : list string) (bound bound' : Q)
      (t : FraudDetection.Tally) :
  tally_ok allowed bound t ->
  incl allowed allowed' -> bound <= bound' -> tally_ok allowed' bound' t.
Proof. intros Ht Hincl Hb. now apply tally_ok_weaken with allowed bound. Qed.

Ltac fresh_flag := unfold all_flags; cbn [In skipn]; intuition discriminate.
Ltac known_flags := unfold all_flags; cbn [skipn]; intros x Hx; cbn [In] in *; tauto.
Ltac amount_le := vm_compute; discriminate.
Ltac hundredths :=
  first [ apply two_decimals_hundredths
        | exists 30%Z; reflexivity
        | exists 10%Z; reflexivity ].
Ltac flag_step H :=
  eapply (raise_flag_step _ H); [fresh_flag | amount_le | hundredths | known_flags | amount_le].
Ltac no_flag H := apply (tally_ok_skip H); [known_flags | amount_le].

Section FraudFacts.
Variable current_year : Z.
Variable claim_data : ClaimData.
Variable same_day : Z.
Variable ytd : Q.
Variable annual_limit : Q.

Lemma check_same_day_ok :
  tally_ok (skipn 6 all_flags) (30 # 100)
           (FraudDetection.check_same_day same_day ([], 0)).
Proof.
  assert (Hstart : tally_ok [] 0 (([], 0) : FraudDetection.Tally)).
  { repeat split; cbn; try lra;
      [constructor | intros x [] | exact (MoneyFacts.two_decimals_Z 0)]. }
  unfold FraudDetection.check_same_day.
  destruct (3 <=? same_day)%Z; [|destruct (2 <=? same_day)%Z].
  - flag_step Hstart.
  - flag_step Hstart.
  - no_flag Hstart.
Qed.

Lemma fraud_tally_ok :
  tally_ok all_flags (95 # 100)
           (FraudDetection.fraud_tally current_year claim_data same_day ytd annual_limit).
Proof.
  unfold FraudDetection.fraud_tally.
  pose proof check_same_day_ok as H1.
  set (t1 := FraudDetection.check_same_day same_day ([], 0)) in *.
  assert (H2 : tally_ok (skipn 5 all_flags) (40 # 100)
                 (FraudDetection.check_utilization claim_data ytd annual_limit t1)).
  { unfold FraudDetection.check_utilization. flag_step H1. }
  set (t2 := FraudDetection.check_utilization claim_data ytd annual_limit t1) in *.
  assert (H3 : tally_ok (skipn 4 all_flags) (50 # 100)
                 (FraudDetection.check_high_amount claim_data t2)).
  { unfold FraudDetection.check_high_amount. flag_step H2. }
  set (t3 := FraudDetection.check_high_amount claim_data t2) in *.
  assert (H4 : tally_ok (skipn 2 all_flags) (85 # 100)
                 (FraudDetection.check_prescription current_year claim_data t3)).
  { unfold FraudDetection.check_prescription.
    destruct (prescription (documents claim_data)) as [presc|]; [|no_flag H3].
    assert (H3' : tally_ok (skipn 3 all_flags) (75 # 100)
                    (FraudDetection.raise_flag
                       (negb (FraudDetection.validate_doctor_registration
                                current_year (doctor_reg presc)))
                       "Invalid or suspicious doctor registration" (25 # 100) t3))
      by flag_step H3.
    flag_step H3'. }
  set (t4 := FraudDetection.check_prescription current_year claim_data t3) in *.
  assert (H5 : tally_ok (skipn 1 all_flags) (90 # 100)
                 (FraudDetection.check_bill claim_data t4)).
  { unfold FraudDetection.check_bill.
    destruct (bill (documents claim_data)) as [b|]; [flag_step H4 | no_flag H4]. }
  set (t5 := FraudDetection.check_bill claim_data t4) in *.
  unfold FraudDetection.check_weekend.
  destruct (PyDate.strptime (treatment_date claim_data)) as [dt|];
    [destruct (5 <=? PyDate.weekday dt)%Z|].
  - flag_step H5.
  - no_flag H5.
  - no_flag H5.
Qed.
End FraudFacts.

(** C5. The risk score returned by the fraud detector lies between 0 and
    1 (it is the additive score itself: the sum never passes 0.95), and
    manual review is recommended exactly when the additive score is at
    least 0.35 or at least three flags fired; the flags of one run are
    pairwise distinct. *)
Theorem fraud_score_range_and_review_rule
        (current_year : Z) (claim_data : ClaimData) (same_day : Z) (ytd annual_limit : Q) :
  let tally :=
    FraudDetection.fraud_tally current_year claim_data same_day ytd annual_limit in
  let r :=
    FraudDetection.check_fraud_indicators current_year claim_data same_day ytd
                                          annual_limit in
  0 <= FraudDetection.risk_score r <= 1
  /\ FraudDetection.risk_score r == snd tally
  /\ FraudDetection.fraud_flags r = fst tally
  /\ NoDup (FraudDetection.fraud_flags r)
  /\ (FraudDetection.recommend_manual_review r = true
      <-> 35 # 100 <= snd tally \/ (3 <= List.length (fst tally))%nat).
Proof.
  intros tally r.
  destruct (fraud_tally_ok current_year claim_data same_day ytd annual_limit)
    as (Hnd & _ & H0 & H1 & H2).
  fold tally in Hnd, H0, H1, H2.
  assert (Hscore : FraudDetection.risk_score r == snd tally).
  { unfold r, FraudDetection.check_fraud_indicators. cbn [FraudDetection.risk_score].
    fold tally.
    assert (Hmin : Qmin (snd tally) 1 == snd tally) by (apply Q.min_l; lra).
    rewrite Hmin. now apply MoneyFacts.round2_two_decimals. }
  repeat split.
  - rewrite Hscore. assumption.
  - rewrite Hscore. lra.
  - assumption.
  - assumption.
  - unfold r, FraudDetection.check_fraud_indicators.
    cbn [FraudDetection.recommend_manual_review]. fold tally.
    intros H. apply orb_true_iff in H. destruct H as [H|H].
    + left. now apply MoneyFacts.geb_spec.
    + right. now apply Nat.leb_le.
  - unfold r, FraudDetection.check_fraud_indicators.
    cbn [FraudDetection.recommend_manual_review]. fold tally.
    intros [H|H]; apply orb_true_iff.
    + left. now apply MoneyFacts.geb_spec.
    + right. now apply Nat.leb_le.
Qed.

(** ** Reruns *)




(** ** The viral-fever scenario *)

Lemma find_all_false (A : Type) (f : A -> bool) (l : list A) :
  (forall x, In x l -> f x = false) -> find f l = None.
Proof.
  induction l as [|x l IH]; intros H; cbn; [reflexivity|].
  rewrite (H x (or_introl eq_refl)). apply IH. intros y Hy. apply H. now right.
Qed.

(** No flag, no score. *)
Lemma raise_flag_quiet (fires : bool) (msg : string) (weight : Q) (t : FraudDetection.Tally) :
  (fst t = [] -> snd t = 0) ->
  fst (FraudDetection.raise_flag fires msg weight t) = [] ->
  snd (FraudDetection.raise_flag fires msg weight t) = 0 /\ fst t = [].
Proof.
  intros Ht. unfold FraudDetection.raise_flag. destruct fires; cbn [fst snd].
  - intros H. destruct (fst t); discriminate H.
  - intros H. split; [now apply Ht | assumption].
Qed.

Lemma quiet_tally_scores_zero (current_year : Z) (claim_data : ClaimData) (same_day : Z)
      (ytd annual_limit : Q) :
  fst (FraudDetection.fraud_tally current_year claim_data same_day ytd annual_limit) = [] ->
  snd (FraudDetection.fraud_tally current_year claim_data same_day ytd annual_limit) = 0.
Proof.
  unfold FraudDetection.fraud_tally.
  set (t1 := FraudDetection.check_same_day same_day ([], 0)).
  assert (H1 : fst t1 = [] -> snd t1 = 0).
  { unfold t1, FraudDetection.check_same_day.
    destruct (3 <=? same_day)%Z; [discriminate|].
    destruct (2 <=? same_day)%Z; [discriminate | reflexivity]. }
  set (t2 := FraudDetection.check_utilization claim_data ytd annual_limit t1).
  assert (H2 : fst t2 = [] -> snd t2 = 0).
  { unfold t2, FraudDetection.check_utilization. intros H.
    now apply (raise_flag_quiet _ _ _ _ H1). }
  set (t3 := FraudDetection.check_high_amount claim_data t2).
  assert (H3 : fst t3 = [] -> snd t3 = 0).
  { unfold t3, FraudDetection.check_high_amount. intros H.
    now apply (raise_flag_quiet _ _ _ _ H2). }
  set (t4 := FraudDetection.check_prescription current_year claim_data t3).
  assert (H4 : fst t4 = [] -> snd t4 = 0).
  { unfold t4, FraudDetection.check_prescription.
    destruct (prescription (documents claim_data)) as [presc|]; [|exact H3].
    intros H. apply raise_flag_quiet in H; [now destruct H|].
    intros H'. now apply (raise_flag_quiet _ _ _ _ H3). }
  set (t5 := FraudDetection.check_bill claim_data t4).
  assert (H5 : fst t5 = [] -> snd t5 = 0).
  { unfold t5, FraudDetection.check_bill.
    destruct (bill (documents claim_data)) as [b|]; [|exact H4].
    intros H. now apply (raise_flag_quiet _ _ _ _ H4). }
  unfold FraudDetection.check_weekend.
  destruct (PyDate.strptime (treatment_date claim_data)) as [dt|]; [|exact H5].
  destruct (5 <=? PyDate.weekday dt)%Z; [|exact H5].
  intros H. now apply (raise_flag_quiet _ _ _ _ H5).
Qed.

Lemma quiet_fraud_result (current_year : Z) (claim_data : ClaimData) (same_day : Z)
      (ytd annual_limit : Q) :
  let r := FraudDetection.check_fraud_indicators current_year claim_data same_day ytd
                                                 annual_limit in
  FraudDetection.fraud_flags r = [] ->
  FraudDetection.recommend_manual_review r = false
  /\ Money.geb (FraudDetection.risk_score r) (35 # 100) = false.
Proof.
  intros r H. unfold r in *. unfold FraudDetection.check_fraud_indicators in *.
  cbn [FraudDetection.fraud_flags FraudDetection.recommend_manual_review
       FraudDetection.risk_score] in *.
  rewrite (quiet_tally_scores_zero _ _ _ _ _ H), H. split; reflexivity.
Qed.

Section Scenario.
Variable policy : PolicyTerms.
Variable env : Env.
Variables id join_date : option string.
Variable treated : string.
Variable clinic : option string.
Variable cashless : bool.
Variable invoice : option Bill.
Variable same_day : Z.
Variable ytd : Q.

Let claim_data : ClaimData :=
  Samples.scenario_submission id join_date treated clinic cashless invoice same_day ytd.

Lemma scenario_coverage (extraction : ExtractionResult) :
  extracted_data extraction = Some Samples.scenario_data ->
  Coverage.validate_coverage_with_agent policy claim_data extraction
  = {| Coverage.is_covered := true;
       Coverage.covered_items := ["Viral fever"; "Paracetamol"; "CBC"; "Dengue"];
       Coverage.excluded_items := [];
       Coverage.pre_auth_required := false;
       Coverage.pre_auth_obtained := false;
       Coverage.applicable_sub_limit := Coverage.limit_of policy "diagnostic" 10000;
       Coverage.category := "diagnostic";
       Coverage.rejection_reasons := [];
       Coverage.confidence_score := 92 # 100 |}.
Proof.
  intros Hdata. unfold Coverage.validate_coverage_with_agent. rewrite Hdata.
  reflexivity.
Qed.

Lemma scenario_eligibility (extraction : ExtractionResult) (td jd : PyDate.Date) :
  extracted_data extraction = Some Samples.scenario_data ->
  PyDate.strptime treated = Some td ->
  str_truthy join_date = true ->
  PyDate.strptime (get_default join_date "") = Some jd ->
  (get_default (dict_lookup "initial" (PolicyTools.get_waiting_periods policy)) 30
   <= PyDate.toordinal td - PyDate.toordinal jd)%Z ->
  let e := Eligibility.check_eligibility_with_agent policy env claim_data extraction in
  Eligibility.is_eligible e = true
  /\ Eligibility.rejection_reasons e = []
  /\ Eligibility.confidence_score e = 95 # 100.
Proof.
  intros Hdata Htd Hj Hjd Hdays e.
  unfold e, Eligibility.check_eligibility_with_agent, Eligibility.check_eligibility.
  rewrite Hdata.
  change (member_join_date claim_data) with join_date.
  change (treatment_date claim_data) with treated.
  cbv zeta. rewrite !Hj, Htd, Hjd.
  apply Z.ltb_ge in Hdays. rewrite Hdays.
  rewrite find_all_false; [repeat split|].
  intros kw Hkw. unfold Eligibility.condition_waiting_map in Hkw. cbn [In] in Hkw.
  repeat (destruct Hkw as [<-|Hkw]; [reflexivity|]). contradiction.
Qed.

(** The limit stage on the scenario: the rule-based result with the
    fallback 10% co-pay of the diagnostic category, whatever is left of
    the annual limit and whatever the diagnostic sub-limit is. *)
Lemma scenario_limits (agent : AgentOutcome) (coverage : Coverage.CoverageResult) :
  Coverage.excluded_items coverage = [] ->
  Coverage.category coverage = "diagnostic" ->
  Coverage.applicable_sub_limit coverage = Coverage.limit_of policy "diagnostic" 10000 ->
  agent_overrides agent = false ->
  PolicyTools.get_minimum_claim_amount policy <= 1500 ->
  PolicyTools.get_per_claim_limit policy == 5000 ->
  let before :=
    Qmax (Limits.min4 (1500 - 0) (PolicyTools.get_per_claim_limit policy)
                      (PolicyTools.get_annual_limit policy - ytd)
                      (Coverage.limit_of policy "diagnostic" 10000)) 0 in
  exists r,
    Limits.calculate_limits_with_agent policy agent claim_data coverage = Ok r
    /\ Decision.has_hard_rejection (Limits.rejection_reasons r) = false
    /\ PyStr.mem "SERVICE_NOT_COVERED" (Limits.rejection_reasons r) = false
    /\ Limits.approved_amount r
       = Money.round2 (before - Money.round2 (before * (10 / 100))).
Proof.
  intros Hex Hcat Hsub Hagent Hmin Hpcl before.
  assert (E1 : Money.ltb 1500 (PolicyTools.get_minimum_claim_amount policy) = false)
    by now apply MoneyFacts.ltb_false.
  assert (E2 : Money.gtb (1500 - 0) (PolicyTools.get_per_claim_limit policy) = false)
    by (apply MoneyFacts.gtb_false; lra).
  rewrite (@calculate_limits_with_agent_rule_based policy agent claim_data coverage Hagent).
  rewrite Hex, Hcat, Hsub.
  change (Limits.excluded_amount_of claim_data []) with 0.
  change (Claim.claim_amount claim_data) with 1500.
  change (hospital claim_data) with clinic.
  change (previous_claims_ytd claim_data) with ytd.
  rewrite E1. eexists. split; [reflexivity|].
  unfold Limits.calculate_limits. rewrite E1.
  cbn [Limits.rejection_reasons Limits.approved_amount Limits.resolve_sub_limit].
  rewrite E2.
  split; [destruct (Money.gtb (1500 - 0) (PolicyTools.get_annual_limit policy - ytd));
          reflexivity|].
  split; [destruct (Money.gtb (1500 - 0) (PolicyTools.get_annual_limit policy - ytd));
          reflexivity|].
  change (Limits.copay_category (Some "diagnostic")) with "diagnostic".
  unfold PolicyTools.calculate_copay. cbn [PolicyTools.ci_copay_amount].
  rewrite copay_percentage_fallback by discriminate. reflexivity.
Qed.

Lemma scenario_capped :
  PolicyTools.get_per_claim_limit policy == 5000 ->
  Qmax (Limits.min4 (1500 - 0) (PolicyTools.get_per_claim_limit policy)
                    (PolicyTools.get_annual_limit policy - ytd)
                    (Coverage.limit_of policy "diagnostic" 10000)) 0
  == Qmax (Qmin (Qmin (Qmin 1500 5000) (PolicyTools.get_annual_limit policy - ytd))
                (Coverage.limit_of policy "diagnostic" 10000)) 0.
Proof.
  intros Hpcl. unfold Limits.min4. rewrite Hpcl.
  assert (H : 1500 - 0 == 1500) by ring. rewrite H. reflexivity.
Qed.
End Scenario.

(** A capped amount less a tenth, after the two roundings of the limit
    stage: within a hundredth of nine tenths. *)
Lemma nine_tenths_up_to_rounding (capped : Q) :
  let approved :=
    Money.round2 (capped - Money.round2 (capped * (10 / 100))) in
  capped - capped * (10 / 100) - (1 # 100) <= approved
  /\ approved <= capped - capped * (10 / 100) + (1 # 100).
Proof.
  intros approved. unfold approved.
  destruct (MoneyFacts.round2_near (capped * (10 / 100))) as [H1 H2].
  destruct (MoneyFacts.round2_near (capped - Money.round2 (capped * (10 / 100))))
    as [H3 H4].
  split; lra.
Qed.

(** C6 (amended). For the viral-fever scenario (1500 claimed, Paracetamol,
    tests CBC and Dengue, no category given, member joined at least the
    initial waiting period before treatment, hospital outside the network,
    no fraud flag, no assistant override, extraction confidence between 0
    and 1), under a policy with per-claim limit 5000 and minimum claim
    amount at most 1500: the claim is classified as diagnostic because
    tests are present, every item is covered, and the approved amount is
    min(1500, 5000, remaining annual limit, diagnostic sub-limit), floored
    at zero, minus the fallback 10% co-pay on that amount, up to the
    rounding to two decimals (within a hundredth).  The decision is
    APPROVED whenever that minimum is at least 1334, so that nine tenths of
    it reach 80% of the claim; with at least 1500 left of the annual limit
    and a diagnostic sub-limit of at least 1500 the approved amount is
    1350. *)
Theorem fever_scenario_is_approved_under_diagnostic_limit
        (policy : PolicyTerms) (env : Env) (id join_date : option string) (treated : string)
        (clinic : option string) (cashless : bool) (invoice : option Bill)
        (same_day : Z) (ytd : Q) (td jd : PyDate.Date) :
  let claim_data :=
    Samples.scenario_submission id join_date treated clinic cashless invoice same_day ytd in
  let extraction := Workflow.extract_document_data env claim_data in
  has_prescription extraction = true ->
  has_bill extraction = true ->
  extracted_data extraction = Some Samples.scenario_data ->
  (forall c, er_confidence_score extraction = Some c -> 0 <= c <= 1) ->
  PyDate.strptime treated = Some td ->
  str_truthy join_date = true ->
  PyDate.strptime (get_default join_date "") = Some jd ->
  (get_default (dict_lookup "initial" (PolicyTools.get_waiting_periods policy)) 30
   <= PyDate.toordinal td - PyDate.toordinal jd)%Z ->
  Limits.network_flag policy clinic = false ->
  FraudDetection.fraud_flags
    (FraudDetection.check_fraud_indicators (PyDate.year (now env)) claim_data
                                           same_day ytd 50000) = [] ->
  agent_overrides (limit_agent_reply env) = false ->
  PolicyTools.get_minimum_claim_amount policy <= 1500 ->
  PolicyTools.get_per_claim_limit policy == 5000 ->
  Money.moderate (PolicyTools.get_annual_limit policy) ->
  Money.moderate ytd ->
  let remaining := PolicyTools.get_annual_limit policy - ytd in
  let diagnostic_limit := Coverage.limit_of policy "diagnostic" 10000 in
  let capped := Qmax (Qmin (Qmin (Qmin 1500 5000) remaining) diagnostic_limit) 0 in
  exists result,
    Workflow.process policy env claim_data
    = ([Workflow.DocumentExtraction; Workflow.EligibilityCheck;
        Workflow.CoverageValidation; Workflow.LimitCalculation;
        Workflow.FraudCheck; Workflow.FinalDecision],
       Ok result)
    /\ option_map Coverage.category (Decision.coverage_result result) = Some "diagnostic"
    /\ Decision.rejected_items result = []
    /\ capped - capped * (10 / 100) - (1 # 100) <= Decision.approved_amount result
       <= capped - capped * (10 / 100) + (1 # 100)
    /\ (1334 <= capped -> Decision.decision result = Decision.APPROVED)
    /\ (1500 <= remaining -> 1500 <= diagnostic_limit ->
        Decision.approved_amount result == 1350).
Proof.
  intros claim_data extraction Hp Hb Hdata _ Htd Hj Hjd Hdays Hnet Hflags Hagent Hmin Hpcl
         _ _ remaining diagnostic_limit capped.
  destruct (@scenario_eligibility policy env id join_date treated clinic cashless invoice
              same_day ytd extraction td jd Hdata Htd Hj Hjd Hdays) as (He1 & He2 & He3).
  pose proof (@scenario_coverage policy id join_date treated clinic cashless invoice
                same_day ytd extraction Hdata) as Hcov.
  fold claim_data in He1, He2, He3, Hcov.
  set (eligibility := Eligibility.check_eligibility_with_agent policy env claim_data
                                                               extraction) in *.
  set (coverage := Coverage.validate_coverage_with_agent policy claim_data extraction) in *.
  destruct (@scenario_limits policy id join_date treated clinic cashless invoice same_day
              ytd (limit_agent_reply env) coverage)
    as (r & Hr & Hhard & Hservice & Hamount);
    try assumption; try (rewrite Hcov; reflexivity).
  fold claim_data in Hr.
  pose proof (@scenario_capped policy ytd Hpcl) as Hcapped.
  fold remaining in Hcapped. fold diagnostic_limit in Hcapped. fold capped in Hcapped.
  assert (Hvalue : Limits.approved_amount r
                   == Money.round2 (capped - Money.round2 (capped * (10 / 100)))).
  { rewrite Hamount. fold remaining. fold diagnostic_limit. rewrite Hcapped. reflexivity. }
  destruct (nine_tenths_up_to_rounding capped) as [Hlo Hhi].
  rewrite <- Hvalue in Hlo, Hhi.
  destruct (@quiet_fraud_result (PyDate.year (now env)) claim_data
              (previous_claims_same_day claim_data) (previous_claims_ytd claim_data) 50000
              Hflags) as [Hreview Hrisk].
  unfold Workflow.process. fold extraction. rewrite Hp, Hb. cbn [negb].
  fold eligibility. rewrite He1. cbn [negb]. fold coverage. rewrite Hr.
  eexists. split; [reflexivity|].
  unfold Decision.make_decision_with_agent.
  destruct (make_decision_fields (PyDate.year (now env))
              (if str_truthy (Claim.claim_id claim_data)
               then get_default (Claim.claim_id claim_data) ""
               else Workflow.generate_claim_id env)
              claim_data extraction eligibility coverage r) as (Hd & Ha & _).
  cbv zeta in Hd, Ha.
  assert (Hverdict :
            Decision.decide
              (Eligibility.rejection_reasons eligibility
               ++ Coverage.rejection_reasons coverage ++ Limits.rejection_reasons r)
              (Coverage.excluded_items coverage) (Coverage.covered_items coverage)
              (FraudDetection.check_fraud_indicators (PyDate.year (now env)) claim_data
                 (previous_claims_same_day claim_data) (previous_claims_ytd claim_data)
                 50000)
              (Limits.approved_amount r) (claim_amount claim_data)
            = (if Money.gtb (Limits.approved_amount r) 0
               then if Money.geb (Limits.approved_amount r) (1500 * (80 # 100))
                    then Decision.APPROVED else Decision.PARTIAL
               else Decision.REJECTED,
               Limits.approved_amount r)).
  { rewrite He2, Hcov.
    cbn [Coverage.rejection_reasons Coverage.excluded_items Coverage.covered_items app].
    unfold Decision.decide, Decision.is_fully_excluded_service.
    rewrite Hhard, Hservice, Hreview, Hrisk.
    change (claim_amount claim_data) with 1500.
    cbn [orb andb List.length Nat.eqb negb].
    destruct (Money.gtb (Limits.approved_amount r) 0);
      [destruct (Money.geb (Limits.approved_amount r) (1500 * (80 # 100)))|];
      reflexivity. }
  rewrite Hverdict in Hd, Ha. cbn [fst snd] in Hd, Ha.
  assert (Htwo : Money.two_decimals (Limits.approved_amount r))
    by (rewrite Hamount; apply MoneyFacts.two_decimals_round2).
  apply MoneyFacts.round2_two_decimals in Htwo. rewrite <- Ha in Htwo. clear Ha.
  rename Htwo into Ha.
  split; [|split; [|split; [|split]]].
  - unfold Decision.make_decision.
    destruct (Decision.decide _ _ _ _ _ _) as [d a].
    cbn [Decision.coverage_result option_map]. rewrite Hcov. reflexivity.
  - unfold Decision.make_decision.
    destruct (Decision.decide _ _ _ _ _ _) as [d a].
    cbn [Decision.rejected_items]. rewrite Hcov. reflexivity.
  - rewrite Ha. split; assumption.
  - intros Hbig. rewrite Hd.
    assert (Htenth : capped * (10 / 100) == capped * (1 # 10)) by field.
    rewrite Htenth in Hlo.
    assert (G1 : Money.gtb (Limits.approved_amount r) 0 = true)
      by (apply MoneyFacts.gtb_spec; lra).
    assert (G2 : Money.geb (Limits.approved_amount r) (1500 * (80 # 100)) = true)
      by (apply MoneyFacts.geb_spec; lra).
    rewrite G1, G2. reflexivity.
  - intros Hrem Hdiag. rewrite Ha, Hvalue.
    assert (Hfull : capped == 1500).
    { unfold capped.
      assert (B1 : Qmin 1500 5000 == 1500) by reflexivity.
      assert (B2 : Qmin (Qmin 1500 5000) remaining == Qmin 1500 5000)
        by (apply Q.min_l; lra).
      assert (B3 : Qmin (Qmin (Qmin 1500 5000) remaining) diagnostic_limit
                   == Qmin (Qmin 1500 5000) remaining) by (apply Q.min_l; lra).
      assert (B4 : Qmax (Qmin (Qmin (Qmin 1500 5000) remaining) diagnostic_limit) 0
                   == Qmin (Qmin (Qmin 1500 5000) remaining) diagnostic_limit)
        by (apply Q.max_l; lra).
      lra. }
    rewrite Hfull. reflexivity.
Qed.

Lemma fever_scenario_is_approved_under_diagnostic_limit_witness :
  let td := {| PyDate.year := 2024; PyDate.month := 11; PyDate.day := 1 |} in
  let jd := {| PyDate.year := 2024; PyDate.month := 1; PyDate.day := 1 |} in
  (get_default (dict_lookup "initial" (PolicyTools.get_waiting_periods empty_policy)) 30
   <= PyDate.toordinal td - PyDate.toordinal jd)%Z
  /\ FraudDetection.fraud_flags
       (FraudDetection.check_fraud_indicators
          (PyDate.year (now Samples.run_2024)) Samples.scenario_claim 0 0 50000) = []
  /\ agent_overrides (limit_agent_reply Samples.run_2024) = false
  /\ Money.moderate (PolicyTools.get_annual_limit empty_policy)
  /\ exists result,
       snd (Workflow.process empty_policy Samples.run_2024 Samples.scenario_claim)
       = Ok result
       /\ Decision.decision result = Decision.APPROVED
       /\ Decision.approved_amount result == 1350.
Proof.
  intros td jd.
  pose (extraction := Workflow.extract_document_data Samples.run_2024 Samples.scenario_claim).
  assert (Hp : has_prescription extraction = true) by reflexivity.
  assert (Hb : has_bill extraction = true) by reflexivity.
  assert (Hdata : extracted_data extraction = Some Samples.scenario_data) by reflexivity.
  assert (Hconf : forall c, er_confidence_score extraction = Some c -> 0 <= c <= 1).
  { intros c Hc. injection Hc as <-. split; discriminate. }
  assert (Htd : PyDate.strptime "2024-11-01" = Some td) by (vm_compute; reflexivity).
  assert (Hj : str_truthy (Some "2024-01-01") = true) by reflexivity.
  assert (Hjd : PyDate.strptime (get_default (Some "2024-01-01") "") = Some jd)
    by (vm_compute; reflexivity).
  assert (Hdays : (get_default (dict_lookup "initial"
                                           (PolicyTools.get_waiting_periods empty_policy)) 30
                   <= PyDate.toordinal td - PyDate.toordinal jd)%Z)
    by (vm_compute; discriminate).
  assert (Hnet : Limits.network_flag empty_policy (Some "City Clinic") = false)
    by (vm_compute; reflexivity).
  assert (Hflags : FraudDetection.fraud_flags
                     (FraudDetection.check_fraud_indicators
                        (PyDate.year (now Samples.run_2024)) Samples.scenario_claim
                        0 0 50000) = []) by (vm_compute; reflexivity).
  assert (Hagent : agent_overrides (limit_agent_reply Samples.run_2024) = false)
    by reflexivity.
  assert (Hmin : PolicyTools.get_minimum_claim_amount empty_policy <= 1500)
    by (vm_compute; discriminate).
  assert (Hpcl : PolicyTools.get_per_claim_limit empty_policy == 5000)
    by (vm_compute; reflexivity).
  assert (Hannual : Money.moderate (PolicyTools.get_annual_limit empty_policy))
    by (split; vm_compute; discriminate).
  assert (Hytd : Money.moderate 0) by (split; vm_compute; discriminate).
  assert (Hrem : 1500 <= PolicyTools.get_annual_limit empty_policy - 0)
    by (vm_compute; discriminate).
  assert (Hdiag : 1500 <= Coverage.limit_of empty_policy "diagnostic" 10000)
    by (vm_compute; discriminate).
  assert (Hcapped :
    1334 <= Qmax (Qmin (Qmin (Qmin 1500 5000)
                             (PolicyTools.get_annual_limit empty_policy - 0))
                       (Coverage.limit_of empty_policy "diagnostic" 10000)) 0)
    by (vm_compute; discriminate).
  split; [exact Hdays|]. split; [exact Hflags|]. split; [exact Hagent|].
  split; [exact Hannual|].
  destruct (@fever_scenario_is_approved_under_diagnostic_limit
              empty_policy Samples.run_2024 (Some "CLM_TEST_0001") (Some "2024-01-01")
              "2024-11-01" (Some "City Clinic") false (Some Samples.fever_bill) 0 0 td jd
              Hp Hb Hdata Hconf Htd Hj Hjd Hdays Hnet Hflags Hagent Hmin Hpcl Hannual Hytd)
    as (result & Hrun & _ & _ & _ & Hdecision & Hamount).
  exists result. split; [|split; [exact (Hdecision Hcapped) | exact (Hamount Hrem Hdiag)]].
  unfold Samples.scenario_claim. rewrite Hrun. reflexivity.
Defined.

(** C6 as stated fails: with a consultation sub-limit of 1000 in the
    policy the claimed formula gives min(1500, 5000, 50000, 1000) minus
    10%, that is 900, whereas the pipeline, which files the claim under
    diagnostic tests, approves 1350. *)
Lemma fever_scenario_ignores_consultation_limit :
  let policy := Samples.small_consultation_policy in
  let consultation_limit := Coverage.limit_of policy "consultation" 2000 in
  let remaining :=
    PolicyTools.get_annual_limit policy - previous_claims_ytd Samples.scenario_claim in
  let capped := Qmin (Qmin (Qmin 1500 5000) remaining) consultation_limit in
  let copay := capped * (PolicyTools.copay_percentage_for policy "consultation" / 100) in
  consultation_limit == 1000
  /\ capped - copay == 900
  /\ FraudDetection.fraud_flags
       (FraudDetection.check_fraud_indicators
          (PyDate.year (now Samples.run_2024)) Samples.scenario_claim 0 0 50000) = []
  /\ exists result,
       snd (Workflow.process policy Samples.run_2024 Samples.scenario_claim) = Ok result
       /\ Decision.decision result = Decision.APPROVED
       /\ Decision.rejected_items result = []
       /\ Decision.approved_amount result == 1350
       /\ ~ (Decision.approved_amount result == capped - copay).
Proof.
  cbv zeta. split; [reflexivity|]. split; [reflexivity|]. split; [vm_compute; reflexivity|].
  eexists. split; [vm_compute; reflexivity|].
  split; [reflexivity|]. split; [reflexivity|]. split; [reflexivity|].
  intros H. vm_compute in H. discriminate H.
Qed.


(* ================================================================== *)
(** * Further properties of the code *)

(** ** Dictionaries and waiting periods *)

Lemma dict_lookup_set_same (A : Type) (k : string) (v : A) (d : list (string * A)) :
  dict_lookup k (dict_set k v d) = Some v.
Proof.
  induction d as [|[k' v'] d IH]; cbn.
  - now rewrite String.eqb_refl.
  - destruct (String.eqb k k') eqn:E; cbn; rewrite E; [reflexivity | exact IH].
Qed.

Lemma dict_lookup_set_other (A : Type) (k k' : string) (v : A) (d : list (string * A)) :
  k <> k' -> dict_lookup k' (dict_set k v d) = dict_lookup k' d.
Proof.
  intros Hk. induction d as [|[k0 v0] d IH]; cbn.
  - destruct (String.eqb_spec k' k) as [->|_]; [contradiction | reflexivity].
  - destruct (String.eqb_spec k k0) as [->|Hk0]; cbn.
    + destruct (String.eqb_spec k' k0) as [->|_]; [contradiction | reflexivity].
    + destruct (String.eqb k' k0); [reflexivity | exact IH].
Qed.

(** X1. A lookup in the table of [get_waiting_periods] returns the days of
    the last entry of [specific_ailments] whose lower-cased name is the
    key, and falls back on the three base periods (initial, pre_existing,
    maternity, with their defaults 30, 365, 270) when no ailment has that
    name. *)
Theorem waiting_period_lookup (policy : PolicyTerms) (key : string) :
  let waiting := waiting_periods policy in
  let base :=
    [ ("initial", get_default (initial_waiting waiting) 30%Z);
      ("pre_existing", get_default (pre_existing_diseases waiting) 365%Z);
      ("maternity", get_default (maternity waiting) 270%Z) ] in
  dict_lookup key (PolicyTools.get_waiting_periods policy)
  = match find (fun entry => String.eqb (PyStr.lower (fst entry)) key)
               (rev (specific_ailments waiting)) with
    | Some entry => Some (snd entry)
    | None => dict_lookup key base
    end.
Proof.
  intros waiting base. unfold PolicyTools.get_waiting_periods. fold waiting. fold base.
  induction (specific_ailments waiting) as [|entry l IH] using rev_ind.
  - reflexivity.
  - rewrite fold_left_app, rev_app_distr. cbn [fold_left rev app find].
    destruct (String.eqb_spec (PyStr.lower (fst entry)) key) as [<-|Hne].
    + apply dict_lookup_set_same.
    + rewrite dict_lookup_set_other by assumption. exact IH.
Qed.

(** ** Eligibility *)

Ltac eligibility_fields :=
  unfold Eligibility.waiting_rejection;
  cbn [Eligibility.is_eligible Eligibility.rejection_reasons
       Eligibility.waiting_period_end_date Eligibility.confidence_score].

Section EligibilityFacts.
Variable policy : PolicyTerms.
Variable treated : string.
Variable diagnosis : option string.
Variable join_date : option string.
Variable policy_start : string.

Let e : Eligibility.EligibilityResult :=
  Eligibility.check_eligibility policy treated diagnosis join_date policy_start.

Let join_text : string :=
  if str_truthy join_date then get_default join_date "" else policy_start.

Let diagnosis_lower : string :=
  if str_truthy diagnosis then PyStr.lower (get_default diagnosis "") else "".

(** X2. When the end of every waiting period of the policy, counted from
    the join date, is a date Python can represent (otherwise the addition
    raises OverflowError), [check_eligibility] has three outcomes:
    eligible, with no rejection reason and no end date; not eligible for
    WAITING_PERIOD, with the date the waiting period ends; not eligible
    for INVALID_DATE, with confidence 1, which happens exactly when the
    treatment date or the join date (the policy start date when the member
    has none) does not parse. *)
Theorem eligibility_outcomes :
  (forall jd days,
      PyDate.strptime join_text = Some jd ->
      days = get_default (dict_lookup "initial" (PolicyTools.get_waiting_periods policy)) 30%Z
      \/ In days (map snd (Eligibility.condition_waiting_map policy)) ->
      PyDate.add_days_defined jd days) ->
  (Eligibility.is_eligible e = true
   /\ Eligibility.rejection_reasons e = []
   /\ Eligibility.waiting_period_end_date e = None)
  \/ (Eligibility.is_eligible e = false
      /\ Eligibility.rejection_reasons e = ["WAITING_PERIOD"]
      /\ exists day, Eligibility.waiting_period_end_date e = Some day)
  \/ (Eligibility.is_eligible e = false
      /\ Eligibility.rejection_reasons e = ["INVALID_DATE"]
      /\ Eligibility.waiting_period_end_date e = None
      /\ Eligibility.confidence_score e == 1
      /\ (PyDate.strptime treated = None \/ PyDate.strptime join_text = None)).
Proof.
  intros _.
  unfold e, Eligibility.check_eligibility. fold join_text.
  destruct (PyDate.strptime treated) as [td|];
    [destruct (PyDate.strptime join_text) as [jd|]|].
  - cbv zeta. destruct (_ <? _)%Z.
    + right. left. eligibility_fields. repeat split. eexists. reflexivity.
    + destruct (find _ _) as [[kw days]|].
      * right. left. eligibility_fields. repeat split. eexists. reflexivity.
      * left. eligibility_fields. repeat split.
  - right. right. eligibility_fields. repeat split. now right.
  - right. right. eligibility_fields. repeat split. now left.
Qed.

(** X3. A member is eligible exactly when both dates parse, the initial
    waiting period has elapsed on the treatment date, and every keyword of
    the condition table that occurs in the lower-cased diagnosis has seen
    its own waiting period elapse. *)
Theorem eligible_iff_all_waiting_periods_elapsed :
  Eligibility.is_eligible e = true
  <-> exists td jd,
      PyDate.strptime treated = Some td
      /\ PyDate.strptime join_text = Some jd
      /\ (get_default (dict_lookup "initial" (PolicyTools.get_waiting_periods policy)) 30
          <= PyDate.toordinal td - PyDate.toordinal jd)%Z
      /\ forall keyword days,
          In (keyword, days) (Eligibility.condition_waiting_map policy) ->
          PyStr.contains keyword diagnosis_lower = true ->
          (days <= PyDate.toordinal td - PyDate.toordinal jd)%Z.
Proof.
  unfold e, Eligibility.check_eligibility. fold join_text. fold diagnosis_lower.
  destruct (PyDate.strptime treated) as [td|];
    [destruct (PyDate.strptime join_text) as [jd|]|].
  - cbv zeta.
    set (elapsed := (PyDate.toordinal td - PyDate.toordinal jd)%Z).
    destruct (Z.ltb_spec elapsed
                (get_default (dict_lookup "initial" (PolicyTools.get_waiting_periods policy))
                             30%Z)) as [Hlt|Hge].
    + eligibility_fields. split; [discriminate|]. intros (td' & jd' & Htd & Hjd & Hinit & _).
      injection Htd as <-. injection Hjd as <-. fold elapsed in Hinit. lia.
    + destruct (find _ _) as [[kw days]|] eqn:Hfind.
      * eligibility_fields. split; [discriminate|]. intros (td' & jd' & Htd & Hjd & _ & Hall).
        injection Htd as <-. injection Hjd as <-. fold elapsed in Hall.
        apply find_some in Hfind. destruct Hfind as [Hin Hhit]. cbn [fst snd] in Hhit.
        apply andb_true_iff in Hhit. destruct Hhit as [Hc Hd].
        apply Z.ltb_lt in Hd. specialize (Hall kw days Hin Hc). lia.
      * eligibility_fields. split; [|reflexivity]. intros _. exists td, jd.
        repeat split; try assumption. intros kw days Hin Hc.
        pose proof (find_none _ _ Hfind (kw, days) Hin) as Hno. cbn [fst snd] in Hno.
        rewrite Hc in Hno. cbn [andb] in Hno. apply Z.ltb_ge in Hno. exact Hno.
  - eligibility_fields. split; [discriminate|]. intros (td' & jd' & _ & Hjd & _). discriminate Hjd.
  - eligibility_fields. split; [discriminate|]. intros (td' & jd' & Htd & _). discriminate Htd.
Qed.
End EligibilityFacts.

Lemma eligibility_outcomes_witness :
  Eligibility.is_eligible
    (Eligibility.check_eligibility empty_policy "2024-11-01" (Some "Viral fever")
                                   (Some "2024-01-01") "2024-01-01") = true
  \/ Eligibility.is_eligible
       (Eligibility.check_eligibility empty_policy "2024-11-01" (Some "Viral fever")
                                      (Some "2024-01-01") "2024-01-01") = false.
Proof.
  destruct (@eligibility_outcomes empty_policy "2024-11-01" (Some "Viral fever")
                                  (Some "2024-01-01") "2024-01-01")
    as [(He & _)|[(He & Hr & _)|(He & Hr & _)]].
  - intros jd days Hjd Hdays. vm_compute in Hjd. injection Hjd as <-.
    unfold PyDate.add_days_defined.
    destruct Hdays as [->|Hin]; [vm_compute; split; discriminate|].
    vm_compute in Hin.
    repeat (destruct Hin as [<-|Hin]; [vm_compute; split; discriminate|]).
    destruct Hin.
  - left. exact He.
  - right. exact He.
  - right. exact He.
Defined.

(** ** Substrings *)

Lemma prefix_spec (a s : string) :
  prefix a s = true <-> exists post, s = a ++ post.
Proof.
  revert s. induction a as [|c a IH]; intros s.
  - destruct s; cbn [prefix append]; (split; [intros _; eexists; reflexivity | reflexivity]).
  - destruct s as [|d s]; cbn [prefix append].
    + split; [discriminate | intros [post H]; discriminate H].
    + destruct (ascii_dec c d) as [->|Hne].
      * rewrite IH. split; intros [post H]; exists post; [now rewrite H | now injection H].
      * split; [discriminate | intros [post H]; injection H as H1 H2; congruence].
Qed.

Lemma append_assoc (a b c : string) : (a ++ b) ++ c = a ++ b ++ c.
Proof. induction a as [|x a IH]; cbn [append]; [reflexivity | now rewrite IH]. Qed.

Lemma contains_spec (sub s : string) :
  PyStr.contains sub s = true <-> exists pre post, s = pre ++ sub ++ post.
Proof.
  induction s as [|c s IH]; cbn [PyStr.contains].
  - destruct (prefix sub "") eqn:Hp.
    + split; [intros _|reflexivity]. apply prefix_spec in Hp. destruct Hp as [post Hp].
      exists "", post. exact Hp.
    + split; [discriminate|]. intros (pre & post & H).
      destruct pre as [|x pre]; [|discriminate H]. cbn [append] in H.
      assert (Hp' : prefix sub "" = true) by (apply prefix_spec; now exists post).
      congruence.
  - destruct (prefix sub (String c s)) eqn:Hp.
    + split; [intros _|reflexivity]. apply prefix_spec in Hp. destruct Hp as [post Hp].
      exists "", post. exact Hp.
    + rewrite IH. split.
      * intros (pre & post & H). exists (String c pre), post. cbn [append]. now rewrite H.
      * intros (pre & post & H). destruct pre as [|x pre].
        -- cbn [append] in H.
           assert (Hp' : prefix sub (String c s) = true)
             by (apply prefix_spec; now exists post).
           congruence.
        -- cbn [append] in H. injection H as _ H. now exists pre, post.
Qed.

(** A text that contains [a ++ b] contains [b]. *)
Lemma contains_suffix_part (a b s : string) :
  PyStr.contains (a ++ b) s = true -> PyStr.contains b s = true.
Proof.
  rewrite !contains_spec. intros (pre & post & H).
  exists (pre ++ a), post. now rewrite H, !append_assoc.
Qed.

(** ** Exclusions and network hospitals *)

Lemma first_exclusion_hit_none (groups : list (string * list string)) (tl dl : string) :
  PolicyTools.first_exclusion_hit groups tl dl = None
  <-> forall title keywords keyword,
      In (title, keywords) groups -> In keyword keywords ->
      PyStr.contains keyword tl || PyStr.contains keyword dl = false.
Proof.
  induction groups as [|[title keywords] groups IH]; cbn [PolicyTools.first_exclusion_hit].
  - split; [intros _ ? ? ? [] | reflexivity].
  - destruct (find _ keywords) as [kw|] eqn:Hfind.
    + split; [discriminate|]. intros H. apply find_some in Hfind.
      destruct Hfind as [Hin Hhit].
      rewrite (H title keywords kw (or_introl eq_refl) Hin) in Hhit. discriminate Hhit.
    + rewrite IH. split.
      * intros H t ks k [Heq|Hin] Hk.
        -- injection Heq as <- <-. exact (find_none _ _ Hfind k Hk).
        -- exact (H t ks k Hin Hk).
      * intros H t ks k Hin Hk. apply (H t ks k); [now right | assumption].
Qed.

Lemma alternative_medicine_not_excluded (policy : PolicyTerms) (treatment diagnosis : string) :
  PyStr.any_in PolicyTools.alt_medicine_keywords (PyStr.lower treatment)
  || PyStr.any_in PolicyTools.alt_medicine_keywords (PyStr.lower diagnosis) = true ->
  PolicyTools.check_exclusions policy treatment diagnosis = (false, "").
Proof.
  intros H. unfold PolicyTools.check_exclusions.
  assert (Hany : existsb (fun kw => PyStr.contains kw (PyStr.lower treatment)
                                    || PyStr.contains kw (PyStr.lower diagnosis))
                         PolicyTools.alt_medicine_keywords = true).
  { apply orb_true_iff in H. unfold PyStr.any_in in H. apply existsb_exists.
    destruct H as [H|H]; apply existsb_exists in H; destruct H as [kw [Hin Hc]];
      exists kw; (split; [assumption|]); rewrite Hc; [reflexivity | apply orb_true_r]. }
  now rewrite Hany.
Qed.

(** X4. An exclusion keyword in the diagnosis excludes every treatment
    checked against it: when the diagnosis contains a keyword of one of the
    seven exclusion groups, and neither text mentions an alternative-medicine
    keyword, [check_exclusions] reports every treatment that is not a
    vitamin or supplement as excluded, with a non-empty reason. *)
Theorem excluded_diagnosis_excludes_every_treatment
        (policy : PolicyTerms) (treatment diagnosis : string)
        (title : string) (keywords : list string) (keyword : string) :
  In (title, keywords) PolicyTools.exclusion_keywords ->
  In keyword keywords ->
  PyStr.contains keyword (PyStr.lower diagnosis) = true ->
  PyStr.any_in PolicyTools.alt_medicine_keywords (PyStr.lower treatment) = false ->
  PyStr.any_in PolicyTools.alt_medicine_keywords (PyStr.lower diagnosis) = false ->
  PyStr.contains "vitamin" (PyStr.lower treatment) = false ->
  PyStr.contains "supplement" (PyStr.lower treatment) = false ->
  fst (PolicyTools.check_exclusions policy treatment diagnosis) = true
  /\ snd (PolicyTools.check_exclusions policy treatment diagnosis) <> "".
Proof.
  intros Hgroup Hkw Hhit Halt_t Halt_d Hvit Hsup.
  unfold PolicyTools.check_exclusions.
  assert (Hany : existsb (fun kw => PyStr.contains kw (PyStr.lower treatment)
                                    || PyStr.contains kw (PyStr.lower diagnosis))
                         PolicyTools.alt_medicine_keywords = false).
  { apply not_true_is_false. intros H. apply existsb_exists in H.
    destruct H as [kw [Hin Hc]]. apply orb_true_iff in Hc.
    unfold PyStr.any_in in Halt_t, Halt_d.
    destruct Hc as [Hc|Hc].
    - assert (Ht : existsb (fun kw => PyStr.contains kw (PyStr.lower treatment))
                           PolicyTools.alt_medicine_keywords = true)
        by (apply existsb_exists; now exists kw).
      congruence.
    - assert (Ht : existsb (fun kw => PyStr.contains kw (PyStr.lower diagnosis))
                           PolicyTools.alt_medicine_keywords = true)
        by (apply existsb_exists; now exists kw).
      congruence. }
  rewrite Hany, Hvit, Hsup. cbn [orb].
  destruct (PolicyTools.first_exclusion_hit _ _ _) as [[t k]|] eqn:Hfirst.
  - destruct (find _ _) as [excl|] eqn:Hfind; cbn [fst snd].
    + split; [reflexivity|]. apply find_some in Hfind. destruct Hfind as [_ Hc].
      intros ->. 
      assert (Hk : k <> "").
      { intros ->. clear -Hfirst.
        assert (forall groups tl dl t,
                   Forall (fun g => Forall (fun kw => kw <> "") (snd g)) groups ->
                   PolicyTools.first_exclusion_hit groups tl dl <> Some (t, "")) as Hgen.
        { induction groups as [|[t0 ks] groups IH]; intros tl dl t0' Hall; cbn; [discriminate|].
          inversion Hall as [|? ? Hks Hrest]; subst. cbn [snd] in Hks.
          destruct (find _ ks) as [kw|] eqn:Hf.
          - apply find_some in Hf. destruct Hf as [Hin _].
            rewrite Forall_forall in Hks. specialize (Hks kw Hin).
            intros Heq. injection Heq as _ ->. contradiction.
          - now apply IH. }
        eapply Hgen; [|exact Hfirst].
        unfold PolicyTools.exclusion_keywords.
        repeat (constructor; [cbn [snd]; repeat (constructor; [discriminate|]); constructor|]).
        constructor. }
      destruct k; [contradiction | discriminate Hc].
    + split; [reflexivity|]. destruct t; discriminate.
  - exfalso. rewrite first_exclusion_hit_none in Hfirst.
    specialize (Hfirst title keywords keyword Hgroup Hkw).
    rewrite Hhit, orb_true_r in Hfirst. discriminate Hfirst.
Qed.

Lemma excluded_diagnosis_excludes_every_treatment_witness :
  In ("Weight Loss", ["weight loss"; "obesity"; "bariatric"; "diet plan"; "slimming"])
     PolicyTools.exclusion_keywords
  /\ PyStr.contains "obesity" (PyStr.lower "Obesity - Morbid Obesity") = true
  /\ fst (PolicyTools.check_exclusions empty_policy "Blood test" "Obesity - Morbid Obesity")
     = true.
Proof.
  assert (H1 : In ("Weight Loss",
                   ["weight loss"; "obesity"; "bariatric"; "diet plan"; "slimming"])
                  PolicyTools.exclusion_keywords) by (right; left; reflexivity).
  assert (H2 : PyStr.contains "obesity" (PyStr.lower "Obesity - Morbid Obesity") = true)
    by reflexivity.
  split; [exact H1|]. split; [exact H2|].
  apply (@excluded_diagnosis_excludes_every_treatment
           empty_policy "Blood test" "Obesity - Morbid Obesity" "Weight Loss"
           ["weight loss"; "obesity"; "bariatric"; "diet plan"; "slimming"] "obesity"
           H1); [right; left; reflexivity | exact H2 | reflexivity | reflexivity
                 | reflexivity | reflexivity].
Defined.

Lemma lower_upper_char (c : ascii) :
  PyStr.lower_char (PyStr.upper_char c) = PyStr.lower_char c.
Proof. destruct c as [[] [] [] [] [] [] [] []]; reflexivity. Qed.

Lemma lower_lower_char (c : ascii) :
  PyStr.lower_char (PyStr.lower_char c) = PyStr.lower_char c.
Proof. destruct c as [[] [] [] [] [] [] [] []]; reflexivity. Qed.

Lemma lower_upper (s : string) : PyStr.lower (PyStr.upper s) = PyStr.lower s.
Proof.
  induction s as [|c s IH]; cbn; [reflexivity|].
  f_equal; [apply lower_upper_char | exact IH].
Qed.

Lemma lower_lower (s : string) : PyStr.lower (PyStr.lower s) = PyStr.lower s.
Proof.
  induction s as [|c s IH]; cbn; [reflexivity|].
  f_equal; [apply lower_lower_char | exact IH].
Qed.

Lemma truthy_map_chars (f : ascii -> ascii) (s : string) :
  PyStr.truthy (PyStr.map_chars f s) = PyStr.truthy s.
Proof. destruct s; reflexivity. Qed.



(** X5. The network check ignores the letter case of an ASCII hospital
    name: written in upper or in lower case, the name is recognised
    exactly when the name as given is. *)
Theorem network_check_ignores_case (policy : PolicyTerms) (hospital_name : string) :
  PyStr.is_ascii hospital_name = true ->
  PolicyTools.is_network_hospital policy (PyStr.upper hospital_name)
  = PolicyTools.is_network_hospital policy hospital_name
  /\ PolicyTools.is_network_hospital policy (PyStr.lower hospital_name)
     = PolicyTools.is_network_hospital policy hospital_name.
Proof.
  intros _. unfold PolicyTools.is_network_hospital. split.
  - unfold PyStr.upper at 1. rewrite truthy_map_chars, lower_upper. reflexivity.
  - unfold PyStr.lower at 1. rewrite truthy_map_chars.
    fold (PyStr.lower hospital_name). rewrite lower_lower. reflexivity.
Qed.

Lemma network_check_ignores_case_witness :
  PyStr.is_ascii "Apollo Hospital, Delhi" = true
  /\ PolicyTools.is_network_hospital Samples.apollo_policy "APOLLO HOSPITAL, DELHI"
     = PolicyTools.is_network_hospital Samples.apollo_policy "Apollo Hospital, Delhi"
  /\ PolicyTools.is_network_hospital Samples.apollo_policy "apollo hospital, delhi"
     = PolicyTools.is_network_hospital Samples.apollo_policy "Apollo Hospital, Delhi".
Proof.
  split; [reflexivity|].
  apply (@network_check_ignores_case Samples.apollo_policy "Apollo Hospital, Delhi").
  reflexivity.
Defined.



(** ** Coverage validation: the accumulated lists *)

Lemma validate_coverage_lists (policy : PolicyTerms) (diagnosis : string)
      (treatments procedures medicines tests : list string)
      (claim_amount : Q) (category : option string) (pre_auth : bool) :
  let r := Coverage.validate_coverage policy diagnosis treatments procedures medicines
                                      tests claim_amount category pre_auth in
  let a := coverage_acc policy diagnosis treatments procedures medicines tests
                        claim_amount pre_auth in
  Coverage.covered_items r = Coverage.acc_covered a
  /\ Coverage.excluded_items r = Coverage.acc_excluded a
  /\ Coverage.rejection_reasons r = Coverage.acc_reasons a
  /\ Coverage.pre_auth_required r = Coverage.acc_pre_auth_required a
  /\ Coverage.is_covered r = Nat.eqb (List.length (Coverage.acc_reasons a)) 0
  /\ Coverage.confidence_score r
     = (if Nat.eqb (List.length (Coverage.acc_reasons a)) 0 then 92 # 100 else 95 # 100).
Proof.
  intros r a. unfold r, Coverage.validate_coverage. fold a.
  unfold coverage_acc in a. cbv zeta in a. fold a.
  destruct (Coverage.determine_category _ _ _ _ _) as [cat lim].
  repeat split.
Qed.

Lemma fold_left_invariant (A B : Type) (P : A -> Prop) (f : A -> B -> A) (l : list B) :
  (forall a x, P a -> P (f a x)) -> forall a, P a -> P (fold_left f l a).
Proof.
  intros Hstep. induction l as [|x l IH]; intros a Ha; cbn [fold_left]; auto.
Qed.

Lemma acc_ok_cover (item : string) (a : Coverage.Acc) :
  acc_ok a -> acc_ok (Coverage.cover item a).
Proof. intros H. exact H. Qed.

Lemma acc_ok_exclude (entry code : string) (a : Coverage.Acc) :
  acc_ok a -> In code coverage_codes ->
  acc_ok (Coverage.add_reason code (Coverage.exclude entry a)).
Proof.
  intros (Hnd & Hin & Hiff) Hcode. unfold acc_ok. unfold_acc.
  destruct (PyStr.mem code (Coverage.acc_reasons a)) eqn:Hm.
  - repeat split; try assumption.
    + intros H. destruct (Coverage.acc_excluded a); discriminate H.
    + intros H. apply PyStrFacts.mem_In in Hm. rewrite H in Hm. contradiction.
  - repeat split.
    + apply NoDup_snoc; [assumption|]. intros H. apply PyStrFacts.mem_In in H. congruence.
    + intros x Hx. apply in_app_or in Hx. destruct Hx as [Hx|[<-|[]]]; auto.
    + intros H. destruct (Coverage.acc_excluded a); discriminate H.
    + intros H. destruct (Coverage.acc_reasons a); discriminate H.
Qed.

Lemma acc_ok_pre_auth (a : Coverage.Acc) : acc_ok a -> acc_ok (Coverage.require_pre_auth a).
Proof. intros H. exact H. Qed.

Ltac coverage_code := unfold coverage_codes; cbn [In]; tauto.

Lemma check_item_ok (policy : PolicyTerms) (diagnosis : string) (a : Coverage.Acc)
      (item : string) :
  acc_ok a -> acc_ok (Coverage.check_item policy diagnosis a item).
Proof.
  intros Ha. unfold Coverage.check_item.
  destruct (negb (PyStr.truthy item)); [assumption|].
  destruct (PyStr.any_in _ _); [now apply acc_ok_cover|].
  destruct (PolicyTools.check_exclusions policy item diagnosis) as [[] reason];
    [|now apply acc_ok_cover].
  destruct (_ || _).
  - change (acc_ok (Coverage.add_reason "COSMETIC_PROCEDURE"
                      (Coverage.exclude (item ++ " - " ++ reason) a))).
    apply acc_ok_exclude; [assumption | coverage_code].
  - destruct (_ || _).
    + change (acc_ok (Coverage.add_reason "SERVICE_NOT_COVERED"
                        (Coverage.exclude (item ++ " - " ++ reason) a))).
      apply acc_ok_exclude; [assumption | coverage_code].
    + change (acc_ok (Coverage.add_reason "EXCLUDED_CONDITION"
                        (Coverage.exclude (item ++ " - " ++ reason) a))).
      apply acc_ok_exclude; [assumption | coverage_code].
Qed.

Lemma check_medicine_ok (deficiency : bool) (a : Coverage.Acc) (med : string) :
  acc_ok a -> acc_ok (Coverage.check_medicine deficiency a med).
Proof.
  intros Ha. unfold Coverage.check_medicine.
  destruct (negb (PyStr.truthy med)); [assumption|].
  destruct (_ || _); [destruct deficiency|]; now apply acc_ok_cover.
Qed.

Lemma exclude_add_reason_swap (entry code : string) (a : Coverage.Acc) :
  Coverage.exclude entry (Coverage.add_reason code a)
  = Coverage.add_reason code (Coverage.exclude entry a).
Proof. reflexivity. Qed.

Lemma check_test_ok (claim_amount : Q) (pre_auth : bool) (a : Coverage.Acc) (test : string) :
  acc_ok a -> acc_ok (Coverage.check_test claim_amount pre_auth a test).
Proof.
  intros Ha. unfold Coverage.check_test.
  destruct (negb (PyStr.truthy test)); [assumption|].
  destruct (PolicyTools.check_pre_authorization_required test claim_amount);
    [|now apply acc_ok_cover].
  destruct (negb pre_auth); [|now apply acc_ok_cover, acc_ok_pre_auth].
  rewrite exclude_add_reason_swap.
  apply (@acc_ok_exclude _ "PRE_AUTH_MISSING" (Coverage.require_pre_auth a));
    [now apply acc_ok_pre_auth | coverage_code].
Qed.

Lemma coverage_acc_ok (policy : PolicyTerms) (diagnosis : string)
      (treatments procedures medicines tests : list string)
      (claim_amount : Q) (pre_auth : bool) :
  acc_ok (coverage_acc policy diagnosis treatments procedures medicines tests
                       claim_amount pre_auth).
Proof.
  unfold coverage_acc.
  apply fold_left_invariant; [intros; now apply check_test_ok|].
  apply fold_left_invariant; [intros; now apply check_medicine_ok|].
  apply fold_left_invariant; [intros; now apply check_item_ok|].
  unfold acc_ok. unfold_acc.
  split; [constructor|]. split; [intros x []|]. split; reflexivity.
Qed.

(** X7. In every result of [validate_coverage] the rejection codes are
    pairwise distinct and are among COSMETIC_PROCEDURE, SERVICE_NOT_COVERED,
    EXCLUDED_CONDITION and PRE_AUTH_MISSING; the claim counts as covered
    exactly when no item was excluded, which is also exactly when no code
    was raised; the confidence is 0.92 when covered and 0.95 otherwise. *)
Theorem coverage_codes_and_exclusions_agree
        (policy : PolicyTerms) (diagnosis : string)
        (treatments procedures medicines tests : list string)
        (claim_amount : Q) (category : option string) (pre_auth : bool) :
  let r := Coverage.validate_coverage policy diagnosis treatments procedures medicines
                                      tests claim_amount category pre_auth in
  NoDup (Coverage.rejection_reasons r)
  /\ incl (Coverage.rejection_reasons r)
          ["COSMETIC_PROCEDURE"; "SERVICE_NOT_COVERED"; "EXCLUDED_CONDITION";
           "PRE_AUTH_MISSING"]
  /\ (Coverage.is_covered r = true <-> Coverage.excluded_items r = [])
  /\ (Coverage.is_covered r = true <-> Coverage.rejection_reasons r = [])
  /\ Coverage.confidence_score r
     == (if Coverage.is_covered r then 92 # 100 else 95 # 100).
Proof.
  intros r.
  destruct (validate_coverage_lists policy diagnosis treatments procedures medicines tests
                                    claim_amount category pre_auth)
    as (_ & He & Hr & _ & Hc & Hconf).
  fold r in He, Hr, Hc, Hconf.
  destruct (coverage_acc_ok policy diagnosis treatments procedures medicines tests
                            claim_amount pre_auth) as (Hnd & Hin & Hiff).
  rewrite He, Hr, Hc, Hconf.
  assert (Hlen : Nat.eqb (List.length (Coverage.acc_reasons
                    (coverage_acc policy diagnosis treatments procedures medicines tests
                                  claim_amount pre_auth))) 0 = true
                 <-> Coverage.acc_reasons
                       (coverage_acc policy diagnosis treatments procedures medicines tests
                                     claim_amount pre_auth) = []).
  { destruct (Coverage.acc_reasons _); cbn; split; congruence. }
  split; [assumption|]. split; [assumption|]. split; [|split].
  - split; intros H; [apply Hiff; now apply Hlen | apply Hlen; now apply Hiff].
  - exact Hlen.
  - reflexivity.
Qed.

(** *** Every named entry ends up on exactly one list *)

Lemma listed_cover (item : string) (a : Coverage.Acc) :
  listed (Coverage.cover item a) = S (listed a).
Proof. unfold listed. unfold_acc. rewrite length_app. cbn. lia. Qed.

Lemma listed_exclude (entry code : string) (a : Coverage.Acc) :
  listed (Coverage.add_reason code (Coverage.exclude entry a)) = S (listed a).
Proof. unfold listed. unfold_acc. rewrite length_app. cbn. lia. Qed.

Lemma named_step (x : string) : named [x] = if PyStr.truthy x then 1%nat else 0%nat.
Proof. unfold named. cbn. now destruct (PyStr.truthy x). Qed.

Lemma check_item_listed (policy : PolicyTerms) (diagnosis : string) (a : Coverage.Acc)
      (item : string) :
  listed (Coverage.check_item policy diagnosis a item) = (listed a + named [item])%nat.
Proof.
  rewrite named_step. unfold Coverage.check_item.
  destruct (PyStr.truthy item); cbn [negb]; [|lia].
  destruct (PyStr.any_in _ _); [rewrite listed_cover; lia|].
  destruct (PolicyTools.check_exclusions policy item diagnosis) as [[] reason];
    [|rewrite listed_cover; lia].
  destruct (_ || _); [|destruct (_ || _)];
    match goal with
    | |- listed (Coverage.add_reason ?c ?e) = _ =>
        change (listed (Coverage.add_reason c e)) with
          (listed (Coverage.add_reason c (Coverage.exclude (item ++ " - " ++ reason) a)))
    end; rewrite listed_exclude; lia.
Qed.

Lemma check_medicine_listed (deficiency : bool) (a : Coverage.Acc) (med : string) :
  listed (Coverage.check_medicine deficiency a med) = (listed a + named [med])%nat.
Proof.
  rewrite named_step. unfold Coverage.check_medicine.
  destruct (PyStr.truthy med); cbn [negb]; [|lia].
  destruct (_ || _); [destruct deficiency|]; rewrite listed_cover; lia.
Qed.

Lemma check_test_listed (claim_amount : Q) (pre_auth : bool) (a : Coverage.Acc)
      (test : string) :
  listed (Coverage.check_test claim_amount pre_auth a test) = (listed a + named [test])%nat.
Proof.
  rewrite named_step. unfold Coverage.check_test.
  destruct (PyStr.truthy test); cbn [negb]; [|lia].
  destruct (PolicyTools.check_pre_authorization_required test claim_amount);
    [|rewrite listed_cover; reflexivity || lia].
  destruct (negb pre_auth).
  - rewrite exclude_add_reason_swap, listed_exclude. unfold listed. unfold_acc. lia.
  - rewrite listed_cover. unfold listed. unfold_acc. lia.
Qed.

Lemma named_app (xs ys : list string) : named (xs ++ ys) = (named xs + named ys)%nat.
Proof. unfold named. now rewrite filter_app, length_app. Qed.

Lemma fold_left_listed (f : Coverage.Acc -> string -> Coverage.Acc) (l : list string) :
  (forall a x, listed (f a x) = (listed a + named [x])%nat) ->
  forall a, listed (fold_left f l a) = (listed a + named l)%nat.
Proof.
  intros Hstep. induction l as [|x l IH]; intros a; cbn [fold_left].
  - unfold named. cbn. lia.
  - rewrite IH, Hstep. change (x :: l) with ([x] ++ l)%list. rewrite named_app. lia.
Qed.

(** X8. [validate_coverage] accounts for every named entry exactly once:
    the covered and the excluded items together are as many as the
    non-empty strings among treatments, procedures, the diagnosis,
    medicines and tests. *)
Theorem coverage_lists_account_for_every_entry
        (policy : PolicyTerms) (diagnosis : string)
        (treatments procedures medicines tests : list string)
        (claim_amount : Q) (category : option string) (pre_auth : bool) :
  let r := Coverage.validate_coverage policy diagnosis treatments procedures medicines
                                      tests claim_amount category pre_auth in
  (List.length (Coverage.covered_items r) + List.length (Coverage.excluded_items r))%nat
  = List.length (filter PyStr.truthy
                        (treatments ++ procedures ++ [diagnosis] ++ medicines ++ tests)).
Proof.
  intros r.
  destruct (validate_coverage_lists policy diagnosis treatments procedures medicines tests
                                    claim_amount category pre_auth) as (Hc & He & _).
  fold r in Hc, He. rewrite Hc, He.
  change (listed (coverage_acc policy diagnosis treatments procedures medicines tests
                               claim_amount pre_auth)
          = named (treatments ++ procedures ++ [diagnosis] ++ medicines ++ tests)).
  unfold coverage_acc.
  rewrite (fold_left_listed _ _ (check_test_listed claim_amount pre_auth)).
  rewrite (fold_left_listed _ _ (check_medicine_listed _)).
  rewrite (fold_left_listed _ _ (check_item_listed policy diagnosis)).
  rewrite !named_app, (named_step diagnosis).
  destruct (PyStr.truthy diagnosis) eqn:Hd.
  - rewrite (named_step diagnosis), Hd. unfold listed. cbn. lia.
  - unfold listed, named. cbn. lia.
Qed.

(** *** What the three loops keep *)

Lemma check_medicine_covered (deficiency : bool) (a : Coverage.Acc) (med : string) :
  (forall x, In x (Coverage.acc_covered a) ->
             In x (Coverage.acc_covered (Coverage.check_medicine deficiency a med)))
  /\ (PyStr.truthy med = true ->
      In med (Coverage.acc_covered (Coverage.check_medicine deficiency a med)))
  /\ Coverage.acc_excluded (Coverage.check_medicine deficiency a med)
     = Coverage.acc_excluded a
  /\ Coverage.acc_reasons (Coverage.check_medicine deficiency a med)
     = Coverage.acc_reasons a
  /\ Coverage.acc_pre_auth_required (Coverage.check_medicine deficiency a med)
     = Coverage.acc_pre_auth_required a.
Proof.
  unfold Coverage.check_medicine.
  destruct (PyStr.truthy med); cbn [negb]; [|repeat split; auto; discriminate].
  destruct (_ || _); [destruct deficiency|]; unfold_acc;
    (repeat split; [intros x Hx; apply in_or_app; now left
                   | intros _; apply in_or_app; right; now left]).
Qed.

Lemma medicine_loop (deficiency : bool) (medicines : list string) (a : Coverage.Acc) :
  let a' := fold_left (Coverage.check_medicine deficiency) medicines a in
  (forall x, In x (Coverage.acc_covered a) -> In x (Coverage.acc_covered a'))
  /\ (forall med, In med medicines -> PyStr.truthy med = true ->
                  In med (Coverage.acc_covered a'))
  /\ Coverage.acc_excluded a' = Coverage.acc_excluded a
  /\ Coverage.acc_reasons a' = Coverage.acc_reasons a
  /\ Coverage.acc_pre_auth_required a' = Coverage.acc_pre_auth_required a.
Proof.
  revert a. induction medicines as [|m medicines IH]; intros a; cbn [fold_left].
  - repeat split; auto. intros med [].
  - destruct (check_medicine_covered deficiency a m) as (K1 & A1 & E1 & R1 & P1).
    destruct (IH (Coverage.check_medicine deficiency a m)) as (K2 & A2 & E2 & R2 & P2).
    repeat split; try congruence; auto.
    intros med [<-|Hin] Ht; auto.
Qed.

Lemma check_test_covered (claim_amount : Q) (pre_auth : bool) (a : Coverage.Acc)
      (test : string) :
  forall x, In x (Coverage.acc_covered a) ->
            In x (Coverage.acc_covered (Coverage.check_test claim_amount pre_auth a test)).
Proof.
  intros x Hx. unfold Coverage.check_test.
  destruct (negb (PyStr.truthy test)); [assumption|].
  destruct (PolicyTools.check_pre_authorization_required test claim_amount);
    [destruct (negb pre_auth)|]; unfold_acc; try assumption; apply in_or_app; now left.
Qed.

Lemma test_loop_covered (claim_amount : Q) (pre_auth : bool) (tests : list string)
      (a : Coverage.Acc) :
  forall x, In x (Coverage.acc_covered a) ->
            In x (Coverage.acc_covered
                    (fold_left (Coverage.check_test claim_amount pre_auth) tests a)).
Proof.
  revert a. induction tests as [|t tests IH]; intros a x Hx; cbn [fold_left];
    [assumption|]. apply IH. now apply check_test_covered.
Qed.

(** X9. Every named medicine is covered: whatever the diagnosis, the
    policy or the other entries, each non-empty medicine handed to
    [validate_coverage] is among the covered items, vitamins and
    supplements included, and the loop over medicines excludes nothing. *)
Theorem every_named_medicine_is_covered
        (policy : PolicyTerms) (diagnosis : string)
        (treatments procedures medicines tests : list string)
        (claim_amount : Q) (category : option string) (pre_auth : bool) (med : string) :
  In med medicines ->
  PyStr.truthy med = true ->
  In med (Coverage.covered_items
            (Coverage.validate_coverage policy diagnosis treatments procedures medicines
                                        tests claim_amount category pre_auth)).
Proof.
  intros Hin Ht.
  destruct (validate_coverage_lists policy diagnosis treatments procedures medicines tests
                                    claim_amount category pre_auth) as (Hc & _).
  rewrite Hc. unfold coverage_acc. apply test_loop_covered.
  now apply medicine_loop.
Qed.

Lemma every_named_medicine_is_covered_witness :
  In "Vitamin D3 supplement" ["Paracetamol"; "Vitamin D3 supplement"]
  /\ PyStr.truthy "Vitamin D3 supplement" = true
  /\ In "Vitamin D3 supplement"
        (Coverage.covered_items
           (Coverage.validate_coverage empty_policy "General wellness check" [] []
              ["Paracetamol"; "Vitamin D3 supplement"] [] 1500 None false)).
Proof.
  assert (H1 : In "Vitamin D3 supplement" ["Paracetamol"; "Vitamin D3 supplement"])
    by (right; left; reflexivity).
  assert (H2 : PyStr.truthy "Vitamin D3 supplement" = true) by reflexivity.
  split; [exact H1|]. split; [exact H2|].
  apply (@every_named_medicine_is_covered empty_policy "General wellness check" [] []
           ["Paracetamol"; "Vitamin D3 supplement"] [] 1500 None false
           "Vitamin D3 supplement" H1 H2).
Defined.

(** *** Pre-authorization *)

Lemma check_item_no_pre_auth (policy : PolicyTerms) (diagnosis : string) (a : Coverage.Acc)
      (item : string) :
  let a' := Coverage.check_item policy diagnosis a item in
  (~ In "PRE_AUTH_MISSING" (Coverage.acc_reasons a) ->
   ~ In "PRE_AUTH_MISSING" (Coverage.acc_reasons a'))
  /\ Coverage.acc_pre_auth_required a' = Coverage.acc_pre_auth_required a.
Proof.
  unfold Coverage.check_item.
  destruct (negb (PyStr.truthy item)); [now auto|].
  destruct (PyStr.any_in _ _); [now auto|].
  destruct (PolicyTools.check_exclusions policy item diagnosis) as [[] reason];
    [|now auto].
  destruct (_ || _); [|destruct (_ || _)]; unfold_acc;
    (split; [|reflexivity]); intros Hno;
    match goal with
    | |- ~ In _ (if ?b then _ else _) => destruct b; [assumption|]
    end;
    intros Hin; apply in_app_or in Hin; destruct Hin as [Hin|[Heq|[]]];
    try contradiction; discriminate Heq.
Qed.

Lemma check_test_without_pre_auth_issue (claim_amount : Q) (pre_auth : bool)
      (a : Coverage.Acc) (test : string) :
  claim_amount <= 10000 \/ pre_auth = true ->
  let a' := Coverage.check_test claim_amount pre_auth a test in
  Coverage.acc_reasons a' = Coverage.acc_reasons a
  /\ Coverage.acc_excluded a' = Coverage.acc_excluded a
  /\ (PyStr.truthy test = true -> In test (Coverage.acc_covered a'))
  /\ (claim_amount <= 10000 ->
      Coverage.acc_pre_auth_required a' = Coverage.acc_pre_auth_required a).
Proof.
  intros H. unfold Coverage.check_test.
  destruct (PyStr.truthy test); cbn [negb]; [|repeat split; auto; discriminate].
  rewrite pre_authorization_required_iff.
  destruct (Money.gtb claim_amount 10000) eqn:Hgt.
  - apply MoneyFacts.gtb_spec in Hgt.
    destruct H as [Hle|Hpa]; [lra|]. rewrite Hpa.
    destruct (PyStr.any_in _ _); cbn [andb negb]; unfold_acc;
      repeat split;
      solve [intros _; apply in_or_app; right; now left | intros Hle; lra].
  - rewrite andb_false_r. unfold_acc.
    repeat split. intros _. apply in_or_app. right. now left.
Qed.

Lemma test_loop_without_pre_auth_issue (claim_amount : Q) (pre_auth : bool)
      (tests : list string) (a : Coverage.Acc) :
  claim_amount <= 10000 \/ pre_auth = true ->
  let a' := fold_left (Coverage.check_test claim_amount pre_auth) tests a in
  Coverage.acc_reasons a' = Coverage.acc_reasons a
  /\ Coverage.acc_excluded a' = Coverage.acc_excluded a
  /\ (forall test, In test tests -> PyStr.truthy test = true ->
                   In test (Coverage.acc_covered a'))
  /\ (claim_amount <= 10000 ->
      Coverage.acc_pre_auth_required a' = Coverage.acc_pre_auth_required a).
Proof.
  intros H. revert a. induction tests as [|t tests IH]; intros a; cbn [fold_left].
  - repeat split. intros test [].
  - destruct (@check_test_without_pre_auth_issue claim_amount pre_auth a t H)
      as (R1 & E1 & C1 & P1).
    destruct (IH (Coverage.check_test claim_amount pre_auth a t)) as (R2 & E2 & C2 & P2).
    repeat split; try congruence.
    + intros test [<-|Hin] Ht; [|now apply C2].
      apply test_loop_covered. now apply C1.
    + intros Hle. rewrite (P2 Hle). now apply P1.
Qed.

(** X10. Pre-authorization is an issue only above 10,000 and only when it
    was not obtained: if the claim amount is at most 10,000, or
    [validate_coverage] is told that pre-authorization was obtained, then
    PRE_AUTH_MISSING is not raised and every named test is covered; at or
    below 10,000 the result does not even report pre-authorization as
    required. *)
Theorem no_pre_auth_issue_below_threshold_or_when_obtained
        (policy : PolicyTerms) (diagnosis : string)
        (treatments procedures medicines tests : list string)
        (claim_amount : Q) (category : option string) (pre_auth : bool) :
  claim_amount <= 10000 \/ pre_auth = true ->
  let r := Coverage.validate_coverage policy diagnosis treatments procedures medicines
                                      tests claim_amount category pre_auth in
  ~ In "PRE_AUTH_MISSING" (Coverage.rejection_reasons r)
  /\ (forall test, In test tests -> PyStr.truthy test = true ->
                   In test (Coverage.covered_items r))
  /\ (claim_amount <= 10000 -> Coverage.pre_auth_required r = false).
Proof.
  intros H r.
  destruct (validate_coverage_lists policy diagnosis treatments procedures medicines tests
                                    claim_amount category pre_auth)
    as (Hc & _ & Hr & Hp & _).
  fold r in Hc, Hr, Hp. rewrite Hc, Hr, Hp. unfold coverage_acc.
  set (a0 := {| Coverage.acc_covered := []; Coverage.acc_excluded := [];
                Coverage.acc_reasons := []; Coverage.acc_pre_auth_required := false |}).
  set (a1 := fold_left (Coverage.check_item policy diagnosis) _ a0).
  set (a2 := fold_left (Coverage.check_medicine _) medicines a1).
  assert (H1 : ~ In "PRE_AUTH_MISSING" (Coverage.acc_reasons a1)
               /\ Coverage.acc_pre_auth_required a1 = false).
  { unfold a1.
    apply (fold_left_invariant
             (fun a => ~ In "PRE_AUTH_MISSING" (Coverage.acc_reasons a)
                       /\ Coverage.acc_pre_auth_required a = false)).
    - intros a x [Hno Hp0]. destruct (check_item_no_pre_auth policy diagnosis a x) as [N P].
      split; [now apply N | now rewrite P].
    - split; [intros [] | reflexivity]. }
  destruct (medicine_loop
              (PyStr.any_in ["deficiency"; "anemia"; "scurvy"; "rickets"; "malnutrition"]
                            (PyStr.lower diagnosis)) medicines a1)
    as (_ & _ & _ & R2 & P2).
  fold a2 in R2, P2.
  destruct (@test_loop_without_pre_auth_issue claim_amount pre_auth tests a2 H)
    as (R3 & _ & C3 & P3).
  destruct H1 as [Hno Hp1].
  split; [now rewrite R3, R2|]. split; [exact C3|].
  intros Hle. now rewrite (P3 Hle), P2.
Qed.

Lemma no_pre_auth_issue_below_threshold_or_when_obtained_witness :
  (15000 <= 10000 \/ true = true)
  /\ In "MRI Lumbar Spine"
        (Coverage.covered_items
           (Coverage.validate_coverage empty_policy "Back pain" [] [] []
                                       ["MRI Lumbar Spine"] 15000 None true)).
Proof.
  assert (H : 15000 <= 10000 \/ true = true) by (right; reflexivity).
  split; [exact H|].
  destruct (@no_pre_auth_issue_below_threshold_or_when_obtained
              empty_policy "Back pain" [] [] [] ["MRI Lumbar Spine"] 15000 None true H)
    as (_ & Hcov & _).
  apply Hcov; [left; reflexivity | reflexivity].
Defined.

(** *** Alternative medicine *)

Lemma check_item_alternative_diagnosis (policy : PolicyTerms) (diagnosis : string)
      (a : Coverage.Acc) (item : string) :
  PyStr.any_in PolicyTools.alt_medicine_keywords (PyStr.lower diagnosis) = true ->
  let a' := Coverage.check_item policy diagnosis a item in
  Coverage.acc_excluded a' = Coverage.acc_excluded a
  /\ Coverage.acc_reasons a' = Coverage.acc_reasons a.
Proof.
  intros Halt. unfold Coverage.check_item.
  destruct (negb (PyStr.truthy item)); [now auto|].
  destruct (PyStr.any_in _ (PyStr.lower item)); [now auto|].
  rewrite alternative_medicine_not_excluded; [now auto|].
  rewrite Halt. apply orb_true_r.
Qed.

Lemma check_test_only_pre_auth (claim_amount : Q) (pre_auth : bool) (a : Coverage.Acc)
      (test : string) :
  incl (Coverage.acc_reasons a) ["PRE_AUTH_MISSING"] ->
  incl (Coverage.acc_reasons (Coverage.check_test claim_amount pre_auth a test))
       ["PRE_AUTH_MISSING"].
Proof.
  intros Ha. unfold Coverage.check_test.
  destruct (negb (PyStr.truthy test)); [assumption|].
  destruct (PolicyTools.check_pre_authorization_required test claim_amount);
    [destruct (negb pre_auth)|]; unfold_acc; try assumption.
  destruct (PyStr.mem _ _); [assumption|].
  intros x Hx. apply in_app_or in Hx. destruct Hx as [Hx|[<-|[]]];
    [now apply Ha | now left].
Qed.

(** X11. A diagnosis that names an alternative system of medicine
    (ayurveda, ayurvedic, homeopathy, unani, panchakarma, yoga therapy)
    shields the whole claim from the exclusion lists: no treatment,
    procedure or medicine is excluded, whatever exclusion keywords they or
    the policy contain; the only entries that can still be excluded are
    tests lacking pre-authorization, so a claim of at most 10,000 is fully
    covered. *)
Theorem alternative_diagnosis_shields_from_exclusions
        (policy : PolicyTerms) (diagnosis : string)
        (treatments procedures medicines tests : list string)
        (claim_amount : Q) (category : option string) (pre_auth : bool) :
  PyStr.any_in ["ayurveda"; "ayurvedic"; "homeopathy"; "unani"; "panchakarma";
                "yoga therapy"] (PyStr.lower diagnosis) = true ->
  let r := Coverage.validate_coverage policy diagnosis treatments procedures medicines
                                      tests claim_amount category pre_auth in
  incl (Coverage.rejection_reasons r) ["PRE_AUTH_MISSING"]
  /\ (claim_amount <= 10000 \/ pre_auth = true ->
      Coverage.is_covered r = true /\ Coverage.excluded_items r = []).
Proof.
  intros Halt r.
  destruct (validate_coverage_lists policy diagnosis treatments procedures medicines tests
                                    claim_amount category pre_auth)
    as (_ & He & Hr & _ & Hc & _).
  fold r in He, Hr, Hc. rewrite He, Hr, Hc. unfold coverage_acc.
  set (a0 := {| Coverage.acc_covered := []; Coverage.acc_excluded := [];
                Coverage.acc_reasons := []; Coverage.acc_pre_auth_required := false |}).
  set (a1 := fold_left (Coverage.check_item policy diagnosis) _ a0).
  set (a2 := fold_left (Coverage.check_medicine _) medicines a1).
  assert (H1 : Coverage.acc_excluded a1 = [] /\ Coverage.acc_reasons a1 = []).
  { unfold a1.
    apply (fold_left_invariant
             (fun a => Coverage.acc_excluded a = [] /\ Coverage.acc_reasons a = [])).
    - intros a x [E R].
      destruct (@check_item_alternative_diagnosis policy diagnosis a x Halt) as [E' R'].
      split; congruence.
    - split; reflexivity. }
  destruct H1 as [E1 R1].
  destruct (medicine_loop
              (PyStr.any_in ["deficiency"; "anemia"; "scurvy"; "rickets"; "malnutrition"]
                            (PyStr.lower diagnosis)) medicines a1)
    as (_ & _ & E2 & R2 & _).
  fold a2 in E2, R2. rewrite E1 in E2. rewrite R1 in R2.
  split.
  - apply (fold_left_invariant
             (fun a => incl (Coverage.acc_reasons a) ["PRE_AUTH_MISSING"])).
    + intros a t Ha. now apply check_test_only_pre_auth.
    + rewrite R2. intros x [].
  - intros H.
    destruct (@test_loop_without_pre_auth_issue claim_amount pre_auth tests a2 H)
      as (R3 & E3 & _).
    rewrite R3, E3, R2, E2. split; reflexivity.
Qed.

Lemma alternative_diagnosis_shields_from_exclusions_witness :
  PyStr.any_in ["ayurveda"; "ayurvedic"; "homeopathy"; "unani"; "panchakarma";
                "yoga therapy"]
               (PyStr.lower "Obesity management through Panchakarma") = true
  /\ Coverage.is_covered
       (Coverage.validate_coverage empty_policy "Obesity management through Panchakarma"
          ["Diet plan package"] [] [] [] 4000 None false) = true.
Proof.
  assert (H : PyStr.any_in ["ayurveda"; "ayurvedic"; "homeopathy"; "unani"; "panchakarma";
                            "yoga therapy"]
                           (PyStr.lower "Obesity management through Panchakarma") = true)
    by reflexivity.
  split; [exact H|].
  destruct (@alternative_diagnosis_shields_from_exclusions
              empty_policy "Obesity management through Panchakarma"
              ["Diet plan package"] [] [] [] 4000 None false H) as [_ Hcov].
  apply Hcov. left. vm_compute. discriminate.
Defined.

(** ** Limit calculation: rejections, the assistant, deductions *)

Lemma hard_limit_codes (b1 b2 : bool) :
  let codes := ((if b1 then ["PER_CLAIM_EXCEEDED"] else [])
                ++ (if b2 then ["ANNUAL_LIMIT_EXCEEDED"] else []))%list in
  (In "PER_CLAIM_EXCEEDED" codes <-> b1 = true)
  /\ (In "ANNUAL_LIMIT_EXCEEDED" codes <-> b2 = true)
  /\ (Nat.eqb (List.length codes) 0 = true <-> b1 = false /\ b2 = false)
  /\ ~ In "SUB_LIMIT_EXCEEDED" codes
  /\ ~ In "BELOW_MIN_AMOUNT" codes
  /\ NoDup codes.
Proof.
  destruct b1, b2; cbn [app List.length Nat.eqb In];
    (split; [split; intros H; intuition (try reflexivity; try discriminate)|]);
    (split; [split; intros H; intuition (try reflexivity; try discriminate)|]);
    (split; [split; intros H; intuition (try reflexivity; try discriminate)|]);
    (split; [intros H; intuition discriminate|]);
    (split; [intros H; intuition discriminate|]);
    repeat constructor; cbn [In]; intuition discriminate.
Qed.

Lemma limit_codes (policy : PolicyTerms) (claim : Q)
      (category hospital_name : option string) (excluded ytd : Q) (sub_limit : option Q) :
  PolicyTools.get_minimum_claim_amount policy <= claim ->
  let r := Limits.calculate_limits policy claim category hospital_name excluded ytd
                                   sub_limit in
  NoDup (Limits.rejection_reasons r)
  /\ incl (Limits.rejection_reasons r) ["PER_CLAIM_EXCEEDED"; "ANNUAL_LIMIT_EXCEEDED"]
  /\ ~ In "BELOW_MIN_AMOUNT" (Limits.rejection_reasons r).
Proof.
  intros Hmin r. unfold r, Limits.calculate_limits.
  apply MoneyFacts.ltb_false in Hmin. rewrite Hmin.
  cbn [Limits.rejection_reasons].
  destruct (hard_limit_codes
              (Money.gtb (claim - excluded) (PolicyTools.get_per_claim_limit policy))
              (Money.gtb (claim - excluded) (PolicyTools.get_annual_limit policy - ytd)))
    as (_ & _ & _ & _ & Hbelow & Hnd).
  split; [exact Hnd|]. split; [|exact Hbelow].
  destruct (Money.gtb _ _), (Money.gtb _ _); cbn [app]; intros x Hx; cbn [In] in *;
    intuition.
Qed.

(** X12. For a claim at or above the minimum amount, the result of
    [calculate_limits] carries PER_CLAIM_EXCEEDED exactly when the eligible
    amount it records is above the per-claim limit it records, and
    ANNUAL_LIMIT_EXCEEDED exactly when its annual flag is set, which, when
    nothing was claimed earlier in the year, is when the eligible amount is
    above the annual limit; the claim is within limits exactly when there
    is no code.  Exceeding the sub-limit is flagged but never becomes a
    rejection code.  With nothing excluded the eligible amount is the
    claim amount. *)
Theorem limit_rejections_follow_the_hard_limits
        (policy : PolicyTerms) (claim : Q) (category hospital_name : option string)
        (excluded ytd : Q) (sub_limit : option Q) :
  PolicyTools.get_minimum_claim_amount policy <= claim ->
  let r := Limits.calculate_limits policy claim category hospital_name excluded ytd
                                   sub_limit in
  exists d,
    Limits.details r = Some d
    /\ Limits.per_claim_limit d = PolicyTools.get_per_claim_limit policy
    /\ Limits.annual_limit d = PolicyTools.get_annual_limit policy
    /\ Limits.applicable_sub_limit d = Limits.resolve_sub_limit policy category sub_limit
    /\ (excluded == 0 -> Limits.eligible_amount d == claim)
    /\ (In "PER_CLAIM_EXCEEDED" (Limits.rejection_reasons r)
        <-> Limits.per_claim_limit d < Limits.eligible_amount d)
    /\ (In "PER_CLAIM_EXCEEDED" (Limits.rejection_reasons r)
        <-> Limits.per_claim_exceeded d = true)
    /\ (In "ANNUAL_LIMIT_EXCEEDED" (Limits.rejection_reasons r)
        <-> Limits.annual_limit_exceeded d = true)
    /\ (ytd == 0 ->
        (In "ANNUAL_LIMIT_EXCEEDED" (Limits.rejection_reasons r)
         <-> Limits.annual_limit d < Limits.eligible_amount d))
    /\ (Limits.within_limits r = true <-> Limits.rejection_reasons r = [])
    /\ ~ In "SUB_LIMIT_EXCEEDED" (Limits.rejection_reasons r)
    /\ ~ In "BELOW_MIN_AMOUNT" (Limits.rejection_reasons r)
    /\ NoDup (Limits.rejection_reasons r)
    /\ (Limits.sub_limit_exceeded d = true
        <-> Limits.applicable_sub_limit d < Limits.eligible_amount d).
Proof.
  intros Hmin r. unfold r, Limits.calculate_limits.
  apply MoneyFacts.ltb_false in Hmin. rewrite Hmin.
  eexists. cbn [Limits.details]. split; [reflexivity|].
  cbn [Limits.rejection_reasons Limits.within_limits Limits.per_claim_limit
       Limits.annual_limit Limits.applicable_sub_limit Limits.eligible_amount
       Limits.per_claim_exceeded Limits.annual_limit_exceeded
       Limits.sub_limit_exceeded].
  set (eligible := claim - excluded).
  destruct (hard_limit_codes
              (Money.gtb eligible (PolicyTools.get_per_claim_limit policy))
              (Money.gtb eligible (PolicyTools.get_annual_limit policy - ytd)))
    as (Hper & Hann & Hwithin & Hsub & Hbelow & Hnd).
  split; [reflexivity|]. split; [reflexivity|]. split; [reflexivity|].
  split; [intros Hzero; unfold eligible; lra|].
  split; [rewrite Hper; apply MoneyFacts.gtb_spec|].
  split; [exact Hper|].
  split; [exact Hann|].
  split.
  { intros Hzero. rewrite Hann, MoneyFacts.gtb_spec. split; intros H; lra. }
  split.
  { rewrite Hwithin.
    destruct (Money.gtb eligible (PolicyTools.get_per_claim_limit policy)),
             (Money.gtb eligible (PolicyTools.get_annual_limit policy - ytd));
      cbn [app]; split; intros H; try reflexivity; try discriminate;
      try (destruct H; discriminate); split; reflexivity. }
  split; [assumption|]. split; [assumption|]. split; [assumption|].
  apply MoneyFacts.gtb_spec.
Qed.

Lemma limit_rejections_follow_the_hard_limits_witness :
  PolicyTools.get_minimum_claim_amount empty_policy <= 7500
  /\ In "PER_CLAIM_EXCEEDED"
        (Limits.rejection_reasons
           (Limits.calculate_limits empty_policy 7500 (Some "pharmacy") None 0 0 None)).
Proof.
  assert (H : PolicyTools.get_minimum_claim_amount empty_policy <= 7500)
    by (vm_compute; discriminate).
  split; [exact H|].
  destruct (@limit_rejections_follow_the_hard_limits
              empty_policy 7500 (Some "pharmacy") None 0 0 None H)
    as (d & Hd & _ & _ & _ & _ & Hper & _).
  apply Hper. vm_compute in Hd. injection Hd as <-. vm_compute. reflexivity.
Defined.

Lemma calculate_limits_details (policy : PolicyTerms) (claim : Q)
      (category hospital_name : option string) (excluded ytd : Q) (sub_limit : option Q) :
  PolicyTools.get_minimum_claim_amount policy <= claim ->
  exists d,
    Limits.details (Limits.calculate_limits policy claim category hospital_name excluded
                                             ytd sub_limit) = Some d
    /\ Limits.per_claim_exceeded d
       = Money.gtb (claim - excluded) (PolicyTools.get_per_claim_limit policy)
    /\ Limits.sub_limit_exceeded d
       = Money.gtb (claim - excluded)
                   (Limits.resolve_sub_limit policy category sub_limit).
Proof.
  intros Hmin. unfold Limits.calculate_limits.
  apply MoneyFacts.ltb_false in Hmin. rewrite Hmin.
  eexists. cbn [Limits.details]. split; [reflexivity|]. split; reflexivity.
Qed.

Lemma within_limits_per_claim (policy : PolicyTerms) (claim : Q)
      (category hospital_name : option string) (excluded ytd : Q) (sub_limit : option Q) :
  PolicyTools.get_minimum_claim_amount policy <= claim ->
  Money.gtb (claim - excluded) (PolicyTools.get_per_claim_limit policy) = true ->
  Limits.within_limits (Limits.calculate_limits policy claim category hospital_name
                                                excluded ytd sub_limit) = false.
Proof.
  intros Hmin Hper. unfold Limits.calculate_limits.
  apply MoneyFacts.ltb_false in Hmin. rewrite Hmin.
  cbn [Limits.within_limits]. rewrite Hper. now destruct (Money.gtb _ _).
Qed.

(** The wrapper once the claim is known to reach the minimum amount:
    the three tests it makes, on the amounts themselves. *)
Lemma calculate_limits_with_agent_above_minimum (policy : PolicyTerms)
      (agent : AgentOutcome) (claim_data : ClaimData)
      (coverage_result : Coverage.CoverageResult) :
  let excluded :=
    Limits.excluded_amount_of claim_data (Coverage.excluded_items coverage_result) in
  let eligible := claim_amount claim_data - excluded in
  let rule_based :=
    Limits.calculate_limits policy (claim_amount claim_data)
      (Some (Coverage.category coverage_result)) (hospital claim_data) excluded
      (previous_claims_ytd claim_data)
      (Some (Coverage.applicable_sub_limit coverage_result)) in
  PolicyTools.get_minimum_claim_amount policy <= claim_amount claim_data ->
  Limits.calculate_limits_with_agent policy agent claim_data coverage_result
  = Ok (if Money.gtb eligible (PolicyTools.get_per_claim_limit policy) then rule_based
        else if Money.gtb excluded 0
                || Money.gtb eligible (Coverage.applicable_sub_limit coverage_result)
        then match agent with
             | AgentJson (Some amount) conf =>
                 {| Limits.within_limits := Limits.within_limits rule_based;
                    Limits.claim_amount := Limits.claim_amount rule_based;
                    Limits.approved_amount := amount;
                    Limits.rejection_reasons := Limits.rejection_reasons rule_based;
                    Limits.confidence_score := get_default conf (92 # 100);
                    Limits.details := Limits.details rule_based |}
             | _ => rule_based
             end
        else rule_based).
Proof.
  intros excluded eligible rule_based Hmin.
  unfold Limits.calculate_limits_with_agent. fold excluded. fold rule_based.
  destruct (@calculate_limits_details policy (claim_amount claim_data)
              (Some (Coverage.category coverage_result)) (hospital claim_data) excluded
              (previous_claims_ytd claim_data)
              (Some (Coverage.applicable_sub_limit coverage_result)) Hmin)
    as (d & Hd & Hper & Hsub).
  fold rule_based in Hd. fold eligible in Hper, Hsub.
  cbn [Limits.resolve_sub_limit] in Hsub.
  unfold Limits.key. rewrite Hd. rewrite Hper, Hsub.
  destruct (Money.gtb eligible (PolicyTools.get_per_claim_limit policy)) eqn:Eper.
  - pose proof (@within_limits_per_claim policy (claim_amount claim_data)
                  (Some (Coverage.category coverage_result)) (hospital claim_data)
                  excluded (previous_claims_ytd claim_data)
                  (Some (Coverage.applicable_sub_limit coverage_result)) Hmin Eper)
      as Hw.
    fold rule_based in Hw. rewrite Hw. reflexivity.
  - assert (Hclear :
      (if negb (Limits.within_limits rule_based) then Ok false else Ok false)
      = (Ok false : outcome bool)) by now destruct (negb _).
    rewrite Hclear. cbn [bind].
    destruct (Money.gtb excluded 0); cbn [bind orb].
    + destruct agent as [|[amount|] conf]; reflexivity.
    + destruct (Money.gtb eligible (Coverage.applicable_sub_limit coverage_result));
        cbn [bind]; [|reflexivity].
      destruct agent as [|[amount|] conf]; reflexivity.
Qed.

Lemma limit_stage_failure (policy : PolicyTerms) (agent : AgentOutcome)
      (claim_data : ClaimData) (coverage_result : Coverage.CoverageResult) :
  (claim_amount claim_data < PolicyTools.get_minimum_claim_amount policy ->
   Limits.calculate_limits_with_agent policy agent claim_data coverage_result
   = Raised (KeyError "per_claim_exceeded"))
  /\ (PolicyTools.get_minimum_claim_amount policy <= claim_amount claim_data ->
      exists r, Limits.calculate_limits_with_agent policy agent claim_data coverage_result
                = Ok r).
Proof.
  split.
  - intros Hlt. unfold Limits.calculate_limits_with_agent.
    rewrite (@calculate_limits_short policy (claim_amount claim_data)
               (Some (Coverage.category coverage_result)) (hospital claim_data)
               (Limits.excluded_amount_of claim_data
                  (Coverage.excluded_items coverage_result))
               (previous_claims_ytd claim_data)
               (Some (Coverage.applicable_sub_limit coverage_result)) Hlt).
    reflexivity.
  - intros Hge.
    rewrite (@calculate_limits_with_agent_above_minimum policy agent claim_data
               coverage_result Hge).
    eexists. reflexivity.
Qed.

(** X13. For every reply of the assistant, [calculate_limits_with_agent]
    raises [KeyError('per_claim_exceeded')] exactly when the claim amount
    is below the policy's minimum claim amount, and returns a result
    exactly when it is not: the BELOW_MIN_AMOUNT result of
    [calculate_limits] never leaves the wrapper. *)
Theorem limit_stage_raises_exactly_below_minimum
        (policy : PolicyTerms) (agent : AgentOutcome) (claim_data : ClaimData)
        (coverage_result : Coverage.CoverageResult) :
  (Limits.calculate_limits_with_agent policy agent claim_data coverage_result
   = Raised (KeyError "per_claim_exceeded")
   <-> claim_amount claim_data < PolicyTools.get_minimum_claim_amount policy)
  /\ ((exists r, Limits.calculate_limits_with_agent policy agent claim_data coverage_result
                 = Ok r)
      <-> PolicyTools.get_minimum_claim_amount policy <= claim_amount claim_data)
  /\ (forall r, Limits.calculate_limits_with_agent policy agent claim_data coverage_result
                = Ok r ->
                ~ In "BELOW_MIN_AMOUNT" (Limits.rejection_reasons r)).
Proof.
  destruct (Qlt_le_dec (claim_amount claim_data)
                       (PolicyTools.get_minimum_claim_amount policy)) as [Hlt|Hge].
  - destruct (limit_stage_failure policy agent claim_data coverage_result)
      as [Hraise _].
    rewrite (Hraise Hlt). split; [|split].
    + split; [intros _; exact Hlt | reflexivity].
    + split; [intros [r Hr]; discriminate Hr | intros Hge; lra].
    + intros r Hr. discriminate Hr.
  - rewrite (@calculate_limits_with_agent_above_minimum policy agent claim_data
               coverage_result Hge).
    split; [|split].
    + split; [discriminate | intros Hlt; lra].
    + split; [intros _; exact Hge | intros _; eexists; reflexivity].
    + intros r Hr. injection Hr as <-.
      set (excluded := Limits.excluded_amount_of claim_data
                         (Coverage.excluded_items coverage_result)).
      destruct (@limit_codes policy (claim_amount claim_data)
                  (Some (Coverage.category coverage_result)) (hospital claim_data)
                  excluded (previous_claims_ytd claim_data)
                  (Some (Coverage.applicable_sub_limit coverage_result)) Hge)
        as (_ & _ & Hbelow).
      repeat match goal with
             | |- context [if ?b then _ else _] => destruct b
             end;
        try destruct agent as [|[amount|] conf]; cbn [Limits.rejection_reasons];
        exact Hbelow.
Qed.



Lemma excluded_item_amount_non_negative (claim_data : ClaimData) (item : string) :
  exclusion_lines_non_negative claim_data ->
  0 <= Limits.excluded_item_amount (bill (documents claim_data)) item.
Proof.
  intros Hlines. unfold Limits.excluded_item_amount.
  destruct (bill (documents claim_data)) as [b|] eqn:Hb.
  - destruct (Hlines b Hb) as (Hw & Hd & Hc).
    repeat match goal with
           | |- context [if ?c then _ else _] => destruct c
           end; lra.
  - repeat match goal with
           | |- context [if ?c then _ else _] => destruct c
           end; lra.
Qed.

Lemma excluded_amount_non_negative (claim_data : ClaimData) (items : list string) :
  exclusion_lines_non_negative claim_data ->
  0 <= Limits.excluded_amount_of claim_data items.
Proof.
  intros Hlines. unfold Limits.excluded_amount_of.
  assert (Hacc : forall acc, 0 <= acc ->
            0 <= fold_left
                   (fun acc item =>
                      acc + Limits.excluded_item_amount (bill (documents claim_data)) item)
                   items acc).
  { induction items as [|item items IH]; intros acc Hpos; cbn [fold_left].
    - exact Hpos.
    - apply IH.
      pose proof (@excluded_item_amount_non_negative claim_data item Hlines). lra. }
  apply Hacc. lra.
Qed.

(** X15. When the assistant is consulted (the bill lines that exclusions
    read are not negative, the claim amount lies between the minimum
    amount and the per-claim limit, and something was deducted for
    exclusions or the eligible amount exceeds the sub-limit), the amount
    of its reply replaces the rule-based approved amount as it is, and its
    confidence (0.92 when the reply has none) replaces the rule-based one;
    limits, flags and rejection codes stay those of [calculate_limits]. *)
Theorem assistant_amount_replaces_the_rule_based_amount
        (policy : PolicyTerms) (claim_data : ClaimData)
        (coverage_result : Coverage.CoverageResult) (amount : Q) (conf : option Q) :
  let excluded :=
    Limits.excluded_amount_of claim_data (Coverage.excluded_items coverage_result) in
  let eligible := claim_amount claim_data - excluded in
  let rule_based :=
    Limits.calculate_limits policy (claim_amount claim_data)
      (Some (Coverage.category coverage_result)) (hospital claim_data) excluded
      (previous_claims_ytd claim_data)
      (Some (Coverage.applicable_sub_limit coverage_result)) in
  exclusion_lines_non_negative claim_data ->
  PolicyTools.get_minimum_claim_amount policy <= claim_amount claim_data ->
  claim_amount claim_data <= PolicyTools.get_per_claim_limit policy ->
  0 < excluded \/ Coverage.applicable_sub_limit coverage_result < eligible ->
  exists r,
    Limits.calculate_limits_with_agent policy (AgentJson (Some amount) conf) claim_data
                                       coverage_result = Ok r
    /\ Limits.approved_amount r = amount
    /\ Limits.confidence_score r = get_default conf (92 # 100)
    /\ Limits.within_limits r = Limits.within_limits rule_based
    /\ Limits.rejection_reasons r = Limits.rejection_reasons rule_based
    /\ Limits.details r = Limits.details rule_based.
Proof.
  intros excluded eligible rule_based Hlines Hmin Hclaim Hcase.
  assert (Hper : eligible <= PolicyTools.get_per_claim_limit policy).
  { pose proof (@excluded_amount_non_negative claim_data
                  (Coverage.excluded_items coverage_result) Hlines) as Hpos.
    fold excluded in Hpos. unfold eligible. lra. }
  rewrite (@calculate_limits_with_agent_above_minimum
             policy (AgentJson (Some amount) conf) claim_data coverage_result Hmin).
  fold excluded. fold eligible. fold rule_based.
  apply MoneyFacts.gtb_false in Hper. rewrite Hper.
  assert (Hconsult :
    Money.gtb excluded 0
    || Money.gtb eligible (Coverage.applicable_sub_limit coverage_result) = true).
  { apply orb_true_iff. destruct Hcase as [H|H]; [left|right];
      now apply MoneyFacts.gtb_spec. }
  rewrite Hconsult. eexists. split; [reflexivity|]. repeat split.
Qed.

Lemma assistant_amount_replaces_the_rule_based_amount_witness :
  exclusion_lines_non_negative Cases.whitening_claim
  /\ PolicyTools.get_minimum_claim_amount empty_policy <= claim_amount Cases.whitening_claim
  /\ claim_amount Cases.whitening_claim <= PolicyTools.get_per_claim_limit empty_policy
  /\ 0 < Limits.excluded_amount_of Cases.whitening_claim
           (Coverage.excluded_items Cases.whitening_coverage)
  /\ exists r,
       Limits.calculate_limits_with_agent empty_policy (AgentJson (Some 9999) None)
         Cases.whitening_claim Cases.whitening_coverage = Ok r
       /\ Limits.approved_amount r = 9999.
Proof.
  assert (Hlines : exclusion_lines_non_negative Cases.whitening_claim).
  { intros b Hb. vm_compute in Hb. injection Hb as <-.
    repeat split; vm_compute; discriminate. }
  assert (Hmin : PolicyTools.get_minimum_claim_amount empty_policy
                 <= claim_amount Cases.whitening_claim)
    by (vm_compute; discriminate).
  assert (Hper : claim_amount Cases.whitening_claim
                 <= PolicyTools.get_per_claim_limit empty_policy)
    by (vm_compute; discriminate).
  assert (Hex : 0 < Limits.excluded_amount_of Cases.whitening_claim
                      (Coverage.excluded_items Cases.whitening_coverage))
    by (vm_compute; reflexivity).
  split; [exact Hlines|]. split; [exact Hmin|]. split; [exact Hper|]. split; [exact Hex|].
  destruct (@assistant_amount_replaces_the_rule_based_amount
              empty_policy Cases.whitening_claim Cases.whitening_coverage 9999 None
              Hlines Hmin Hper (or_introl Hex)) as (r & Hr & Ha & _).
  exists r. split; [exact Hr | exact Ha].
Defined.

(** ** Amounts taken out for excluded items *)

Lemma excluded_item_amount_zero (b : option Bill) (item : string) :
  (PyStr.contains "whitening" (PyStr.lower item) = false
   /\ PyStr.contains "diet" (PyStr.lower item) = false
   /\ PyStr.contains "cosmetic" (PyStr.lower item) = false)
  \/ (forall b', b = Some b' ->
        teeth_whitening b' = None /\ diet_plan b' = None /\ cosmetic b' = None) ->
  Limits.excluded_item_amount b item == 0.
Proof.
  intros H. unfold Limits.excluded_item_amount.
  destruct (negb (PyStr.truthy item)); [reflexivity|].
  destruct H as [(Hw & Hd & Hc) | Hb].
  - rewrite Hw, Hd, Hc.
    destruct (PyStr.contains "teeth whitening" (PyStr.lower item)) eqn:Htw.
    + pose proof (@contains_suffix_part "teeth " "whitening" (PyStr.lower item) Htw)
        as Hpart. congruence.
    + reflexivity.
  - destruct b as [b'|].
    + destruct (Hb b' eq_refl) as (Hw & Hd & Hc). rewrite Hw, Hd, Hc. cbn [get_default].
      repeat match goal with
             | |- context [if ?c then _ else _] => destruct c
             end; reflexivity.
    + repeat match goal with
             | |- context [if ?c then _ else _] => destruct c
             end; reflexivity.
Qed.

(** X16. Exclusions take money out of the claim only through the bill
    lines teeth_whitening, diet_plan and cosmetic, and only for items
    whose name contains whitening, diet or cosmetic: when no excluded item
    has such a name, or the bill has none of the three lines, the amount
    deducted for exclusions is zero whatever was excluded. *)
Theorem exclusions_deduct_only_three_bill_lines
        (claim_data : ClaimData) (excluded_items : list string) :
  (forall item, In item excluded_items ->
     PyStr.contains "whitening" (PyStr.lower item) = false
     /\ PyStr.contains "diet" (PyStr.lower item) = false
     /\ PyStr.contains "cosmetic" (PyStr.lower item) = false)
  \/ (forall b, bill (documents claim_data) = Some b ->
        teeth_whitening b = None /\ diet_plan b = None /\ cosmetic b = None) ->
  Limits.excluded_amount_of claim_data excluded_items == 0.
Proof.
  intros H. unfold Limits.excluded_amount_of.
  assert (Hitem : forall item, In item excluded_items ->
            Limits.excluded_item_amount (bill (documents claim_data)) item == 0).
  { intros item Hin. apply excluded_item_amount_zero.
    destruct H as [H|H]; [left; now apply H | right; exact H]. }
  clear H. generalize (Qeq_refl 0). generalize 0 at 1 3 as acc.
  induction excluded_items as [|item items IH]; intros acc Hacc; cbn [fold_left].
  - exact Hacc.
  - apply IH.
    + intros i Hi. apply Hitem. now right.
    + rewrite Hacc, (Hitem item (or_introl eq_refl)). reflexivity.
Qed.

Lemma exclusions_deduct_only_three_bill_lines_witness :
  (forall b, bill (documents Samples.scenario_claim) = Some b ->
     teeth_whitening b = None /\ diet_plan b = None /\ cosmetic b = None)
  /\ Limits.excluded_amount_of Samples.scenario_claim
       ["Teeth whitening - Cosmetic procedures/treatments"] == 0.
Proof.
  assert (H : forall b, bill (documents Samples.scenario_claim) = Some b ->
                teeth_whitening b = None /\ diet_plan b = None /\ cosmetic b = None).
  { intros b Hb. injection Hb as <-. repeat split. }
  split; [exact H|].
  exact (@exclusions_deduct_only_three_bill_lines
           Samples.scenario_claim ["Teeth whitening - Cosmetic procedures/treatments"]
           (or_intror H)).
Defined.
(** ** The fraud result and the decision tiers *)

Lemma risk_score_is_tally (current_year : Z) (claim_data : ClaimData) (same_day : Z)
      (ytd annual_limit : Q) :
  let tally :=
    FraudDetection.fraud_tally current_year claim_data same_day ytd annual_limit in
  let r := FraudDetection.check_fraud_indicators current_year claim_data same_day ytd
                                                 annual_limit in
  Qmin (snd tally) 1 == snd tally
  /\ FraudDetection.risk_score r == snd tally
  /\ 0 <= snd tally <= 95 # 100.
Proof.
  intros tally r.
  destruct (fraud_tally_ok current_year claim_data same_day ytd annual_limit)
    as (_ & _ & H0 & H1 & H2).
  fold tally in H0, H1, H2.
  assert (Hmin : Qmin (snd tally) 1 == snd tally) by (apply Q.min_l; lra).
  split; [exact Hmin|]. split; [|split; assumption].
  unfold r, FraudDetection.check_fraud_indicators. cbn [FraudDetection.risk_score].
  fold tally. rewrite Hmin. now apply MoneyFacts.round2_two_decimals.
Qed.

(** X17. The detector calls a claim suspicious exactly when its risk
    score is at least 0.35.  Every suspicious claim is recommended for
    manual review, and a claim that is recommended without being
    suspicious has raised at least three flags. *)
Theorem suspicious_claims_are_recommended_for_review
        (current_year : Z) (claim_data : ClaimData) (same_day : Z) (ytd annual_limit : Q) :
  let r := FraudDetection.check_fraud_indicators current_year claim_data same_day ytd
                                                 annual_limit in
  (FraudDetection.is_suspicious r = true <-> 35 # 100 <= FraudDetection.risk_score r)
  /\ (FraudDetection.is_suspicious r = true ->
      FraudDetection.recommend_manual_review r = true)
  /\ (FraudDetection.recommend_manual_review r = true ->
      FraudDetection.is_suspicious r = false ->
      (3 <= List.length (FraudDetection.fraud_flags r))%nat).
Proof.
  intros r.
  destruct (risk_score_is_tally current_year claim_data same_day ytd annual_limit)
    as (Hmin & Hrisk & _).
  fold r in Hrisk.
  assert (Hsusp : FraudDetection.is_suspicious r = true
                  <-> 35 # 100 <= snd (FraudDetection.fraud_tally
                                         current_year claim_data same_day ytd annual_limit)).
  { unfold r, FraudDetection.check_fraud_indicators. cbn [FraudDetection.is_suspicious].
    rewrite MoneyFacts.geb_spec, Hmin. reflexivity. }
  assert (Hrec : FraudDetection.recommend_manual_review r = true
                 <-> 35 # 100 <= snd (FraudDetection.fraud_tally
                                        current_year claim_data same_day ytd annual_limit)
                     \/ (3 <= List.length (FraudDetection.fraud_flags r))%nat).
  { unfold r, FraudDetection.check_fraud_indicators.
    cbn [FraudDetection.recommend_manual_review FraudDetection.fraud_flags].
    rewrite orb_true_iff, MoneyFacts.geb_spec, Nat.leb_le. reflexivity. }
  split; [|split].
  - rewrite Hsusp, Hrisk. reflexivity.
  - intros H. apply Hrec. left. now apply Hsusp.
  - intros H Hno. apply Hrec in H. destruct H as [H|H]; [|exact H].
    apply Hsusp in H. congruence.
Qed.

(** The second test of the review tier, on the rounded score, adds
    nothing to the detector's recommendation. *)
Lemma review_tier (current_year : Z) (claim_data : ClaimData) (same_day : Z)
      (ytd annual_limit : Q) :
  let r := FraudDetection.check_fraud_indicators current_year claim_data same_day ytd
                                                 annual_limit in
  FraudDetection.recommend_manual_review r
  || Money.geb (FraudDetection.risk_score r) (35 # 100)
  = FraudDetection.recommend_manual_review r.
Proof.
  intros r.
  destruct (risk_score_is_tally current_year claim_data same_day ytd annual_limit)
    as (_ & Hrisk & _).
  fold r in Hrisk.
  destruct (FraudDetection.recommend_manual_review r) eqn:Hrec; [reflexivity|].
  cbn [orb]. apply MoneyFacts.geb_false.
  unfold r, FraudDetection.check_fraud_indicators in Hrec.
  cbn [FraudDetection.recommend_manual_review] in Hrec.
  apply orb_false_iff in Hrec. destruct Hrec as [Hrec _].
  apply MoneyFacts.geb_false in Hrec. rewrite Hrisk. exact Hrec.
Qed.

Section DecisionFacts.
Variable current_year : Z.
Variable id : string.
Variable claim_data : ClaimData.
Variable extraction : ExtractionResult.
Variable eligibility : Eligibility.EligibilityResult.
Variable coverage : Coverage.CoverageResult.
Variable limits : Limits.LimitResult.

Let fraud : FraudDetection.FraudResult :=
  FraudDetection.check_fraud_indicators current_year claim_data
    (previous_claims_same_day claim_data) (previous_claims_ytd claim_data) 50000.

Let reasons : list string :=
  (Eligibility.rejection_reasons eligibility ++ Coverage.rejection_reasons coverage
   ++ Limits.rejection_reasons limits)%list.

Let result : Decision.AdjudicationResult :=
  Decision.make_decision current_year id claim_data extraction eligibility coverage limits.

Let rejected_outright : bool :=
  Decision.has_hard_rejection reasons
  || Decision.is_fully_excluded_service reasons (Coverage.covered_items coverage).

Lemma decision_of_make_decision :
  Decision.decision result
  = if rejected_outright then Decision.REJECTED
    else if FraudDetection.recommend_manual_review fraud then Decision.MANUAL_REVIEW
    else if negb (Nat.eqb (List.length (Coverage.excluded_items coverage)) 0)
            && (0 <? List.length (Coverage.covered_items coverage))%nat
    then Decision.PARTIAL
    else if Money.gtb (Limits.approved_amount limits) 0
    then if Money.geb (Limits.approved_amount limits)
                      (claim_amount claim_data * (80 # 100))
         then Decision.APPROVED else Decision.PARTIAL
    else Decision.REJECTED.
Proof.
  destruct (make_decision_fields current_year id claim_data extraction eligibility
                                 coverage limits) as (Hd & _).
  fold result in Hd. rewrite Hd. unfold Decision.decide.
  fold reasons. fold rejected_outright. fold fraud.
  unfold fraud at 1 2. rewrite review_tier. fold fraud.
  repeat match goal with
         | |- context [if ?b then _ else _] => destruct b
         end; reflexivity.
Qed.

(** X18. [make_decision] returns MANUAL_REVIEW exactly when no hard
    rejection applies (no hard code among the merged rejection codes, and
    not SERVICE_NOT_COVERED with nothing covered) and the fraud detector
    recommends manual review.  So a claim the detector recommends for review
    is never APPROVED or PARTIAL, whatever the amounts are. *)
Theorem manual_review_exactly_on_fraud_recommendation :
  (Decision.decision result = Decision.MANUAL_REVIEW
   <-> rejected_outright = false
       /\ FraudDetection.recommend_manual_review fraud = true)
  /\ (FraudDetection.recommend_manual_review fraud = true ->
      Decision.decision result = Decision.REJECTED
      \/ Decision.decision result = Decision.MANUAL_REVIEW).
Proof.
  rewrite decision_of_make_decision.
  destruct rejected_outright, (FraudDetection.recommend_manual_review fraud);
    (split; [split; [intros H | intros [H1 H2]] | intros H]);
    try discriminate; auto;
    repeat match goal with
           | H : context [if ?b then _ else _] |- _ => destruct b
           end; discriminate.
Qed.

(** X19. For a claim amount of moderate size, [make_decision] returns
    APPROVED only when no hard rejection applies, the fraud detector does
    not recommend manual review, the excluded and the covered list are not
    both non-empty, and the amount of the limit stage is positive and, up
    to a hundredth, at least 80% of the claim amount; it does return
    APPROVED when these hold with the amount a hundredth or more above 80%
    of the claim amount.  (The hundredth covers the rounding of the product
    of the claim amount and 0.80.)  Without hard rejection and without
    recommendation for review a positive amount is approved in full or in
    part.  The codes COSMETIC_PROCEDURE, EXCLUDED_CONDITION and
    ANNUAL_LIMIT_EXCEEDED do not stand in the way of an approval by
    themselves. *)
Theorem approval_conditions :
  Money.moderate (claim_amount claim_data) ->
  let threshold := claim_amount claim_data * (80 # 100) in
  (Decision.decision result = Decision.APPROVED ->
   rejected_outright = false
   /\ FraudDetection.recommend_manual_review fraud = false
   /\ (Coverage.excluded_items coverage = [] \/ Coverage.covered_items coverage = [])
   /\ 0 < Limits.approved_amount limits
   /\ threshold - (1 # 100) <= Limits.approved_amount limits)
  /\ (rejected_outright = false ->
      FraudDetection.recommend_manual_review fraud = false ->
      Coverage.excluded_items coverage = [] \/ Coverage.covered_items coverage = [] ->
      0 < Limits.approved_amount limits ->
      threshold + (1 # 100) <= Limits.approved_amount limits ->
      Decision.decision result = Decision.APPROVED)
  /\ (rejected_outright = false ->
      FraudDetection.recommend_manual_review fraud = false ->
      0 < Limits.approved_amount limits ->
      Decision.decision result = Decision.APPROVED
      \/ Decision.decision result = Decision.PARTIAL).
Proof.
  intros _ threshold. rewrite decision_of_make_decision. fold threshold.
  destruct (Money.gtb (Limits.approved_amount limits) 0) eqn:Hpos;
    [apply MoneyFacts.gtb_spec in Hpos | apply MoneyFacts.gtb_false in Hpos];
    (destruct (Money.geb (Limits.approved_amount limits) threshold) eqn:Hge;
     [apply MoneyFacts.geb_spec in Hge | apply MoneyFacts.geb_false in Hge]);
    destruct rejected_outright, (FraudDetection.recommend_manual_review fraud),
      (Coverage.excluded_items coverage) as [|x xs],
      (Coverage.covered_items coverage) as [|c cs];
    cbn [List.length Nat.eqb Nat.ltb Nat.leb negb andb];
    (split; [intros H; try discriminate H; repeat split; auto; lra|]);
    (split; [intros H1 H2 H3 H4 H5; try discriminate; try reflexivity;
             try lra; destruct H3 as [H3|H3]; discriminate H3|]);
    intros H1 H2 H3; try discriminate; try lra; auto.
Qed.
End DecisionFacts.

Lemma approval_conditions_witness :
  Money.moderate (claim_amount Samples.scenario_claim)
  /\ Decision.decision
       (Decision.make_decision 2024 "CLM_TEST_0001" Samples.scenario_claim
          (Workflow.extract_document_data Samples.run_2024 Samples.scenario_claim)
          (Eligibility.check_eligibility_with_agent empty_policy Samples.run_2024
             Samples.scenario_claim
             (Workflow.extract_document_data Samples.run_2024 Samples.scenario_claim))
          Cases.consultation_coverage
          (Limits.calculate_limits empty_policy 1500 (Some "consultation") None 0 0 None))
     = Decision.APPROVED.
Proof.
  assert (Hmod : Money.moderate (claim_amount Samples.scenario_claim))
    by (split; vm_compute; discriminate).
  split; [exact Hmod|].
  pose proof (@approval_conditions 2024 "CLM_TEST_0001" Samples.scenario_claim
                (Workflow.extract_document_data Samples.run_2024 Samples.scenario_claim)
                (Eligibility.check_eligibility_with_agent empty_policy Samples.run_2024
                   Samples.scenario_claim
                   (Workflow.extract_document_data Samples.run_2024
                                                   Samples.scenario_claim))
                Cases.consultation_coverage
                (Limits.calculate_limits empty_policy 1500 (Some "consultation") None 0 0
                                         None)
                Hmod) as H.
  cbv zeta in H. destruct H as (_ & H & _).
  apply H.
  - vm_compute. reflexivity.
  - vm_compute. reflexivity.
  - left. reflexivity.
  - vm_compute. reflexivity.
  - vm_compute. discriminate.
Defined.

(** ** Confidence scores *)

Lemma eligibility_confidence_range (policy : PolicyTerms) (treated : string)
      (diagnosis join_date : option string) (policy_start : string) :
  0 <= Eligibility.confidence_score
         (Eligibility.check_eligibility policy treated diagnosis join_date policy_start)
    <= 1.
Proof.
  unfold Eligibility.check_eligibility.
  destruct (PyDate.strptime treated) as [td|];
    [destruct (PyDate.strptime _) as [jd|]|].
  - cbv zeta. destruct (_ <? _)%Z; [eligibility_fields; lra|].
    destruct (find _ _) as [[kw days]|]; eligibility_fields; lra.
  - eligibility_fields; lra.
  - eligibility_fields; lra.
Qed.

Lemma coverage_confidence_range (policy : PolicyTerms) (diagnosis : string)
      (treatments procedures medicines tests : list string)
      (claim_amount : Q) (category : option string) (pre_auth : bool) :
  0 <= Coverage.confidence_score
         (Coverage.validate_coverage policy diagnosis treatments procedures medicines
                                     tests claim_amount category pre_auth)
    <= 1.
Proof.
  destruct (validate_coverage_lists policy diagnosis treatments procedures medicines tests
                                    claim_amount category pre_auth)
    as (_ & _ & _ & _ & _ & Hconf).
  rewrite Hconf. destruct (Nat.eqb _ 0); lra.
Qed.

Lemma limits_confidence_range (policy : PolicyTerms) (claim : Q)
      (category hospital_name : option string) (excluded ytd : Q) (sub_limit : option Q) :
  0 <= Limits.confidence_score
         (Limits.calculate_limits policy claim category hospital_name excluded ytd
                                  sub_limit)
    <= 1.
Proof.
  unfold Limits.calculate_limits.
  destruct (Money.ltb claim _); cbn [Limits.confidence_score]; lra.
Qed.

Lemma round2_unit_interval (q : Q) : 0 <= q <= 1 -> 0 <= Money.round2 q <= 1.
Proof.
  intros [H0 H1]. split.
  - rewrite <- MoneyFacts.round2_0. now apply MoneyFacts.round2_mono.
  - assert (Hone : Money.round2 1 == 1) by reflexivity.
    rewrite <- Hone. now apply MoneyFacts.round2_mono.
Qed.

Lemma make_decision_confidence_range (current_year : Z) (id : string)
      (claim_data : ClaimData) (extraction : ExtractionResult)
      (eligibility : Eligibility.EligibilityResult) (coverage : Coverage.CoverageResult)
      (limits : Limits.LimitResult) :
  0 <= get_default (er_confidence_score extraction) (85 # 100) <= 1 ->
  0 <= Eligibility.confidence_score eligibility <= 1 ->
  0 <= Coverage.confidence_score coverage <= 1 ->
  0 <= Limits.confidence_score limits <= 1 ->
  0 <= Decision.confidence_score
         (Decision.make_decision current_year id claim_data extraction eligibility
                                 coverage limits)
    <= 1.
Proof.
  intros H1 H2 H3 H4. unfold Decision.make_decision.
  destruct (Decision.decide _ _ _ _ _ _) as [d a]. cbn [Decision.confidence_score].
  destruct (risk_score_is_tally current_year claim_data
              (previous_claims_same_day claim_data) (previous_claims_ytd claim_data) 50000)
    as (_ & Hrisk & Hr0 & Hr1).
  apply round2_unit_interval. rewrite Hrisk.
  set (risk := snd _) in *.
  cbn [fold_left List.length]. unfold Qdiv.
  change (/ inject_Z (Z.of_nat 4)) with (1 # 4).
  set (c1 := get_default _ _) in *. set (c2 := Eligibility.confidence_score _) in *.
  set (c3 := Coverage.confidence_score _) in *. set (c4 := Limits.confidence_score _) in *.
  assert (Ha : 0 <= (0 + c1 + c2 + c3 + c4) * (1 # 4) <= 1) by lra.
  assert (Hk : 1 # 2 <= 1 - risk * (1 # 2) <= 1) by lra.
  set (a' := (0 + c1 + c2 + c3 + c4) * (1 # 4)) in *.
  set (k := 1 - risk * (1 # 2)) in *.
  split; nra.
Qed.

(** ** The pipeline as a whole *)

Lemma eligibility_reasons (policy : PolicyTerms) (treated : string)
      (diagnosis join_date : option string) (policy_start : string) :
  let e := Eligibility.check_eligibility policy treated diagnosis join_date policy_start in
  (Eligibility.is_eligible e = true /\ Eligibility.rejection_reasons e = [])
  \/ (Eligibility.is_eligible e = false
      /\ (Eligibility.rejection_reasons e = ["WAITING_PERIOD"]
          \/ Eligibility.rejection_reasons e = ["INVALID_DATE"])).
Proof.
  intros e. unfold e, Eligibility.check_eligibility.
  destruct (PyDate.strptime treated) as [td|];
    [destruct (PyDate.strptime _) as [jd|]|].
  - cbv zeta. destruct (_ <? _)%Z; [eligibility_fields; right; split; auto|].
    destruct (find _ _) as [[kw days]|]; eligibility_fields; [right|left]; split; auto.
  - eligibility_fields. right; split; auto.
  - eligibility_fields. right; split; auto.
Qed.

Lemma coverage_with_agent_codes (policy : PolicyTerms) (claim_data : ClaimData)
      (extraction : ExtractionResult) :
  let r := Coverage.validate_coverage_with_agent policy claim_data extraction in
  NoDup (Coverage.rejection_reasons r)
  /\ incl (Coverage.rejection_reasons r) coverage_codes.
Proof.
  intros r. unfold r, Coverage.validate_coverage_with_agent. cbv zeta.
  match goal with
  | |- context [Coverage.validate_coverage ?p ?d ?t ?pr ?m ?ts ?c ?cat ?pa] =>
      destruct (validate_coverage_lists p d t pr m ts c cat pa)
        as (_ & _ & Hr & _);
      destruct (coverage_acc_ok p d t pr m ts c pa) as (Hnd & Hin & _)
  end.
  rewrite Hr. split; assumption.
Qed.

Lemma make_decision_cashless (current_year : Z) (id : string) (claim_data : ClaimData)
      (extraction : ExtractionResult) (eligibility : Eligibility.EligibilityResult)
      (coverage : Coverage.CoverageResult) (limits : Limits.LimitResult) :
  let result :=
    Decision.make_decision current_year id claim_data extraction eligibility coverage
                           limits in
  Decision.cashless_approved result = true ->
  cashless_request claim_data = true
  /\ Limits.detail Limits.is_network_hospital false limits = true
  /\ (Decision.decision result = Decision.APPROVED
      \/ Decision.decision result = Decision.PARTIAL)
  /\ Decision.approved_amount result <= 5000.
Proof.
  intros result. unfold result, Decision.make_decision.
  destruct (Decision.decide _ _ _ _ _ _) as [d a].
  cbn [Decision.cashless_approved Decision.decision Decision.approved_amount].
  rewrite !andb_true_iff. intros [[[Hreq Hnet] Hdec] Hamt].
  split; [exact Hreq|]. split; [exact Hnet|]. split.
  - destruct d; try discriminate Hdec; auto.
  - apply MoneyFacts.leb_spec in Hamt.
    assert (H5000 : Money.round2 5000 == 5000) by reflexivity.
    rewrite <- H5000. now apply MoneyFacts.round2_mono.
Qed.

Section PipelineFacts.
Variable policy : PolicyTerms.
Variable env : Env.
Variable claim_data : ClaimData.

Let id : string :=
  if str_truthy (claim_id claim_data) then get_default (claim_id claim_data) ""
  else Workflow.generate_claim_id env.

Let extraction : ExtractionResult := Workflow.extract_document_data env claim_data.

Let eligibility : Eligibility.EligibilityResult :=
  Eligibility.check_eligibility_with_agent policy env claim_data extraction.

Let coverage : Coverage.CoverageResult :=
  Coverage.validate_coverage_with_agent policy claim_data extraction.

Let documents_present : bool := has_prescription extraction && has_bill extraction.

(** The four ways a run ends. *)
Lemma process_cases :
  (documents_present = false
   /\ Workflow.process policy env claim_data
      = ([Workflow.DocumentExtraction],
         Ok (Workflow.early_rejection id ["MISSING_DOCUMENTS"] 1 None)))
  \/ (documents_present = true
      /\ Eligibility.is_eligible eligibility = false
      /\ Workflow.process policy env claim_data
         = ([Workflow.DocumentExtraction; Workflow.EligibilityCheck],
            Ok (Workflow.early_rejection id
                  (Eligibility.rejection_reasons eligibility)
                  (Eligibility.confidence_score eligibility) (Some eligibility))))
  \/ (documents_present = true
      /\ Eligibility.is_eligible eligibility = true
      /\ claim_amount claim_data < PolicyTools.get_minimum_claim_amount policy
      /\ Workflow.process policy env claim_data
         = ([Workflow.DocumentExtraction; Workflow.EligibilityCheck;
             Workflow.CoverageValidation; Workflow.LimitCalculation],
            Raised (KeyError "per_claim_exceeded")))
  \/ (documents_present = true
      /\ Eligibility.is_eligible eligibility = true
      /\ PolicyTools.get_minimum_claim_amount policy <= claim_amount claim_data
      /\ exists limits,
           Limits.calculate_limits_with_agent policy (limit_agent_reply env) claim_data
                                              coverage = Ok limits
           /\ Workflow.process policy env claim_data
              = ([Workflow.DocumentExtraction; Workflow.EligibilityCheck;
                  Workflow.CoverageValidation; Workflow.LimitCalculation;
                  Workflow.FraudCheck; Workflow.FinalDecision],
                 Ok (Decision.make_decision (PyDate.year (now env)) id claim_data
                       extraction eligibility coverage limits))).
Proof.
  unfold Workflow.process. fold id. fold extraction. fold eligibility. fold coverage.
  unfold documents_present.
  destruct (has_prescription extraction); cbn [negb andb]; [|left; now split].
  destruct (has_bill extraction); cbn [negb]; [|left; now split].
  right. destruct (Eligibility.is_eligible eligibility); cbn [negb];
    [|left; repeat split].
  right.
  destruct (Qlt_le_dec (claim_amount claim_data)
                       (PolicyTools.get_minimum_claim_amount policy)) as [Hlt|Hge].
  - left.
    destruct (limit_stage_failure policy (limit_agent_reply env) claim_data coverage)
      as [Hraise _].
    rewrite (Hraise Hlt). repeat split. exact Hlt.
  - right.
    rewrite (@calculate_limits_with_agent_above_minimum
               policy (limit_agent_reply env) claim_data coverage Hge).
    repeat split; [exact Hge|]. eexists. split; reflexivity.
Qed.

(** X20. When the confidence of the extraction assistant and that of the
    limit assistant, where they give one, lie between 0 and 1, every
    result the pipeline returns has a confidence score between 0 and 1:
    the bound the result model puts on the field is met. *)
Theorem pipeline_confidence_is_a_probability (res : Decision.AdjudicationResult) :
  (forall reply c, extractor_reply env = Some reply ->
                   er_confidence_score reply = Some c -> 0 <= c <= 1) ->
  (forall amount c, limit_agent_reply env = AgentJson amount (Some c) -> 0 <= c <= 1) ->
  snd (Workflow.process policy env claim_data) = Ok res ->
  0 <= Decision.confidence_score res <= 1.
Proof.
  intros Hext Hagent Hres.
  destruct process_cases as [(_ & Hp) | [(_ & _ & Hp) | [(_ & _ & _ & Hp)
                            | (_ & _ & Hmin & limits & Hl & Hp)]]];
    rewrite Hp in Hres; cbn [snd] in Hres.
  - injection Hres as <-. cbn [Workflow.early_rejection Decision.confidence_score]. lra.
  - injection Hres as <-. cbn [Workflow.early_rejection Decision.confidence_score].
    apply eligibility_confidence_range.
  - discriminate Hres.
  - injection Hres as <-. apply make_decision_confidence_range.
    + unfold extraction, Workflow.extract_document_data.
      destruct (extractor_reply env) as [reply|] eqn:Hreply.
      * destruct (er_confidence_score reply) as [c|] eqn:Hc; cbn [get_default];
          [now apply (Hext reply c) | lra].
      * cbn [Workflow.basic_extraction er_confidence_score get_default]. lra.
    + apply eligibility_confidence_range.
    + apply coverage_confidence_range.
    + rewrite (@calculate_limits_with_agent_above_minimum
                 policy (limit_agent_reply env) claim_data coverage Hmin) in Hl.
      injection Hl as <-.
      repeat match goal with
             | |- context [if ?b then _ else _] => destruct b
             end; try apply limits_confidence_range.
      destruct (limit_agent_reply env) as [|[amount|] conf] eqn:Hreply;
        try apply limits_confidence_range.
      cbn [Limits.confidence_score].
      destruct conf as [c|]; cbn [get_default]; [now apply (Hagent (Some amount) c) | lra].
Qed.

(** X21. Cashless settlement is approved only for a claim that asked for
    it, was treated at a hospital the policy lists as a network hospital,
    was decided APPROVED or PARTIAL, and whose approved amount is at most
    5000. *)
Theorem cashless_only_at_network_hospitals (res : Decision.AdjudicationResult) :
  snd (Workflow.process policy env claim_data) = Ok res ->
  Decision.cashless_approved res = true ->
  cashless_request claim_data = true
  /\ (exists name, hospital claim_data = Some name
                   /\ PolicyTools.is_network_hospital policy name = true)
  /\ (Decision.decision res = Decision.APPROVED
      \/ Decision.decision res = Decision.PARTIAL)
  /\ Decision.approved_amount res <= 5000.
Proof.
  intros Hres Hcash.
  destruct process_cases as [(_ & Hp) | [(_ & _ & Hp) | [(_ & _ & _ & Hp)
                            | (_ & _ & Hmin & limits & Hl & Hp)]]];
    rewrite Hp in Hres; cbn [snd] in Hres; try discriminate Hres;
    injection Hres as <-; try discriminate Hcash.
  destruct (@make_decision_cashless (PyDate.year (now env)) id claim_data extraction
              eligibility coverage limits Hcash) as (Hreq & Hnet & Hdec & Hamt).
  split; [exact Hreq|]. split; [|split; assumption].
  rewrite (@calculate_limits_with_agent_above_minimum
             policy (limit_agent_reply env) claim_data coverage Hmin) in Hl.
  injection Hl as <-.
  assert (Hflag : Limits.network_flag policy (hospital claim_data) = true).
  { destruct (@calculate_limits_full policy (claim_amount claim_data)
                (Some (Coverage.category coverage)) (hospital claim_data)
                (Limits.excluded_amount_of claim_data (Coverage.excluded_items coverage))
                (previous_claims_ytd claim_data)
                (Some (Coverage.applicable_sub_limit coverage)) Hmin)
      as (_ & d & Hd & _ & _ & _ & _ & _ & Hn).
    rewrite <- Hn. unfold Limits.detail in Hnet.
    repeat match type of Hnet with
           | context [if ?b then _ else _] => destruct b
           end;
      try destruct (limit_agent_reply env) as [|[amount|] conf];
      cbn [Limits.details] in Hnet; rewrite Hd in Hnet; exact Hnet. }
  unfold Limits.network_flag in Hflag.
  destruct (hospital claim_data) as [name|]; [|discriminate Hflag].
  exists name. split; [reflexivity|].
  destruct (str_truthy (Some name)); [exact Hflag | discriminate Hflag].
Qed.

(** X22. The rejection codes of a result the pipeline returns are pairwise
    distinct and are among MISSING_DOCUMENTS, WAITING_PERIOD, INVALID_DATE,
    the four coverage codes, PER_CLAIM_EXCEEDED and ANNUAL_LIMIT_EXCEEDED.
    BELOW_MIN_AMOUNT, SUB_LIMIT_EXCEEDED, POLICY_INACTIVE and
    MEMBER_NOT_COVERED never reach a result. *)
Theorem pipeline_rejection_codes (res : Decision.AdjudicationResult) :
  snd (Workflow.process policy env claim_data) = Ok res ->
  NoDup (Decision.rejection_reasons res)
  /\ incl (Decision.rejection_reasons res)
          [ "MISSING_DOCUMENTS"; "WAITING_PERIOD"; "INVALID_DATE";
            "COSMETIC_PROCEDURE"; "SERVICE_NOT_COVERED"; "EXCLUDED_CONDITION";
            "PRE_AUTH_MISSING"; "PER_CLAIM_EXCEEDED"; "ANNUAL_LIMIT_EXCEEDED" ].
Proof.
  intros Hres.
  destruct process_cases as [(_ & Hp) | [(_ & Hel & Hp) | [(_ & _ & _ & Hp)
                            | (_ & Hel & Hmin & limits & Hl & Hp)]]];
    rewrite Hp in Hres; cbn [snd] in Hres; try discriminate Hres;
    injection Hres as <-.
  - cbn [Workflow.early_rejection Decision.rejection_reasons]. split.
    + repeat constructor. intros [].
    + intros x [<-|[]]. left. reflexivity.
  - cbn [Workflow.early_rejection Decision.rejection_reasons].
    destruct (eligibility_reasons policy (treatment_date claim_data)
                (match extracted_data extraction with
                 | Some ed => ed_diagnosis ed
                 | None => Some ""
                 end)
                (if str_truthy (member_join_date claim_data)
                 then member_join_date claim_data
                 else Some (PyDate.strftime (PyDate.add_days (now env) (-365))))
                "2024-01-01") as [[He _] | [_ [Hr|Hr]]].
    + fold (Eligibility.check_eligibility_with_agent policy env claim_data extraction)
        in He. fold eligibility in He. congruence.
    + fold (Eligibility.check_eligibility_with_agent policy env claim_data extraction)
        in Hr. fold eligibility in Hr. rewrite Hr. split.
      * repeat constructor. intros [].
      * intros x [<-|[]]. right. left. reflexivity.
    + fold (Eligibility.check_eligibility_with_agent policy env claim_data extraction)
        in Hr. fold eligibility in Hr. rewrite Hr. split.
      * repeat constructor. intros [].
      * intros x [<-|[]]. right. right. left. reflexivity.
  - destruct (make_decision_fields (PyDate.year (now env)) id claim_data extraction
                                   eligibility coverage limits) as (_ & _ & Hr & _).
    rewrite Hr. clear Hr.
    assert (Hnone : Eligibility.rejection_reasons eligibility = []).
    { destruct (eligibility_reasons policy (treatment_date claim_data)
                  (match extracted_data extraction with
                   | Some ed => ed_diagnosis ed
                   | None => Some ""
                   end)
                  (if str_truthy (member_join_date claim_data)
                   then member_join_date claim_data
                   else Some (PyDate.strftime (PyDate.add_days (now env) (-365))))
                  "2024-01-01") as [[_ Hr] | [He _]].
      - exact Hr.
      - fold (Eligibility.check_eligibility_with_agent policy env claim_data extraction)
          in He. fold eligibility in He. congruence. }
    rewrite Hnone. cbn [app].
    destruct (coverage_with_agent_codes policy claim_data extraction) as (Hcnd & Hcin).
    fold coverage in Hcnd, Hcin.
    assert (Hlim : NoDup (Limits.rejection_reasons limits)
                   /\ incl (Limits.rejection_reasons limits)
                           ["PER_CLAIM_EXCEEDED"; "ANNUAL_LIMIT_EXCEEDED"]).
    { rewrite (@calculate_limits_with_agent_above_minimum
                 policy (limit_agent_reply env) claim_data coverage Hmin) in Hl.
      injection Hl as <-.
      destruct (@limit_codes policy (claim_amount claim_data)
                  (Some (Coverage.category coverage)) (hospital claim_data)
                  (Limits.excluded_amount_of claim_data (Coverage.excluded_items coverage))
                  (previous_claims_ytd claim_data)
                  (Some (Coverage.applicable_sub_limit coverage)) Hmin)
        as (Hnd & Hin & _).
      repeat match goal with
             | |- context [if ?b then _ else _] => destruct b
             end;
        try destruct (limit_agent_reply env) as [|[amount|] conf];
        cbn [Limits.rejection_reasons]; split; assumption. }
    destruct Hlim as (Hlnd & Hlin).
    split.
    + apply NoDup_app; [assumption | assumption |].
      intros code Hc Hl'. apply Hcin in Hc. apply Hlin in Hl'.
      unfold coverage_codes in Hc. cbn [In] in Hc, Hl'.
      intuition (subst; discriminate).
    + intros code Hcode. apply in_app_or in Hcode. destruct Hcode as [Hc|Hl'].
      * apply Hcin in Hc. unfold coverage_codes in Hc. cbn [In] in Hc |- *. intuition.
      * apply Hlin in Hl'. cbn [In] in Hl' |- *. intuition.
Qed.

(** X23. When the documents are present, the member is eligible and the
    claim amount is below the policy's minimum claim amount, the run
    raises [KeyError('per_claim_exceeded')] in the limit stage, before the
    fraud check and the decision, instead of returning the
    BELOW_MIN_AMOUNT rejection; so a run that returns a result had a
    document missing, a member not eligible, or a claim at or above the
    minimum.  (Stated for a diagnosis in ASCII, where the lower-casing of
    the eligibility check is Python's.) *)
Theorem pipeline_fails_below_minimum_amount :
  (forall data diagnosis,
      extracted_data extraction = Some data ->
      ed_diagnosis data = Some diagnosis ->
      PyStr.is_ascii diagnosis = true) ->
  (documents_present = true ->
   Eligibility.is_eligible eligibility = true ->
   claim_amount claim_data < PolicyTools.get_minimum_claim_amount policy ->
   Workflow.process policy env claim_data
   = ([Workflow.DocumentExtraction; Workflow.EligibilityCheck;
       Workflow.CoverageValidation; Workflow.LimitCalculation],
      Raised (KeyError "per_claim_exceeded")))
  /\ (forall res,
        snd (Workflow.process policy env claim_data) = Ok res ->
        documents_present = false
        \/ Eligibility.is_eligible eligibility = false
        \/ PolicyTools.get_minimum_claim_amount policy <= claim_amount claim_data).
Proof.
  intros _.
  destruct process_cases as [(Hdoc & Hp) | [(Hdoc & Hel & Hp) | [(Hdoc & Hel & Hlt & Hp)
                            | (Hdoc & Hel & Hmin & limits & Hl & Hp)]]];
    rewrite Hp; cbn [fst snd]; split.
  - intros Hd. congruence.
  - intros res _. now left.
  - intros _ He. congruence.
  - intros res _. right. now left.
  - intros _ _ _. reflexivity.
  - intros res Hres. discriminate Hres.
  - intros _ _ Hlt. lra.
  - intros res _. right. now right.
Qed.
End PipelineFacts.

Lemma pipeline_confidence_is_a_probability_witness :
  (forall reply c, extractor_reply Samples.run_2024 = Some reply ->
                   er_confidence_score reply = Some c -> 0 <= c <= 1)
  /\ (forall amount c, limit_agent_reply Samples.run_2024 = AgentJson amount (Some c) ->
                       0 <= c <= 1)
  /\ exists res,
       snd (Workflow.process empty_policy Samples.run_2024 Samples.scenario_claim) = Ok res
       /\ 0 <= Decision.confidence_score res <= 1.
Proof.
  assert (H1 : forall reply c, extractor_reply Samples.run_2024 = Some reply ->
                               er_confidence_score reply = Some c -> 0 <= c <= 1)
    by (intros reply c H; discriminate H).
  assert (H2 : forall amount c,
                 limit_agent_reply Samples.run_2024 = AgentJson amount (Some c) ->
                 0 <= c <= 1)
    by (intros amount c H; discriminate H).
  assert (Hres : exists res,
            snd (Workflow.process empty_policy Samples.run_2024 Samples.scenario_claim)
            = Ok res)
    by (vm_compute; eexists; reflexivity).
  split; [exact H1|]. split; [exact H2|].
  destruct Hres as [res Hres]. exists res. split; [exact Hres|].
  exact (@pipeline_confidence_is_a_probability
           empty_policy Samples.run_2024 Samples.scenario_claim res H1 H2 Hres).
Defined.

Lemma cashless_only_at_network_hospitals_witness :
  exists res,
    snd (Workflow.process Samples.apollo_policy Samples.run_2024 Cases.cashless_claim)
    = Ok res
    /\ Decision.cashless_approved res = true
    /\ exists name, hospital Cases.cashless_claim = Some name
                    /\ PolicyTools.is_network_hospital Samples.apollo_policy name = true.
Proof.
  assert (Hres : exists res,
            snd (Workflow.process Samples.apollo_policy Samples.run_2024
                                  Cases.cashless_claim) = Ok res
            /\ Decision.cashless_approved res = true)
    by (vm_compute; eexists; split; reflexivity).
  destruct Hres as (res & Hres & Hcash). exists res.
  split; [exact Hres|]. split; [exact Hcash|].
  destruct (@cashless_only_at_network_hospitals
              Samples.apollo_policy Samples.run_2024 Cases.cashless_claim res Hres Hcash)
    as (_ & Hnet & _).
  exact Hnet.
Defined.

Lemma pipeline_rejection_codes_witness :
  exists res,
    snd (Workflow.process empty_policy Samples.run_2024 Cases.new_member_claim) = Ok res
    /\ NoDup (Decision.rejection_reasons res)
    /\ incl (Decision.rejection_reasons res)
            [ "MISSING_DOCUMENTS"; "WAITING_PERIOD"; "INVALID_DATE";
              "COSMETIC_PROCEDURE"; "SERVICE_NOT_COVERED"; "EXCLUDED_CONDITION";
              "PRE_AUTH_MISSING"; "PER_CLAIM_EXCEEDED"; "ANNUAL_LIMIT_EXCEEDED" ].
Proof.
  assert (Hres : exists res,
            snd (Workflow.process empty_policy Samples.run_2024 Cases.new_member_claim)
            = Ok res)
    by (vm_compute; eexists; reflexivity).
  destruct Hres as [res Hres]. exists res. split; [exact Hres|].
  exact (@pipeline_rejection_codes
           empty_policy Samples.run_2024 Cases.new_member_claim res Hres).
Defined.

Lemma pipeline_fails_below_minimum_amount_witness :
  claim_amount Cases.small_claim < PolicyTools.get_minimum_claim_amount empty_policy
  /\ Workflow.process empty_policy Samples.run_2024 Cases.small_claim
     = ([Workflow.DocumentExtraction; Workflow.EligibilityCheck;
         Workflow.CoverageValidation; Workflow.LimitCalculation],
        Raised (KeyError "per_claim_exceeded")).
Proof.
  assert (Hlt : claim_amount Cases.small_claim
                < PolicyTools.get_minimum_claim_amount empty_policy)
    by (vm_compute; reflexivity).
  split; [exact Hlt|].
  destruct (@pipeline_fails_below_minimum_amount
              empty_policy Samples.run_2024 Cases.small_claim) as [Hraise _].
  - intros data diagnosis Hdata Hdiag. vm_compute in Hdata. injection Hdata as <-.
    vm_compute in Hdiag. injection Hdiag as <-. reflexivity.
  - apply Hraise; [reflexivity | vm_compute; reflexivity | exact Hlt].
Defined.

(** X24. A claim with prescription and bill whose treatment falls inside
    the initial waiting period (fewer days after the member's join date
    than the policy's initial period, 30 by default), and whose waiting
    period ends on a date Python can represent (otherwise the eligibility
    check raises OverflowError), is rejected right after the eligibility
    check: decision REJECTED, amount 0, the single code WAITING_PERIOD,
    confidence 0.98, and the day the waiting period ends in the eligibility
    result; coverage, limits and the fraud check do not run. *)
Theorem treatment_inside_initial_waiting_period_is_rejected
        (policy : PolicyTerms) (env : Env) (claim_data : ClaimData)
        (join : string) (treated joined : PyDate.Date) :
  let extraction := Workflow.extract_document_data env claim_data in
  let initial :=
    get_default (dict_lookup "initial" (PolicyTools.get_waiting_periods policy)) 30%Z in
  has_prescription extraction = true ->
  has_bill extraction = true ->
  member_join_date claim_data = Some join ->
  PyStr.truthy join = true ->
  PyDate.strptime (treatment_date claim_data) = Some treated ->
  PyDate.strptime join = Some joined ->
  (PyDate.toordinal treated - PyDate.toordinal joined < initial)%Z ->
  PyDate.add_days_defined joined initial ->
  exists res,
    Workflow.process policy env claim_data
    = ([Workflow.DocumentExtraction; Workflow.EligibilityCheck], Ok res)
    /\ Decision.decision res = Decision.REJECTED
    /\ Decision.approved_amount res = 0
    /\ Decision.rejection_reasons res = ["WAITING_PERIOD"]
    /\ Decision.confidence_score res = 98 # 100
    /\ Decision.fraud_result res = None
    /\ exists e, Decision.eligibility_result res = Some e
                 /\ Eligibility.waiting_period_end_date e
                    = Some (PyDate.strftime (PyDate.add_days joined initial)).
Proof.
  intros extraction initial Hp Hb Hjoin Htruthy Htd Hjd Hdays _.
  assert (He : Eligibility.check_eligibility_with_agent policy env claim_data extraction
               = Eligibility.waiting_rejection
                   (PyDate.strftime (PyDate.add_days joined initial)) (98 # 100)).
  { unfold Eligibility.check_eligibility_with_agent, Eligibility.check_eligibility.
    rewrite Hjoin. cbn [str_truthy get_default]. rewrite Htruthy.
    cbn [str_truthy get_default]. rewrite Htruthy, Htd, Hjd.
    fold initial. apply Z.ltb_lt in Hdays. rewrite Hdays. reflexivity. }
  unfold Workflow.process. fold extraction. rewrite Hp, Hb. cbn [negb].
  rewrite He. cbn [Eligibility.waiting_rejection Eligibility.is_eligible negb].
  eexists. split; [reflexivity|].
  cbn [Workflow.early_rejection Decision.decision Decision.approved_amount
       Decision.rejection_reasons Decision.confidence_score Decision.fraud_result
       Decision.eligibility_result Eligibility.rejection_reasons
       Eligibility.confidence_score].
  repeat split. eexists. split; reflexivity.
Qed.

Lemma treatment_inside_initial_waiting_period_is_rejected_witness :
  has_prescription (Workflow.extract_document_data Samples.run_2024
                                                   Cases.new_member_claim) = true
  /\ has_bill (Workflow.extract_document_data Samples.run_2024
                                              Cases.new_member_claim) = true
  /\ member_join_date Cases.new_member_claim = Some "2024-10-20"
  /\ PyStr.truthy "2024-10-20" = true
  /\ PyDate.strptime (treatment_date Cases.new_member_claim)
     = Some {| PyDate.year := 2024; PyDate.month := 11; PyDate.day := 1 |}
  /\ PyDate.strptime "2024-10-20"
     = Some {| PyDate.year := 2024; PyDate.month := 10; PyDate.day := 20 |}
  /\ (PyDate.toordinal {| PyDate.year := 2024; PyDate.month := 11; PyDate.day := 1 |}
      - PyDate.toordinal {| PyDate.year := 2024; PyDate.month := 10; PyDate.day := 20 |}
      < get_default (dict_lookup "initial" (PolicyTools.get_waiting_periods empty_policy))
                    30)%Z
  /\ PyDate.add_days_defined
       {| PyDate.year := 2024; PyDate.month := 10; PyDate.day := 20 |}
       (get_default (dict_lookup "initial" (PolicyTools.get_waiting_periods empty_policy))
                    30%Z)
  /\ exists res,
       Workflow.process empty_policy Samples.run_2024 Cases.new_member_claim
       = ([Workflow.DocumentExtraction; Workflow.EligibilityCheck], Ok res)
       /\ Decision.rejection_reasons res = ["WAITING_PERIOD"].
Proof.
  assert (H1 : has_prescription (Workflow.extract_document_data
                                   Samples.run_2024 Cases.new_member_claim) = true)
    by reflexivity.
  assert (H2 : has_bill (Workflow.extract_document_data
                           Samples.run_2024 Cases.new_member_claim) = true)
    by reflexivity.
  assert (H3 : member_join_date Cases.new_member_claim = Some "2024-10-20")
    by reflexivity.
  assert (H4 : PyStr.truthy "2024-10-20" = true) by reflexivity.
  assert (H5 : PyDate.strptime (treatment_date Cases.new_member_claim)
               = Some {| PyDate.year := 2024; PyDate.month := 11; PyDate.day := 1 |})
    by (vm_compute; reflexivity).
  assert (H6 : PyDate.strptime "2024-10-20"
               = Some {| PyDate.year := 2024; PyDate.month := 10; PyDate.day := 20 |})
    by (vm_compute; reflexivity).
  assert (H7 : (PyDate.toordinal
                  {| PyDate.year := 2024; PyDate.month := 11; PyDate.day := 1 |}
                - PyDate.toordinal
                    {| PyDate.year := 2024; PyDate.month := 10; PyDate.day := 20 |}
                < get_default
                    (dict_lookup "initial" (PolicyTools.get_waiting_periods empty_policy))
                    30)%Z)
    by (vm_compute; reflexivity).
  assert (H8 : PyDate.add_days_defined
                 {| PyDate.year := 2024; PyDate.month := 10; PyDate.day := 20 |}
                 (get_default
                    (dict_lookup "initial" (PolicyTools.get_waiting_periods empty_policy))
                    30%Z))
    by (split; vm_compute; discriminate).
  split; [exact H1|]. split; [exact H2|]. split; [exact H3|]. split; [exact H4|].
  split; [exact H5|]. split; [exact H6|]. split; [exact H7|]. split; [exact H8|].
  destruct (@treatment_inside_initial_waiting_period_is_rejected
              empty_policy Samples.run_2024 Cases.new_member_claim "2024-10-20"
              {| PyDate.year := 2024; PyDate.month := 11; PyDate.day := 1 |}
              {| PyDate.year := 2024; PyDate.month := 10; PyDate.day := 20 |}
              H1 H2 H3 H4 H5 H6 H7 H8) as (res & Hres & _ & _ & Hcodes & _).
  exists res. split; [exact Hres | exact Hcodes].
Defined.
(** ** Fraud checks: flags, weights, registrations *)

Lemma in_raise_flag (fires : bool) (msg : string) (weight : Q) (t : FraudDetection.Tally)
      (m : string) :
  In m (fst (FraudDetection.raise_flag fires msg weight t))
  <-> (fires = true /\ m = msg) \/ In m (fst t).
Proof.
  unfold FraudDetection.raise_flag. destruct fires; cbn [fst].
  - rewrite in_app_iff. cbn [In]. intuition.
  - intuition discriminate.
Qed.

Lemma total_weight_snoc (flags : list string) (flag : string) :
  total_weight (flags ++ [flag]) == total_weight flags + weight_of flag.
Proof.
  induction flags as [|f flags IH]; cbn [app total_weight fold_right].
  - ring.
  - fold (total_weight (flags ++ [flag])). fold (total_weight flags). rewrite IH. ring.
Qed.

Lemma raise_flag_weighted (fires : bool) (msg : string) (weight : Q)
      (t : FraudDetection.Tally) :
  weight_of msg == weight ->
  snd t == total_weight (fst t) ->
  snd (FraudDetection.raise_flag fires msg weight t)
  == total_weight (fst (FraudDetection.raise_flag fires msg weight t)).
Proof.
  intros Hw Ht. unfold FraudDetection.raise_flag. destruct fires; cbn [fst snd].
  - rewrite total_weight_snoc, Ht, Hw. reflexivity.
  - exact Ht.
Qed.

Lemma fraud_tally_weighted (current_year : Z) (claim_data : ClaimData) (same_day : Z)
      (ytd annual_limit : Q) :
  let tally :=
    FraudDetection.fraud_tally current_year claim_data same_day ytd annual_limit in
  snd tally == total_weight (fst tally).
Proof.
  unfold FraudDetection.fraud_tally.
  set (t1 := FraudDetection.check_same_day same_day ([], 0)).
  assert (H1 : snd t1 == total_weight (fst t1)).
  { unfold t1, FraudDetection.check_same_day.
    destruct (3 <=? same_day)%Z; [|destruct (2 <=? same_day)%Z]; reflexivity. }
  set (t2 := FraudDetection.check_utilization claim_data ytd annual_limit t1).
  assert (H2 : snd t2 == total_weight (fst t2)).
  { unfold t2, FraudDetection.check_utilization.
    apply raise_flag_weighted; [reflexivity | exact H1]. }
  set (t3 := FraudDetection.check_high_amount claim_data t2).
  assert (H3 : snd t3 == total_weight (fst t3)).
  { unfold t3, FraudDetection.check_high_amount.
    apply raise_flag_weighted; [reflexivity | exact H2]. }
  set (t4 := FraudDetection.check_prescription current_year claim_data t3).
  assert (H4 : snd t4 == total_weight (fst t4)).
  { unfold t4, FraudDetection.check_prescription.
    destruct (prescription (documents claim_data)) as [presc|]; [|exact H3].
    apply raise_flag_weighted; [reflexivity|].
    apply raise_flag_weighted; [reflexivity | exact H3]. }
  set (t5 := FraudDetection.check_bill claim_data t4).
  assert (H5 : snd t5 == total_weight (fst t5)).
  { unfold t5, FraudDetection.check_bill.
    destruct (bill (documents claim_data)) as [b|]; [|exact H4].
    apply raise_flag_weighted; [reflexivity | exact H4]. }
  cbv zeta. unfold FraudDetection.check_weekend.
  destruct (PyDate.strptime (treatment_date claim_data)) as [dt|]; [|exact H5].
  destruct (5 <=? PyDate.weekday dt)%Z; [|exact H5].
  apply raise_flag_weighted; [reflexivity | exact H5].
Qed.

(** X25. The risk score [check_fraud_indicators] returns is the sum of the
    weights of the flags it returns (0.3 and 0.15 for the same-day flags,
    0.25 for the doctor registration, 0.1 for utilization, amount and
    number of medicines, 0.05 for round amounts and weekend treatment):
    neither the cap at 1 nor the rounding changes it. *)
Theorem risk_score_is_the_sum_of_the_flag_weights
        (current_year : Z) (claim_data : ClaimData) (same_day : Z) (ytd annual_limit : Q) :
  let r := FraudDetection.check_fraud_indicators current_year claim_data same_day ytd
                                                 annual_limit in
  FraudDetection.risk_score r == total_weight (FraudDetection.fraud_flags r).
Proof.
  intros r.
  destruct (risk_score_is_tally current_year claim_data same_day ytd annual_limit)
    as (_ & Hrisk & _).
  fold r in Hrisk. rewrite Hrisk.
  unfold r, FraudDetection.check_fraud_indicators. cbn [FraudDetection.fraud_flags].
  apply fraud_tally_weighted.
Qed.

(** X26. The flag for the doctor registration is among the fraud flags
    exactly when the claim has a prescription whose registration number
    [validate_doctor_registration] does not accept; a missing number counts
    as not accepted, and a claim without prescription never gets the
    flag. *)
Theorem registration_flag_iff_registration_rejected
        (current_year : Z) (claim_data : ClaimData) (same_day : Z) (ytd annual_limit : Q) :
  let r := FraudDetection.check_fraud_indicators current_year claim_data same_day ytd
                                                 annual_limit in
  In "Invalid or suspicious doctor registration" (FraudDetection.fraud_flags r)
  <-> exists presc,
        prescription (documents claim_data) = Some presc
        /\ FraudDetection.validate_doctor_registration current_year (doctor_reg presc)
           = false.
Proof.
  intros r. unfold r, FraudDetection.check_fraud_indicators.
  cbn [FraudDetection.fraud_flags]. unfold FraudDetection.fraud_tally.
  assert (Hweekend : forall t,
    In "Invalid or suspicious doctor registration"
       (fst (FraudDetection.check_weekend claim_data t))
    <-> In "Invalid or suspicious doctor registration" (fst t)).
  { intros t. unfold FraudDetection.check_weekend.
    destruct (PyDate.strptime _) as [dt|]; [|reflexivity].
    destruct (5 <=? PyDate.weekday dt)%Z; [|reflexivity].
    rewrite in_raise_flag. intuition discriminate. }
  assert (Hbill : forall t,
    In "Invalid or suspicious doctor registration"
       (fst (FraudDetection.check_bill claim_data t))
    <-> In "Invalid or suspicious doctor registration" (fst t)).
  { intros t. unfold FraudDetection.check_bill.
    destruct (bill _) as [b|]; [|reflexivity].
    rewrite in_raise_flag. intuition discriminate. }
  assert (Hbefore :
    ~ In "Invalid or suspicious doctor registration"
         (fst (FraudDetection.check_high_amount claim_data
                 (FraudDetection.check_utilization claim_data ytd annual_limit
                    (FraudDetection.check_same_day same_day ([], 0)))))).
  { unfold FraudDetection.check_high_amount, FraudDetection.check_utilization,
      FraudDetection.check_same_day.
    rewrite !in_raise_flag.
    destruct (3 <=? same_day)%Z; [|destruct (2 <=? same_day)%Z];
      rewrite ?in_raise_flag; cbn [fst In]; intuition discriminate. }
  rewrite Hweekend, Hbill. unfold FraudDetection.check_prescription.
  destruct (prescription (documents claim_data)) as [presc|].
  - rewrite !in_raise_flag. split.
    + intros [[_ H] | [[H _] | H]]; [discriminate H | | contradiction].
      exists presc. split; [reflexivity|]. now apply negb_true_iff.
    + intros (p & Hp & Hv). injection Hp as <-. right. left.
      split; [now apply negb_true_iff | reflexivity].
  - split; [intros H; contradiction | intros (p & Hp & _); discriminate Hp].
Qed.

Lemma registration_year_bound (current_year later_year year : Z) :
  (current_year <= later_year)%Z ->
  (year <? 1950)%Z || (current_year <? year)%Z = false ->
  (year <? 1950)%Z || (later_year <? year)%Z = false.
Proof.
  intros Hle H. apply orb_false_iff in H. destruct H as [H1 H2].
  apply orb_false_iff. split; [exact H1|].
  apply Z.ltb_ge in H2. apply Z.ltb_ge. lia.
Qed.

(** X27. A registration number that [validate_doctor_registration]
    accepts in one year is accepted in every later year, and an accepted
    number is never missing or empty: the clock enters the check only as
    the upper bound of the registration year. *)
Theorem accepted_registration_stays_accepted
        (current_year later_year : Z) (reg_number : option string) :
  (current_year <= later_year)%Z ->
  FraudDetection.validate_doctor_registration current_year reg_number = true ->
  FraudDetection.validate_doctor_registration later_year reg_number = true
  /\ str_truthy reg_number = true.
Proof.
  intros Hle. unfold FraudDetection.validate_doctor_registration.
  destruct (str_truthy reg_number); cbn [negb]; [|discriminate].
  destruct (FraudDetection.match_registration _) as [[[med state] yr]|]; [|discriminate].
  destruct (negb (PyStr.mem state FraudDetection.state_codes) && _); [discriminate|].
  destruct (_ || _) eqn:Hyear; [discriminate|]. intros _.
  rewrite (@registration_year_bound current_year later_year _ Hle Hyear).
  split; reflexivity.
Qed.

Lemma accepted_registration_stays_accepted_witness :
  (2024 <= 2026)%Z
  /\ FraudDetection.validate_doctor_registration 2024 (Some "KA/45678/2015") = true
  /\ FraudDetection.validate_doctor_registration 2026 (Some "KA/45678/2015") = true.
Proof.
  assert (H1 : (2024 <= 2026)%Z) by lia.
  assert (H2 : FraudDetection.validate_doctor_registration 2024 (Some "KA/45678/2015")
               = true) by (vm_compute; reflexivity).
  split; [exact H1|]. split; [exact H2|].
  destruct (@accepted_registration_stays_accepted 2024 2026 (Some "KA/45678/2015") H1 H2)
    as [H _].
  exact H.
Defined.
(** ** Document dates *)

Lemma min_of_spec (ds : list Z) (d : Z) :
  In (FraudDetection.min_of d ds) (d :: ds)
  /\ forall x, In x (d :: ds) -> (FraudDetection.min_of d ds <= x)%Z.
Proof.
  unfold FraudDetection.min_of. revert d.
  induction ds as [|e ds IH]; intros d; cbn [fold_left].
  - split; [now left | intros x [<-|[]]; lia].
  - destruct (IH (Z.min d e)) as [Hin Hle]. split.
    + destruct Hin as [Hin|Hin]; [|right; now right].
      rewrite <- Hin. destruct (Z.min_spec d e) as [[_ ->]|[_ ->]];
        [now left | right; now left].
    + intros x [Hx|[Hx|Hx]].
      * specialize (Hle (Z.min d e) (or_introl eq_refl)). lia.
      * specialize (Hle (Z.min d e) (or_introl eq_refl)). lia.
      * apply Hle. now right.
Qed.

Lemma max_of_spec (ds : list Z) (d : Z) :
  In (FraudDetection.max_of d ds) (d :: ds)
  /\ forall x, In x (d :: ds) -> (x <= FraudDetection.max_of d ds)%Z.
Proof.
  unfold FraudDetection.max_of. revert d.
  induction ds as [|e ds IH]; intros d; cbn [fold_left].
  - split; [now left | intros x [<-|[]]; lia].
  - destruct (IH (Z.max d e)) as [Hin Hle]. split.
    + destruct Hin as [Hin|Hin]; [|right; now right].
      rewrite <- Hin. destruct (Z.max_spec d e) as [[_ ->]|[_ ->]];
        [right; now left | now left].
    + intros x [Hx|[Hx|Hx]].
      * specialize (Hle (Z.max d e) (or_introl eq_refl)). lia.
      * specialize (Hle (Z.max d e) (or_introl eq_refl)). lia.
      * apply Hle. now right.
Qed.

(** X28. [check_document_consistency] reports consistent dates exactly
    when every date given parses and any two of them are at most seven
    days apart (with fewer than two dates there is nothing to compare);
    an unparsable date makes the documents inconsistent, and a mismatch
    reports the days between the earliest and the latest date, more than
    seven. *)
Theorem documents_consistent_iff_dates_within_a_week
        (prescription_date bill_date treatment_date : string) :
  let outcome :=
    FraudDetection.check_document_consistency prescription_date bill_date
                                              treatment_date in
  let given :=
    FraudDetection.parse_given_dates [prescription_date; bill_date; treatment_date] in
  (FraudDetection.is_consistent outcome = true
   <-> exists days, given = Some days
                    /\ forall x y, In x days -> In y days -> (x - y <= 7)%Z)
  /\ (outcome = FraudDetection.DateParseError <-> given = None)
  /\ (forall span, outcome = FraudDetection.DateMismatch span ->
        (7 < span)%Z
        /\ exists days x y, given = Some days /\ In x days /\ In y days
                            /\ span = (x - y)%Z).
Proof.
  intros outcome given. unfold outcome, FraudDetection.check_document_consistency.
  fold given. destruct given as [days|].
  - destruct days as [|d [|e rest]].
    + cbn [FraudDetection.is_consistent]. split; [|split].
      * split; [intros _; exists []; split; [reflexivity | intros x y []] | reflexivity].
      * split; discriminate.
      * intros span H. discriminate H.
    + cbn [FraudDetection.is_consistent]. split; [|split].
      * split; [intros _; exists [d]; split; [reflexivity|] | reflexivity].
        intros x y [<-|[]] [<-|[]]. lia.
      * split; discriminate.
      * intros span H. discriminate H.
    + destruct (min_of_spec (e :: rest) d) as [Hmin_in Hmin].
      destruct (max_of_spec (e :: rest) d) as [Hmax_in Hmax].
      cbv zeta.
      set (lo := FraudDetection.min_of d (e :: rest)) in *.
      set (hi := FraudDetection.max_of d (e :: rest)) in *.
      destruct (Z.ltb_spec 7 (hi - lo)) as [Hwide|Hnarrow];
        cbn [FraudDetection.is_consistent]; (split; [|split]).
      * split; [discriminate|]. intros (days & Hd & Hall). injection Hd as <-.
        specialize (Hall hi lo Hmax_in Hmin_in). lia.
      * split; discriminate.
      * intros span H. injection H as <-. split; [exact Hwide|].
        exists (d :: e :: rest), hi, lo. repeat split; assumption.
      * split; [intros _|reflexivity]. exists (d :: e :: rest). split; [reflexivity|].
        intros x y Hx Hy. specialize (Hmax x Hx). specialize (Hmin y Hy). lia.
      * split; discriminate.
      * intros span H. discriminate H.
  - cbn [FraudDetection.is_consistent]. split; [|split].
    + split; [discriminate | intros (days & Hd & _); discriminate Hd].
    + split; reflexivity.
    + intros span H. discriminate H.
Qed.

(** ** Diagnosis and treatment *)

Lemma existsb_incl (A : Type) (f : A -> bool) (l l' : list A) :
  incl l l' -> existsb f l = true -> existsb f l' = true.
Proof.
  intros Hincl H. apply existsb_exists in H. destruct H as (x & Hx & Hf).
  apply existsb_exists. exists x. split; [now apply Hincl | exact Hf].
Qed.

(** X29. In [check_diagnosis_treatment_match] more medicines or treatments
    never turn a match into a mismatch: a diagnosis that matches the items
    given still matches when further treatments and medicines are added. *)
Theorem more_items_keep_the_diagnosis_match
        (diagnosis : string) (treatments medicines more_treatments more_medicines
                              : list string) :
  FraudDetection.is_matched
    (FraudDetection.check_diagnosis_treatment_match diagnosis treatments medicines)
  = true ->
  FraudDetection.is_matched
    (FraudDetection.check_diagnosis_treatment_match
       diagnosis (treatments ++ more_treatments) (medicines ++ more_medicines))
  = true.
Proof.
  unfold FraudDetection.check_diagnosis_treatment_match.
  destruct (negb (PyStr.truthy diagnosis)); [discriminate|].
  destruct (find _ FraudDetection.condition_map) as [[condition [meds treats]]|];
    [|reflexivity].
  match goal with
  | |- FraudDetection.is_matched (if ?b then _ else _) = true -> _ =>
      destruct b eqn:Hmatch; [intros _ | discriminate]
  end.
  match goal with
  | |- FraudDetection.is_matched (if ?b then _ else _) = true =>
      assert (Hmore : b = true); [|rewrite Hmore; reflexivity]
  end.
  apply existsb_exists in Hmatch. destruct Hmatch as (exp & Hexp & Hitem).
  apply existsb_exists. exists exp. split; [exact Hexp|].
  revert Hitem. apply existsb_incl.
  intros item Hin. apply in_app_or in Hin. apply in_or_app.
  rewrite !map_app. destruct Hin as [Hin|Hin]; [left|right]; apply in_or_app; now left.
Qed.

Lemma more_items_keep_the_diagnosis_match_witness :
  FraudDetection.is_matched
    (FraudDetection.check_diagnosis_treatment_match "Viral fever" [] ["Paracetamol 650mg"])
  = true
  /\ FraudDetection.is_matched
       (FraudDetection.check_diagnosis_treatment_match
          "Viral fever" ([] ++ ["Physiotherapy"]) (["Paracetamol 650mg"] ++ ["Metformin"]))
     = true.
Proof.
  assert (H : FraudDetection.is_matched
                (FraudDetection.check_diagnosis_treatment_match
                   "Viral fever" [] ["Paracetamol 650mg"]) = true)
    by (vm_compute; reflexivity).
  split; [exact H|].
  exact (@more_items_keep_the_diagnosis_match
           "Viral fever" [] ["Paracetamol 650mg"] ["Physiotherapy"] ["Metformin"] H).
Defined.

(** ** The category the coverage stage settles on *)

(** X30. When the caller gives no category, [determine_category] settles
    on dental, alternative_medicine, diagnostic, pharmacy or consultation
    (never vision), and the sub-limit it returns is the one
    [get_sub_limits] holds for that category: the policy's sub-limit, or
    the default of [get_sub_limits] (10000, 8000, 10000, 15000, 2000) when
    the policy has none. *)
Theorem determined_category_is_one_of_five
        (policy : PolicyTerms) (category : option string) (all_items : list string)
        (diagnosis : string) (medicines tests : list string) :
  str_truthy category = false ->
  let coverage := coverage_details policy in
  In (Coverage.determine_category policy category all_items diagnosis medicines tests)
     [ ("dental", get_default (ct_sub_limit (dental coverage)) 10000);
       ("alternative_medicine",
         get_default (ct_sub_limit (alternative_medicine coverage)) 8000);
       ("diagnostic", get_default (ct_sub_limit (cd_diagnostic_tests coverage)) 10000);
       ("pharmacy", get_default (ct_sub_limit (pharmacy coverage)) 15000);
       ("consultation", get_default (ct_sub_limit (consultation_fees coverage)) 2000) ].
Proof.
  intros Hnone coverage. unfold Coverage.determine_category. rewrite Hnone.
  repeat match goal with
         | |- context [if ?b then _ else _] => destruct b
         end; cbn [In]; auto 6.
Qed.

Lemma determined_category_is_one_of_five_witness :
  str_truthy None = false
  /\ Coverage.determine_category empty_policy None ["Viral fever"] "Viral fever"
                                 ["Paracetamol"] ["CBC"]
     = ("diagnostic", 10000).
Proof.
  assert (H : str_truthy None = false) by reflexivity.
  split; [exact H|].
  destruct (@determined_category_is_one_of_five
              empty_policy None ["Viral fever"] "Viral fever" ["Paracetamol"] ["CBC"] H)
    as [E|[E|[E|[E|[E|[]]]]]];
    try (vm_compute in E; discriminate E).
  symmetry. exact E.
Defined.
